(** * Refresh-token rotation of fiber-api: a shallow embedding and its properties

    The Go packages [repositories] (token_repository.go), [models]
    (refresh_token.go), [helpers] (jwt_helper.go) and the [Logout] handler are
    embedded as Rocq functions.  The database handle of gorm is modelled as a
    table of rows passed explicitly; the environment of a call (clock readings,
    the uuid drawn by [BeforeCreate], the jwt signer and the statements the
    database rejects) is a record [Env].  Calls are sequential: a transaction
    sees the table of its [Begin] and nothing interleaves with it.

    The libraries the code calls (crypto/sha256, encoding/hex, uuid, the
    statements of gorm, the part of fiber that [Logout] uses) are modelled
    after their Go sources and documentation. *)

From Stdlib Require Import ZArith List String Ascii Bool Lia DecimalString.
Import ListNotations.
Local Open Scope Z_scope.

(** ** crypto/sha256 (the generic block function of the Go standard library) *)

Module sha256.

(** uint32 arithmetic: every result is reduced modulo 2^32. *)
Definition u32 (x : Z) : Z := x mod 4294967296.
Definition add32 (x y : Z) : Z := u32 (x + y).
(** [bits.RotateLeft32(x, -n)] *)
Definition rotr (x n : Z) : Z :=
  u32 (Z.lor (Z.shiftr x n) (Z.shiftl x (32 - n))).
(** [^x] on a uint32 *)
Definition not32 (x : Z) : Z := Z.lxor x 4294967295.

Definition chunk : nat := 64.

(** A table of 32-bit words written as eight hexadecimal digits each. *)
Definition hex_value (c : ascii) : Z :=
  let n := Z.of_N (N_of_ascii c) in
  if n <? 58 then n - 48 else n - 87.

Fixpoint words_of_hex (s : string) : list Z :=
  match s with
  | String a (String b (String c (String d
      (String e (String f (String g (String h rest))))))) =>
      fold_left (fun acc x => 16 * acc + hex_value x) [a; b; c; d; e; f; g; h] 0
        :: words_of_hex rest
  | _ => []
  end.

(** The round constants [_K] of sha256block.go, row by row. *)
Definition _K : list Z :=
  Eval vm_compute in
    words_of_hex
      ("428a2f9871374491b5c0fbcfe9b5dba53956c25b59f111f1923f82a4ab1c5ed5"
       ++ "d807aa9812835b01243185be550c7dc372be5d7480deb1fe9bdc06a7c19bf174"
       ++ "e49b69c1efbe47860fc19dc6240ca1cc2de92c6f4a7484aa5cb0a9dc76f988da"
       ++ "983e5152a831c66db00327c8bf597fc7c6e00bf3d5a7914706ca635114292967"
       ++ "27b70a852e1b21384d2c6dfc53380d13650a7354766a0abb81c2c92e92722c85"
       ++ "a2bfe8a1a81a664bc24b8b70c76c51a3d192e819d6990624f40e3585106aa070"
       ++ "19a4c1161e376c082748774c34b0bcb5391c0cb34ed8aa4a5b9cca4f682e6ff3"
       ++ "748f82ee78a5636f84c878148cc7020890befffaa4506cebbef9a3f7c67178f2")%string.

(** [dig.h], the eight chaining words. *)
Record digest : Type := mkDigest {
  h0 : Z; h1 : Z; h2 : Z; h3 : Z; h4 : Z; h5 : Z; h6 : Z; h7 : Z
}.

(** [d.Reset()] *)
Definition init : digest :=
  Eval vm_compute in
  match words_of_hex
          "6a09e667bb67ae853c6ef372a54ff53a510e527f9b05688c1f83d9ab5be0cd19" with
  | [a; b; c; d; e; f; g; h] => mkDigest a b c d e f g h
  | _ => mkDigest 0 0 0 0 0 0 0 0
  end.

Definition at_ (w : list Z) (i : nat) : Z := nth i w 0.

(** [w[i] = uint32(p[j])<<24 | uint32(p[j+1])<<16 | uint32(p[j+2])<<8 | uint32(p[j+3])]
    for [i] below 16. *)
Fixpoint load_words (n : nat) (p : list Z) : list Z :=
  match n with
  | O => []
  | S n' =>
      Z.lor (Z.lor (Z.lor (Z.shiftl (at_ p 0) 24) (Z.shiftl (at_ p 1) 16))
                   (Z.shiftl (at_ p 2) 8)) (at_ p 3)
      :: load_words n' (skipn 4 p)
  end.

(** The loop [for i := 16; i < 64; i++] that extends the schedule; [w]
    holds the words computed so far and [i] is its length. *)
Fixpoint extend (n : nat) (i : nat) (w : list Z) : list Z :=
  match n with
  | O => w
  | S n' =>
      let v1 := at_ w (i - 2) in
      let t1 := Z.lxor (Z.lxor (rotr v1 17) (rotr v1 19)) (Z.shiftr v1 10) in
      let v2 := at_ w (i - 15) in
      let t2 := Z.lxor (Z.lxor (rotr v2 7) (rotr v2 18)) (Z.shiftr v2 3) in
      extend n' (S i)
             (w ++ [add32 (add32 (add32 t1 (at_ w (i - 7))) t2) (at_ w (i - 16))])
  end.

(** One pass of the loop [for i := 0; i < 64; i++] over the working
    variables [a..h], here the fields of a [digest]. *)
Definition round (v : digest) (k w : Z) : digest :=
  let '(mkDigest a b c d e f g h) := v in
  let t1 :=
    add32 (add32 (add32 (add32 h
      (Z.lxor (Z.lxor (rotr e 6) (rotr e 11)) (rotr e 25)))
      (Z.lxor (Z.land e f) (Z.land (not32 e) g))) k) w in
  let t2 :=
    add32 (Z.lxor (Z.lxor (rotr a 2) (rotr a 13)) (rotr a 22))
          (Z.lxor (Z.lxor (Z.land a b) (Z.land a c)) (Z.land b c)) in
  mkDigest (add32 t1 t2) a b c (add32 d t1) e f g.

Fixpoint rounds (v : digest) (ks ws : list Z) : digest :=
  match ks, ws with
  | k :: ks', w :: ws' => rounds (round v k w) ks' ws'
  | _, _ => v
  end.

(** The body of [for len(p) >= chunk] for one 64-byte chunk. *)
Definition block1 (dig : digest) (p : list Z) : digest :=
  let w := extend 48 16 (load_words 16 p) in
  let '(mkDigest a b c d e f g h) := rounds dig _K w in
  mkDigest (add32 (h0 dig) a) (add32 (h1 dig) b) (add32 (h2 dig) c)
           (add32 (h3 dig) d) (add32 (h4 dig) e) (add32 (h5 dig) f)
           (add32 (h6 dig) g) (add32 (h7 dig) h).

(** [blockGeneric(dig, p)]: one iteration per whole chunk of [p]. *)
Fixpoint block_loop (n : nat) (dig : digest) (p : list Z) : digest :=
  match n with
  | O => dig
  | S n' => block_loop n' (block1 dig (firstn chunk p)) (skipn chunk p)
  end.

Definition block (dig : digest) (p : list Z) : digest :=
  block_loop (Nat.div (List.length p) chunk) dig p.

(** [byteorder.BEPutUint32] and [byteorder.BEPutUint64]; a [byte(...)]
    conversion keeps the low eight bits. *)
Definition byte_of (x : Z) : Z := x mod 256.
Definition be32 (x : Z) : list Z :=
  [ byte_of (Z.shiftr x 24); byte_of (Z.shiftr x 16);
    byte_of (Z.shiftr x 8); byte_of x ].
Definition be64 (x : Z) : list Z :=
  [ byte_of (Z.shiftr x 56); byte_of (Z.shiftr x 48);
    byte_of (Z.shiftr x 40); byte_of (Z.shiftr x 32);
    byte_of (Z.shiftr x 24); byte_of (Z.shiftr x 16);
    byte_of (Z.shiftr x 8); byte_of x ].

(** [d.checkSum()]: the bytes appended to a message of [len] bytes, a 1 bit,
    zero bits up to 56 bytes modulo 64, and the bit length as a uint64. *)
Definition padding (len : Z) : list Z :=
  let t := if len mod 64 <? 56 then 56 - len mod 64 else 64 + 56 - len mod 64 in
  0x80 :: repeat 0 (Z.to_nat t - 1) ++ be64 ((len * 8) mod 18446744073709551616).

(** [sha256.Sum256(data)] *)
Definition Sum256 (data : list Z) : list Z :=
  let d := block init (data ++ padding (Z.of_nat (List.length data))) in
  be32 (h0 d) ++ be32 (h1 d) ++ be32 (h2 d) ++ be32 (h3 d) ++
  be32 (h4 d) ++ be32 (h5 d) ++ be32 (h6 d) ++ be32 (h7 d).

End sha256.

(** ** encoding/hex *)

Module hex.

Definition hextable : string := "0123456789abcdef".

Definition digit (i : Z) : ascii :=
  match String.get (Z.to_nat i) hextable with
  | Some c => c
  | None => "0"%char
  end.

(** [hex.EncodeToString(src)]: [hextable[v>>4]] then [hextable[v&0x0f]] for
    every byte [v]. *)
Fixpoint EncodeToString (src : list Z) : string :=
  match src with
  | [] => EmptyString
  | v :: rest =>
      String (digit (Z.shiftr v 4))
             (String (digit (Z.land v 15)) (EncodeToString rest))
  end.

End hex.

(** The conversion [[]byte(s)] of a Go string. *)
Fixpoint bytes_of_string (s : string) : list Z :=
  match s with
  | EmptyString => []
  | String c rest => Z.of_N (N_of_ascii c) :: bytes_of_string rest
  end.

(** ** time: an instant is a count of nanoseconds since the Unix epoch *)

Module time.

Definition Time : Type := Z.
Definition Duration : Type := Z.

Definition Second : Duration := 1000000000.
Definition Minute : Duration := 60 * Second.
Definition Hour : Duration := 60 * Minute.

Definition Add (t : Time) (d : Duration) : Time := t + d.
(** [t.Unix()]: whole seconds since the epoch, rounded down. *)
Definition Unix (t : Time) : Z := t / Second.
(** The zero value of [time.Time], January 1 of year 1. *)
Definition zero : Time := -62135596800 * Second.

End time.

(** ** github.com/google/uuid: a UUID is its 16 bytes read as a big-endian
    number below 2^128 *)

Module uuid.

Definition UUID : Type := Z.
Definition Nil : UUID := 0.

(** [uuid.New()] on 16 random bytes [r]: byte 6 becomes
    [(b & 0x0f) | 0x40] (version 4) and byte 8 [(b & 0x3f) | 0x80]
    (variant 10). *)
Definition New (r : Z) : UUID :=
  let r := r mod 2 ^ 128 in
  let r := Z.lor (Z.land r (Z.lnot (Z.shiftl 0xf0 72))) (Z.shiftl 0x40 72) in
  Z.lor (Z.land r (Z.lnot (Z.shiftl 0xc0 56))) (Z.shiftl 0x80 56).

Fixpoint bytes (n : nat) (u : Z) : list Z :=
  match n with
  | O => []
  | S n' => bytes n' (Z.shiftr u 8) ++ [u mod 256]
  end.

(** [u.String()]: xxxxxxxx-xxxx-xxxx-xxxx-xxxxxxxxxxxx *)
Definition String (u : UUID) : string :=
  let h := hex.EncodeToString (bytes 16 u) in
  (substring 0 8 h ++ "-" ++ substring 8 4 h ++ "-" ++ substring 12 4 h ++ "-"
     ++ substring 16 4 h ++ "-" ++ substring 20 12 h)%string.

End uuid.

(** ** Go errors that the modelled code can return *)

Inductive error : Type :=
| ErrRecordNotFound                (* gorm.ErrRecordNotFound *)
| ErrTokenReuse                    (* fmt.Errorf("token reuse detected") *)
| ErrDatabase (code : Z)           (* an error of the database driver *)
| ErrSigning (msg : string).       (* an error of jwt's SignedString *)

(** ** models/refresh_token.go *)

Module models.

(** The [User] association field is never loaded nor written by the code
    modelled here and is left out. *)
Record RefreshToken : Type := mkRefreshToken {
  ID : uuid.UUID;
  UserID : uuid.UUID;
  TokenHash : string;
  IsRevoked : bool;
  ExpiresAt : time.Time;
  CreatedAt : time.Time
}.

Definition with_ID (t : RefreshToken) (id : uuid.UUID) : RefreshToken :=
  mkRefreshToken id (UserID t) (TokenHash t) (IsRevoked t) (ExpiresAt t) (CreatedAt t).
Definition with_IsRevoked (t : RefreshToken) (b : bool) : RefreshToken :=
  mkRefreshToken (ID t) (UserID t) (TokenHash t) b (ExpiresAt t) (CreatedAt t).
Definition with_CreatedAt (t : RefreshToken) (c : time.Time) : RefreshToken :=
  mkRefreshToken (ID t) (UserID t) (TokenHash t) (IsRevoked t) (ExpiresAt t) c.

(** [func (token *RefreshToken) BeforeCreate(tx *gorm.DB) (err error)];
    [r] is the randomness read by [uuid.New()]. *)
Definition BeforeCreate (r : Z) (token : RefreshToken) : RefreshToken :=
  with_ID token (uuid.New r).

End models.

(** ** gorm over the refresh_tokens table

    A table is the list of its rows.  A statement either fails as a whole,
    leaving the table as it was, or is applied; which statements the database
    rejects is decided by the environment ([faults]).  Each call on a handle
    returns the table together with the [Error] field of the result. *)

Module gorm.

Import models.

Definition Table : Type := list RefreshToken.

Inductive stmt : Type := StFirst | StUpdate | StSave | StCreate | StCommit.

Definition faults : Type := stmt -> option Z.

(** The row of least primary key, as [ORDER BY id LIMIT 1] selects it. *)
Fixpoint least (rows : list RefreshToken) : option RefreshToken :=
  match rows with
  | [] => None
  | r :: rest =>
      match least rest with
      | None => Some r
      | Some m => if ID r <=? ID m then Some r else Some m
      end
  end.

(** [db.Where("token_hash = ?", hash).First(&dest)] *)
Definition First (f : faults) (t : Table) (hash : string)
  : RefreshToken + error :=
  match f StFirst with
  | Some c => inr (ErrDatabase c)
  | None =>
      match least (filter (fun r => String.eqb (TokenHash r) hash) t) with
      | Some r => inl r
      | None => inr ErrRecordNotFound
      end
  end.

(** [db.Model(&models.RefreshToken{}).Where(cond).Update("is_revoked", true)] *)
Definition UpdateIsRevoked (f : faults) (t : Table) (cond : RefreshToken -> bool)
  : Table * option error :=
  match f StUpdate with
  | Some c => (t, Some (ErrDatabase c))
  | None =>
      (map (fun r => if cond r then with_IsRevoked r true else r) t, None)
  end.

(** gorm fills a zero [CreatedAt] with the current time on creation. *)
Definition stamp (now : time.Time) (value : RefreshToken) : RefreshToken :=
  if CreatedAt value =? time.zero then with_CreatedAt value now else value.

(** The INSERT of [db.Create(&value)]: the [BeforeCreate] hook, then
    [CreatedAt], then the row is added unless its primary key is taken
    (SQLITE_CONSTRAINT_PRIMARYKEY). *)
Definition insert (rand : Z) (now : time.Time) (t : Table) (value : RefreshToken)
  : Table * option error :=
  let value := stamp now (BeforeCreate rand value) in
  if existsb (fun r => ID r =? ID value) t
  then (t, Some (ErrDatabase 1555))
  else (t ++ [value], None).

(** [db.Create(&value)] *)
Definition Create (f : faults) (rand : Z) (now : time.Time) (t : Table)
    (value : RefreshToken) : Table * option error :=
  match f StCreate with
  | Some c => (t, Some (ErrDatabase c))
  | None => insert rand now t value
  end.

(** [db.Save(&value)]: with a zero primary key it is a Create; otherwise
    all columns of the row with that key are written, and the row is
    inserted, without hooks, when no row has the key. *)
Definition Save (f : faults) (rand : Z) (now : time.Time) (t : Table)
    (value : RefreshToken) : Table * option error :=
  match f StSave with
  | Some c => (t, Some (ErrDatabase c))
  | None =>
      if ID value =? uuid.Nil then insert rand now t value
      else if existsb (fun r => ID r =? ID value) t
      then (map (fun r => if ID r =? ID value then value else r) t, None)
      else (t ++ [stamp now value], None)
  end.

(** A transaction [tx := db.Begin()] works on a copy of the table;
    [tx.Commit()] installs the copy unless the commit fails, and
    [tx.Rollback()] drops it.  A failure to begin shows as the failure of
    the first statement run on the handle. *)
Definition Begin (db : Table) : Table := db.

Definition Commit (f : faults) (db tx : Table) : Table * option error :=
  match f StCommit with
  | Some c => (db, Some (ErrDatabase c))
  | None => (tx, None)
  end.

Definition Rollback (db tx : Table) : Table := db.

End gorm.

(** ** helpers/jwt_helper.go *)

Module jwt.

(** [jwt.MapClaims{"iss": ..., "exp": ...}] *)
Record MapClaims : Type := mkClaims { iss : string; exp : Z }.

(** [jwt.NewWithClaims(jwt.SigningMethodHS256, claims).SignedString(key)]
    is a function of the key and the claims. *)
Definition signer : Type := string -> MapClaims -> string + error.

End jwt.

(** What a call reads from outside the program. *)
Record Env : Type := mkEnv {
  Now : nat -> time.Time;          (* time.Now(), by call site in source order;
                                      3 and 4 are gorm's own readings *)
  Rand : gorm.stmt -> Z;           (* the random bytes uuid.New() reads in the
                                      hook run by a statement *)
  SignedString : jwt.signer;       (* the jwt library *)
  Fault : gorm.faults              (* the statements the database rejects *)
}.

Module helpers.

Definition SecretKey : string := "secret".

Definition GenerateToken (env : Env) (issuer : string)
    (expirationTime : time.Time) : string + error :=
  SignedString env SecretKey
    (jwt.mkClaims issuer (time.Unix expirationTime)).

End helpers.

(** ** repositories/token_repository.go *)

Module repositories.

Import models.

Definition HashToken (token : string) : string :=
  hex.EncodeToString (sha256.Sum256 (bytes_of_string token)).

(** The struct literal [models.RefreshToken{UserID: .., TokenHash: ..,
    ExpiresAt: ..}]; the other fields have their zero value. *)
Definition literal (userID : uuid.UUID) (tokenHash : string)
    (expiresAt : time.Time) : RefreshToken :=
  mkRefreshToken uuid.Nil userID tokenHash false expiresAt time.zero.

Definition StoreRefreshToken (env : Env) (db : gorm.Table)
    (userID : uuid.UUID) (token : string) (expiresAt : time.Time)
  : gorm.Table * option error :=
  let refreshToken := literal userID (HashToken token) expiresAt in
  gorm.Create (Fault env) (Rand env gorm.StCreate) (Now env 0) db refreshToken.

Definition RotateRefreshToken (env : Env) (db : gorm.Table)
    (oldTokenString : string)
  : gorm.Table * (string * string * option error) :=
  let tx := gorm.Begin db in
  let hash := HashToken oldTokenString in
  match gorm.First (Fault env) tx hash with
  | inr err => (gorm.Rollback db tx, (EmptyString, EmptyString, Some err))
  | inl dbToken =>
      if IsRevoked dbToken then
        let '(tx, _) :=
          gorm.UpdateIsRevoked (Fault env) tx
            (fun r => UserID r =? UserID dbToken) in
        let '(db', _) := gorm.Commit (Fault env) db tx in
        (db', (EmptyString, EmptyString, Some ErrTokenReuse))
      else
        let dbToken := with_IsRevoked dbToken true in
        let '(tx, _) :=
          gorm.Save (Fault env) (Rand env gorm.StSave) (Now env 4) tx dbToken in
        match helpers.GenerateToken env (uuid.String (UserID dbToken))
                (time.Add (Now env 0) (15 * time.Minute)) with
        | inr err => (gorm.Rollback db tx, (EmptyString, EmptyString, Some err))
        | inl newAccessToken =>
            match helpers.GenerateToken env (uuid.String (UserID dbToken))
                    (time.Add (Now env 1) (7 * 24 * time.Hour)) with
            | inr err =>
                (gorm.Rollback db tx, (EmptyString, EmptyString, Some err))
            | inl newRefreshToken =>
                let newDbToken :=
                  literal (UserID dbToken) (HashToken newRefreshToken)
                    (time.Add (Now env 2) (7 * 24 * time.Hour)) in
                match gorm.Create (Fault env) (Rand env gorm.StCreate) (Now env 3) tx
                        newDbToken with
                | (_, Some err) =>
                    (gorm.Rollback db tx, (EmptyString, EmptyString, Some err))
                | (tx, None) =>
                    let '(db', _) := gorm.Commit (Fault env) db tx in
                    (db', (newAccessToken, newRefreshToken, None))
                end
            end
        end
  end.

End repositories.

(** ** The HS256 compact serialisation produced by golang-jwt

    [hs256] is the signer used in the concrete scenarios below.  Claims are
    marshalled with their keys in sorted order; the issuer is written between
    quotes as it is, which is what encoding/json does for the strings
    [uuid.String] returns. *)

Module hmac.

(** [hmac.New(sha256.New, key)] followed by [Write(msg)] and [Sum(nil)]. *)
Definition Sum (key msg : list Z) : list Z :=
  let key := if (64 <? List.length key)%nat then sha256.Sum256 key else key in
  let key := key ++ repeat 0 (64 - List.length key) in
  let ipad := map (Z.lxor 0x36) key in
  let opad := map (Z.lxor 0x5c) key in
  sha256.Sum256 (opad ++ sha256.Sum256 (ipad ++ msg)).

End hmac.

Module base64.

Definition encodeURL : string :=
  "ABCDEFGHIJKLMNOPQRSTUVWXYZabcdefghijklmnopqrstuvwxyz0123456789-_".

Definition sym (i : Z) : ascii :=
  match String.get (Z.to_nat i) encodeURL with
  | Some c => c
  | None => "A"%char
  end.

(** [base64.RawURLEncoding.EncodeToString(src)] *)
Fixpoint EncodeToString (src : list Z) : string :=
  match src with
  | a :: b :: c :: rest =>
      let v := Z.lor (Z.lor (Z.shiftl a 16) (Z.shiftl b 8)) c in
      String (sym (Z.land (Z.shiftr v 18) 63))
        (String (sym (Z.land (Z.shiftr v 12) 63))
          (String (sym (Z.land (Z.shiftr v 6) 63))
            (String (sym (Z.land v 63)) (EncodeToString rest))))
  | [a; b] =>
      let v := Z.lor (Z.shiftl a 16) (Z.shiftl b 8) in
      String (sym (Z.land (Z.shiftr v 18) 63))
        (String (sym (Z.land (Z.shiftr v 12) 63))
          (String (sym (Z.land (Z.shiftr v 6) 63)) EmptyString))
  | [a] =>
      let v := Z.shiftl a 16 in
      String (sym (Z.land (Z.shiftr v 18) 63))
        (String (sym (Z.land (Z.shiftr v 12) 63)) EmptyString)
  | [] => EmptyString
  end.

End base64.

Module hs256.

Definition quote : string := String "034"%char EmptyString.

Definition decimal (z : Z) : string := NilZero.string_of_int (Z.to_int z).

(** The header of [jwt.NewWithClaims(jwt.SigningMethodHS256, _)]. *)
Definition header : string :=
  ("{" ++ quote ++ "alg" ++ quote ++ ":" ++ quote ++ "HS256" ++ quote ++ ","
       ++ quote ++ "typ" ++ quote ++ ":" ++ quote ++ "JWT" ++ quote ++ "}")%string.

Definition payload (c : jwt.MapClaims) : string :=
  ("{" ++ quote ++ "exp" ++ quote ++ ":" ++ decimal (jwt.exp c) ++ ","
       ++ quote ++ "iss" ++ quote ++ ":" ++ quote ++ jwt.iss c ++ quote ++ "}")%string.

Definition SignedString : jwt.signer := fun key claims =>
  let signing :=
    (base64.EncodeToString (bytes_of_string header) ++ "."
       ++ base64.EncodeToString (bytes_of_string (payload claims)))%string in
  let sig := hmac.Sum (bytes_of_string key) (bytes_of_string signing) in
  inl (signing ++ "." ++ base64.EncodeToString sig)%string.

End hs256.

(** ** fiber: the part of a request context the handlers touch *)

Module fiber.

Record Cookie : Type := mkCookie {
  Name : string;
  Value : string;
  Expires : time.Time
}.

(** [fiber.Map] with string values. *)
Definition Map : Type := list (string * string).

Record Ctx : Type := mkCtx {
  request_cookies : list (string * string);   (* the Cookie request header *)
  status : Z;                                 (* the response status *)
  response_cookies : list Cookie;             (* the Set-Cookie headers *)
  body : Map                                  (* the JSON response body *)
}.

Definition StatusOK : Z := 200.

(** The context fiber hands to a handler. *)
Definition acquire (cookies : list (string * string)) : Ctx :=
  mkCtx cookies StatusOK [] [].

(** [c.Cookies(key)]: the value of the request cookie, or the empty
    string. *)
Definition Cookies (c : Ctx) (key : string) : string :=
  match find (fun kv => String.eqb (fst kv) key) (request_cookies c) with
  | Some kv => snd kv
  | None => EmptyString
  end.

(** fasthttp's [CookieExpireDelete], 10 Nov 2009 23:00:00 UTC. *)
Definition CookieExpireDelete : time.Time := 1257894000 * time.Second.

(** [c.ClearCookie(key)]: fasthttp's [DelClientCookie] drops a response
    cookie of that name and sets one that is already expired. *)
Definition ClearCookie (c : Ctx) (key : string) : Ctx :=
  mkCtx (request_cookies c) (status c)
    (filter (fun k => negb (String.eqb (Name k) key)) (response_cookies c)
       ++ [mkCookie key EmptyString CookieExpireDelete])
    (body c).

(** [c.JSON(data)]; marshalling a map of strings does not fail. *)
Definition JSON (c : Ctx) (data : Map) : Ctx * option error :=
  (mkCtx (request_cookies c) (status c) (response_cookies c) data, None).

End fiber.

(** ** handlers: the Logout handler *)

Module handlers.

Import models.

Definition Logout (env : Env) (db : gorm.Table) (c : fiber.Ctx)
  : gorm.Table * fiber.Ctx * option error :=
  let cookie := fiber.Cookies c "refresh_token" in
  let hash := repositories.HashToken cookie in
  let '(db, _) :=
    gorm.UpdateIsRevoked (Fault env) db
      (fun r => String.eqb (TokenHash r) hash) in
  let c := fiber.ClearCookie c "refresh_token" in
  let '(c, err) :=
    fiber.JSON c [("message", "Logged out successfully")]%string in
  (db, c, err).

End handlers.

(** ** Sequences of calls on the table *)

Inductive op : Type :=
| OpStore (userID : uuid.UUID) (token : string) (expiresAt : time.Time)
| OpRotate (oldTokenString : string)
| OpLogout (c : fiber.Ctx).

(** The table a call leaves behind. *)
Definition exec (env : Env) (o : op) (db : gorm.Table) : gorm.Table :=
  match o with
  | OpStore userID token expiresAt =>
      fst (repositories.StoreRefreshToken env db userID token expiresAt)
  | OpRotate oldTokenString =>
      fst (repositories.RotateRefreshToken env db oldTokenString)
  | OpLogout c => fst (fst (handlers.Logout env db c))
  end.

Fixpoint run (calls : list (Env * op)) (db : gorm.Table) : gorm.Table :=
  match calls with
  | [] => db
  | (env, o) :: rest => run rest (exec env o db)
  end.

(** ** Predicates used in the statements *)

(** [r'] is the record [r] later on: same identity, and revoked if [r] was. *)
Definition keeps (r r' : models.RefreshToken) : Prop :=
  models.ID r' = models.ID r /\
  (models.IsRevoked r = true -> models.IsRevoked r' = true).

(** Every record of [db] is still in [db'], at its place, revoked if it was. *)
Definition grows (db db' : gorm.Table) : Prop :=
  forall i r, nth_error db i = Some r ->
  exists r', nth_error db' i = Some r' /\ keeps r r'.

(** The records other than the one with primary key [id] are untouched. *)
Definition others_untouched (id : uuid.UUID) (db db' : gorm.Table) : Prop :=
  forall i r, nth_error db i = Some r -> models.ID r <> id ->
  nth_error db' i = Some r.


(** The ways step 5 of a rotation can fail for the session [s]: either
    token cannot be signed, or the INSERT of the successor is rejected, by a
    fault or because the drawn uuid is already a primary key. *)
Inductive issuance_fails (env : Env) (db : gorm.Table)
    (s : models.RefreshToken) : Prop :=
| AccessTokenFails (e : error) :
    helpers.GenerateToken env (uuid.String (models.UserID s))
      (time.Add (Now env 0) (15 * time.Minute)) = inr e ->
    issuance_fails env db s
| RefreshTokenFails (e : error) :
    helpers.GenerateToken env (uuid.String (models.UserID s))
      (time.Add (Now env 1) (7 * 24 * time.Hour)) = inr e ->
    issuance_fails env db s
| CreateRejected (code : Z) :
    Fault env gorm.StCreate = Some code ->
    issuance_fails env db s
| CreateKeyTaken :
    In (uuid.New (Rand env gorm.StCreate)) (map models.ID db) ->
    issuance_fails env db s.


(** The row a successful rotation of the session [s] inserts for the new
    refresh token. *)
Definition successor (env : Env) (s : models.RefreshToken)
    (newRefreshToken : string) : models.RefreshToken :=
  models.mkRefreshToken (uuid.New (Rand env gorm.StCreate)) (models.UserID s)
    (repositories.HashToken newRefreshToken) false
    (time.Add (Now env 2) (7 * 24 * time.Hour)) (Now env 3).

(** The table after the row with the primary key of [s] is saved revoked. *)
Definition revoke_one (s : models.RefreshToken) (db : gorm.Table) : gorm.Table :=
  map (fun r => if models.ID r =? models.ID s
                then models.with_IsRevoked s true else r) db.

(** The table after every session of the owner of [s] is revoked. *)
Definition revoke_owner (s : models.RefreshToken) (db : gorm.Table) : gorm.Table :=
  map (fun r => if models.UserID r =? models.UserID s
                then models.with_IsRevoked r true else r) db.

(** ** A concrete scenario

    One user logs in at [t_login]: [Login] signs a refresh token that expires
    seven days later and stores its session.  The environments differ in the
    clock and in the statements the database rejects. *)

Module scenario.

Definition user : uuid.UUID := 0x123e4567e89b42d3a456426614174000.

Definition t_login : time.Time := 1700000000 * time.Second + 250000000.

Definition week : time.Duration := 7 * 24 * time.Hour.

Definition env_at (now : time.Time) (seed : Z) (f : gorm.faults) : Env :=
  mkEnv (fun _ => now) (fun _ => seed) hs256.SignedString f.

Definition no_fault : gorm.faults := fun _ => None.

(** SQLITE_BUSY on the UPDATE statement. *)
Definition update_busy : gorm.faults :=
  fun st => match st with gorm.StUpdate => Some 5 | _ => None end.

Definition env_login : Env := env_at t_login 1 no_fault.

(** The refresh token [Login] signs. *)
Definition token : string :=
  match helpers.GenerateToken env_login (uuid.String user)
          (time.Add t_login week) with
  | inl t => t
  | inr _ => EmptyString
  end.

(** The table after [Login] stored the session. *)
Definition db_login : gorm.Table :=
  fst (repositories.StoreRefreshToken env_login [] user token
         (time.Add t_login week)).

(** The session of that login. *)
Definition session : models.RefreshToken :=
  nth 0 db_login (repositories.literal uuid.Nil EmptyString time.zero).


(** A refresh eight days after the login. *)
Definition env_late : Env :=
  env_at (t_login + 8 * 24 * time.Hour) 2 no_fault.

(** A refresh one hour after the login, and a second login in between. *)
Definition env_hour : Env := env_at (t_login + time.Hour) 2 no_fault.
Definition env_login2 : Env := env_at (t_login + 60 * time.Second) 3 no_fault.

Definition token2 : string :=
  match helpers.GenerateToken env_login2 (uuid.String user)
          (time.Add (Now env_login2 0) week) with
  | inl t => t
  | inr _ => EmptyString
  end.

(** Two sessions of the user, the first already rotated once. *)
Definition db_two : gorm.Table :=
  fst (repositories.StoreRefreshToken env_login2
         (fst (repositories.RotateRefreshToken env_hour db_login token))
         user token2 (time.Add (Now env_login2 0) week)).


(** The first session once rotated. *)
Definition session_rotated : models.RefreshToken :=
  nth 0 db_two (repositories.literal uuid.Nil EmptyString time.zero).

(** A refresh during which the database rejects the INSERT. *)
Definition insert_busy : gorm.faults :=
  fun st => match st with gorm.StCreate => Some 5 | _ => None end.
Definition env_insert_busy : Env := env_at (t_login + time.Hour) 2 insert_busy.

(** The request of a logout that carries the first token. *)
Definition logout_request : fiber.Ctx :=
  fiber.acquire [("refresh_token"%string, token)].

(** The replay of the first token while the database rejects the UPDATE. *)
Definition env_replay_busy : Env :=
  env_at (t_login + 2 * time.Hour) 4 update_busy.
Definition env_replay : Env :=
  env_at (t_login + 2 * time.Hour) 4 no_fault.

End scenario.

(** * The rest of the application

    The handlers below call libraries whose results depend on data the
    program does not inspect itself: the decoding of a request body, the
    validation of a struct, bcrypt, the verification of a JWT.  Their
    results are read from a record [Deps], as the clock and the database
    faults are read from [Env]. *)

(** ** Go maps from strings to strings *)

Module gomap.

Definition t : Type := list (string * string).

(** [make(map[string]string)] *)
Definition empty : t := [].

(** [m[k] = v] *)
Fixpoint set (m : t) (k v : string) : t :=
  match m with
  | [] => [(k, v)]
  | (k', v') :: rest =>
      if String.eqb k' k then (k, v) :: rest else (k', v') :: set rest k v
  end.

(** [v, ok := m[k]] *)
Fixpoint get (m : t) (k : string) : option string :=
  match m with
  | [] => None
  | (k', v') :: rest => if String.eqb k' k then Some v' else get rest k
  end.

End gomap.

(** ** helpers/validation.go *)

Module validator.

(** What the handler reads of a [validator.FieldError]. *)
Record FieldError : Type := mkFieldError {
  Field : string;
  Tag : string;
  Param : string
}.

(** The errors [validate.Struct] returns: [validator.ValidationErrors], or
    an error of another type. *)
Inductive Error : Type :=
| ValidationErrors (errs : list FieldError)
| InvalidValidationError (msg : string).

End validator.

Module validation.

Import validator.

(** The [switch tag] of the loop body. *)
Definition message (fieldError : FieldError) : string :=
  let field := Field fieldError in
  let tag := Tag fieldError in
  if String.eqb tag "required" then field ++ " is required"
  else if String.eqb tag "min" then
    field ++ " must be at least " ++ Param fieldError ++ " characters"
  else if String.eqb tag "max" then
    field ++ " must be at most " ++ Param fieldError ++ " characters"
  else if String.eqb tag "email" then field ++ " must be a valid email"
  else field ++ " is invalid".

Definition FormatValidationErrors (err : Error) : gomap.t :=
  let errors := gomap.empty in
  match err with
  | InvalidValidationError _ => gomap.set errors "error" "Invalid input"
  | ValidationErrors validationErrors =>
      fold_left
        (fun errors fieldError =>
           gomap.set errors (Field fieldError) (message fieldError))
        validationErrors errors
  end.

End validation.

(** ** models/user.go *)

Module models_user.

(** [Password] is a byte slice, here the string of its bytes. *)
Record User : Type := mkUser {
  ID : uuid.UUID;
  FirstName : string;
  LastName : string;
  Email : string;
  Password : string;
  CreatedAt : time.Time;
  UpdatedAt : time.Time
}.

(** [models.User{}] *)
Definition zero : User :=
  mkUser uuid.Nil EmptyString EmptyString EmptyString EmptyString
    time.zero time.zero.

Definition with_ID (u : User) (id : uuid.UUID) : User :=
  mkUser id (FirstName u) (LastName u) (Email u) (Password u)
    (CreatedAt u) (UpdatedAt u).
Definition with_FirstName (u : User) (s : string) : User :=
  mkUser (ID u) s (LastName u) (Email u) (Password u)
    (CreatedAt u) (UpdatedAt u).
Definition with_LastName (u : User) (s : string) : User :=
  mkUser (ID u) (FirstName u) s (Email u) (Password u)
    (CreatedAt u) (UpdatedAt u).
Definition with_CreatedAt (u : User) (t : time.Time) : User :=
  mkUser (ID u) (FirstName u) (LastName u) (Email u) (Password u)
    t (UpdatedAt u).
Definition with_UpdatedAt (u : User) (t : time.Time) : User :=
  mkUser (ID u) (FirstName u) (LastName u) (Email u) (Password u)
    (CreatedAt u) t.

(** [func (user *User) BeforeCreate(tx *gorm.DB) (err error)] *)
Definition BeforeCreate (r : Z) (user : User) : User :=
  with_ID user (uuid.New r).

End models_user.

(** ** dtos *)

Module dtos.

Record User : Type := mkUser {
  Id : string;
  FirstName : string;
  LastName : string;
  Email : string
}.

(** [dtos.UpdateUser]; a nil pointer is [None]. *)
Module UpdateUser.
Record t : Type := mk {
  FirstName : option string;
  LastName : option string;
  Email : option string
}.
End UpdateUser.

Module RegisterRequest.
Record t : Type := mk {
  FirstName : string;
  LastName : string;
  Email : string;
  Password : string
}.
End RegisterRequest.

Module LoginRequest.
Record t : Type := mk {
  Email : string;
  Password : string
}.
End LoginRequest.

Definition CreateResponseUser (user : models_user.User) : User :=
  mkUser (uuid.String (models_user.ID user)) (models_user.FirstName user)
    (models_user.LastName user) (models_user.Email user).

End dtos.

(** ** gorm over the users table

    The id column is declared [type:string] and holds the text of the uuid;
    the email column is declared [unique]. *)

Module gorm_users.

Import models_user.

Definition Table : Type := list User.

Inductive stmt : Type := StFind | StFirst | StCreate | StSave | StDelete.

Definition faults : Type := stmt -> option Z.

(** The value of the id column. *)
Definition key (u : User) : string := uuid.String (ID u).

(** The row of least id, as [ORDER BY id LIMIT 1] selects it. *)
Fixpoint least (rows : list User) : option User :=
  match rows with
  | [] => None
  | r :: rest =>
      match least rest with
      | None => Some r
      | Some m => if String.leb (key r) (key m) then Some r else Some m
      end
  end.

(** [db.Where("email = ?", email).First(&dest)] *)
Definition First (f : faults) (t : Table) (email : string) : User + error :=
  match f StFirst with
  | Some c => inr (ErrDatabase c)
  | None =>
      match least (filter (fun r => String.eqb (Email r) email) t) with
      | Some r => inl r
      | None => inr ErrRecordNotFound
      end
  end.

(** [db.Find(dest, "id = ?", id)] into a struct: the row found, if any; no
    row is not an error. *)
Definition Find (f : faults) (t : Table) (id : string)
  : option User * option error :=
  match f StFind with
  | Some c => (None, Some (ErrDatabase c))
  | None => (find (fun r => String.eqb (key r) id) t, None)
  end.

(** gorm fills zero [CreatedAt] and [UpdatedAt] with the current time on
    creation. *)
Definition stamp (now : time.Time) (u : User) : User :=
  let u := if CreatedAt u =? time.zero then with_CreatedAt u now else u in
  if UpdatedAt u =? time.zero then with_UpdatedAt u now else u.

(** The INSERT of [db.Create(&value)]: the hook, the timestamps, then the
    row is added unless its id (SQLITE_CONSTRAINT_PRIMARYKEY) or its email
    (SQLITE_CONSTRAINT_UNIQUE) is taken.  The second component is the value
    as the hook and gorm left it. *)
Definition insert (rand : Z) (now : time.Time) (t : Table) (value : User)
  : Table * User * option error :=
  let value := stamp now (BeforeCreate rand value) in
  if existsb (fun r => String.eqb (key r) (key value)) t
  then (t, value, Some (ErrDatabase 1555))
  else if existsb (fun r => String.eqb (Email r) (Email value)) t
  then (t, value, Some (ErrDatabase 2067))
  else (t ++ [value], value, None).

(** [db.Create(&value)] *)
Definition Create (f : faults) (rand : Z) (now : time.Time) (t : Table)
    (value : User) : Table * User * option error :=
  match f StCreate with
  | Some c => (t, value, Some (ErrDatabase c))
  | None => insert rand now t value
  end.

(** [db.Save(&value)]: with a zero primary key it is a Create; otherwise
    all columns of the row with that id are written, [UpdatedAt] being the
    current time, unless the email belongs to another row; the row is
    inserted when no row has the id. *)
Definition Save (f : faults) (rand : Z) (now : time.Time) (t : Table)
    (value : User) : Table * User * option error :=
  match f StSave with
  | Some c => (t, value, Some (ErrDatabase c))
  | None =>
      if ID value =? uuid.Nil then insert rand now t value
      else
        let value := with_UpdatedAt value now in
        if existsb (fun r => negb (String.eqb (key r) (key value))
                             && String.eqb (Email r) (Email value)) t
        then (t, value, Some (ErrDatabase 2067))
        else if existsb (fun r => String.eqb (key r) (key value)) t
        then (map (fun r => if String.eqb (key r) (key value)
                            then value else r) t, value, None)
        else (t ++ [stamp now value], value, None)
  end.

(** [db.Delete(&value)] for a value with a primary key. *)
Definition Delete (f : faults) (t : Table) (value : User)
  : Table * option error :=
  match f StDelete with
  | Some c => (t, Some (ErrDatabase c))
  | None =>
      (filter (fun r => negb (String.eqb (key r) (key value))) t, None)
  end.

End gorm_users.

(** ** fiber: the request context with headers, route parameters, a body
    and cookie attributes *)

Module fiberctx.

Record Cookie : Type := mkCookie {
  Name : string;
  Value : string;
  Expires : time.Time;
  HTTPOnly : bool;
  SameSite : string;
  Secure : bool
}.

(** What [c.JSON] is given in this program. *)
Inductive JSON : Type :=
| JString (s : string)
| JMap (m : fiber.Map)
| JUser (u : dtos.User).

Record Ctx : Type := mkCtx {
  headers : list (string * string);          (* the request headers *)
  cookies : list (string * string);          (* the Cookie request header *)
  params : list (string * string);           (* the route parameters *)
  request_body : string;
  status : Z;                                (* the response status *)
  response_cookies : list Cookie;            (* the Set-Cookie headers *)
  body : option JSON                         (* the response body *)
}.

Definition StatusOK : Z := 200.
Definition StatusBadRequest : Z := 400.
Definition StatusUnauthorized : Z := 401.
Definition StatusForbidden : Z := 403.
Definition StatusNotFound : Z := 404.
Definition StatusInternalServerError : Z := 500.

(** The context fiber hands to the first handler of a request. *)
Definition acquire (headers cookies params : list (string * string))
    (request_body : string) : Ctx :=
  mkCtx headers cookies params request_body StatusOK [] None.

Definition lookup (l : list (string * string)) (key : string) : string :=
  match find (fun kv => String.eqb (fst kv) key) l with
  | Some kv => snd kv
  | None => EmptyString
  end.

(** [c.Get(key)], [c.Cookies(key)], [c.Params(key)]: the value, or the
    empty string. *)
Definition Get (c : Ctx) (key : string) : string := lookup (headers c) key.
Definition Cookies (c : Ctx) (key : string) : string := lookup (cookies c) key.
Definition Params (c : Ctx) (key : string) : string := lookup (params c) key.

(** [c.Status(code)] *)
Definition Status (c : Ctx) (code : Z) : Ctx :=
  mkCtx (headers c) (cookies c) (params c) (request_body c) code
    (response_cookies c) (body c).

(** [c.JSON(data)]; marshalling the values of [JSON] does not fail. *)
Definition JSON_ (c : Ctx) (data : JSON) : Ctx * option error :=
  (mkCtx (headers c) (cookies c) (params c) (request_body c) (status c)
     (response_cookies c) (Some data), None).

(** fasthttp's [SetCookie]: the cookie of that name is replaced where it
    stands, or the cookie is added. *)
Fixpoint set_cookie (l : list Cookie) (k : Cookie) : list Cookie :=
  match l with
  | [] => [k]
  | k' :: rest =>
      if String.eqb (Name k') (Name k) then k :: rest
      else k' :: set_cookie rest k
  end.

(** [c.Cookie(&cookie)] *)
Definition Cookie_ (c : Ctx) (k : Cookie) : Ctx :=
  mkCtx (headers c) (cookies c) (params c) (request_body c) (status c)
    (set_cookie (response_cookies c) k) (body c).

(** [c.ClearCookie(key)] *)
Definition ClearCookie (c : Ctx) (key : string) : Ctx :=
  mkCtx (headers c) (cookies c) (params c) (request_body c) (status c)
    (filter (fun k => negb (String.eqb (Name k) key)) (response_cookies c)
       ++ [mkCookie key EmptyString fiber.CookieExpireDelete false
             EmptyString false])
    (body c).

(** How the call of a handler ends: it returns, or it panics. *)
Inductive outcome : Type :=
| Returned (c : Ctx) (err : option error)
| Panicked.

End fiberctx.

(** ** The results of the libraries *)

Module jwtv5.

(** What the program reads of a [*jwt.Token]. *)
Record Token : Type := mkToken {
  Valid : bool;
  Claims : jwt.MapClaims
}.

(** [jwt.ParseWithClaims(tokenString, &jwt.MapClaims{}, keyFunc)] as a
    function of the key the key function returns and of the token. *)
Definition parser : Type := string -> string -> Token + error.

End jwtv5.

Record Deps : Type := mkDeps {
  (* jwt.ParseWithClaims at the time of the call *)
  ParseWithClaims : jwtv5.parser;
  (* c.BodyParser(&data): the struct as left by the decoder, and the text
     of its error if any *)
  DecodeRegister : string -> dtos.RegisterRequest.t * option string;
  DecodeLogin : string -> dtos.LoginRequest.t * option string;
  DecodeUpdate : string -> dtos.UpdateUser.t * option string;
  (* validator.New().Struct(data) *)
  ValidateRegister : dtos.RegisterRequest.t -> option validator.Error;
  ValidateLogin : dtos.LoginRequest.t -> option validator.Error;
  ValidateUpdate : dtos.UpdateUser.t -> option validator.Error;
  (* bcrypt.GenerateFromPassword(password, cost): the hash, or nothing *)
  GenerateFromPassword : string -> Z -> option string;
  (* bcrypt.CompareHashAndPassword(hash, password) returns nil *)
  CompareHashAndPassword : string -> string -> bool;
  (* the statements on the users table that the database rejects *)
  UFault : gorm_users.faults;
  (* err.Error() for an error of the database driver *)
  DriverText : Z -> string
}.

(** [err.Error()] *)
Definition Error_ (deps : Deps) (err : error) : string :=
  match err with
  | ErrRecordNotFound => "record not found"
  | ErrTokenReuse => "token reuse detected"
  | ErrDatabase code => DriverText deps code
  | ErrSigning msg => msg
  end.

(** The environment of a callee that starts after [k] clock readings of its
    caller. *)
Definition later (k : nat) (env : Env) : Env :=
  mkEnv (fun n => Now env (n + k)) (Rand env) (SignedString env) (Fault env).

(** ** helpers.ParseToken *)

Module helpers_jwt.

Definition ParseToken (deps : Deps) (tokenString : string)
  : jwtv5.Token + error :=
  ParseWithClaims deps helpers.SecretKey tokenString.

(** The string [GenerateToken] returns when its error is dropped
    ([token, _ := ...]): [SignedString] returns the empty string with an
    error. *)
Definition token_or_empty (r : string + error) : string :=
  match r with
  | inl t => t
  | inr _ => EmptyString
  end.

End helpers_jwt.

(** ** middleware/auth_middleware.go *)

Module middleware.

Import fiberctx.

(** [s[n:]] on a string: a run-time panic when [n] exceeds the length. *)
Definition slice_from (s : string) (n : nat) : option string :=
  if (String.length s <? n)%nat then None
  else Some (substring n (String.length s - n) s).

Definition unauthenticated (c : Ctx) : outcome :=
  let '(c, err) :=
    JSON_ (Status c StatusUnauthorized)
      (JMap [("message", "unauthenticated")]%string) in
  Returned c err.

(** [next] is the rest of the handler chain, run by [c.Next()]. *)
Definition IsAuthenticated (deps : Deps) (next : Ctx -> outcome) (c : Ctx)
  : outcome :=
  let authHeader := Get c "Authorization" in
  if String.eqb authHeader EmptyString then unauthenticated c
  else
    match slice_from authHeader 7 with
    | None => Panicked
    | Some tokenString =>
        match helpers_jwt.ParseToken deps tokenString with
        | inr _ => unauthenticated c
        | inl token =>
            if negb (jwtv5.Valid token) then unauthenticated c
            else next c
        end
    end.

End middleware.

(** ** handlers/user.go *)

Module handlers_user.

Import fiberctx.

(** [findUser(id, &user)]: the user as the call leaves it, and the text of
    the error built by [errors.New], if any. *)
Definition findUser (deps : Deps) (users : gorm_users.Table) (id : string)
    (user : models_user.User) : models_user.User * option string :=
  let '(found, _) := gorm_users.Find (UFault deps) users id in
  let user := match found with Some u => u | None => user end in
  if models_user.ID user =? uuid.Nil
  then (user, Some "user does not exist"%string)
  else (user, None).

Definition GetUser (deps : Deps) (users : gorm_users.Table) (c : Ctx)
  : Ctx * option error :=
  let id := Params c "id" in
  let user := models_user.zero in
  match findUser deps users id user with
  | (_, Some err) => JSON_ (Status c 400) (JString err)
  | (user, None) =>
      let responseUser := dtos.CreateResponseUser user in
      JSON_ (Status c StatusOK) (JUser responseUser)
  end.

Definition UpdateUser (deps : Deps) (env : Env) (users : gorm_users.Table)
    (c : Ctx) : gorm_users.Table * Ctx * option error :=
  let id := Params c "id" in
  match DecodeUpdate deps (request_body c) with
  | (_, Some err) =>
      let '(c, e) := JSON_ (Status c StatusBadRequest) (JString err) in
      (users, c, e)
  | (updatedUser, None) =>
      match ValidateUpdate deps updatedUser with
      | Some err =>
          let '(c, e) :=
            JSON_ (Status c StatusBadRequest)
              (JMap (validation.FormatValidationErrors err)) in
          (users, c, e)
      | None =>
          let user := models_user.zero in
          match findUser deps users id user with
          | (_, Some err) =>
              let '(c, e) := JSON_ (Status c 400) (JString err) in
              (users, c, e)
          | (user, None) =>
              let user :=
                match dtos.UpdateUser.FirstName updatedUser with
                | Some s => models_user.with_FirstName user s
                | None => user
                end in
              let user :=
                match dtos.UpdateUser.LastName updatedUser with
                | Some s => models_user.with_LastName user s
                | None => user
                end in
              let '(users, user, _) :=
                gorm_users.Save (UFault deps) (Rand env gorm.StSave)
                  (Now env 0) users user in
              let responseUser := dtos.CreateResponseUser user in
              let '(c, e) := JSON_ (Status c StatusOK) (JUser responseUser) in
              (users, c, e)
          end
      end
  end.

Definition DeleteUser (deps : Deps) (users : gorm_users.Table) (c : Ctx)
  : gorm_users.Table * Ctx * option error :=
  let id := Params c "id" in
  let user := models_user.zero in
  match findUser deps users id user with
  | (_, Some err) =>
      let '(c, e) := JSON_ (Status c 400) (JString err) in
      (users, c, e)
  | (user, None) =>
      match gorm_users.Delete (UFault deps) users user with
      | (_, Some err) =>
          let '(c, e) := JSON_ (Status c 400) (JString (Error_ deps err)) in
          (users, c, e)
      | (users, None) =>
          let '(c, e) :=
            JSON_ (Status c StatusOK)
              (JMap [("message", "User deleted successfully")]%string) in
          (users, c, e)
      end
  end.

End handlers_user.

(** ** handlers/auth.go *)

Module handlers_auth.

Import fiberctx.

Definition Register (deps : Deps) (env : Env) (users : gorm_users.Table)
    (c : Ctx) : gorm_users.Table * Ctx * option error :=
  let '(data, perr) := DecodeRegister deps (request_body c) in
  let c :=
    match perr with
    | Some _ =>
        fst (JSON_ (Status c StatusBadRequest)
               (JMap [("error", "Invalid JSON")]%string))
    | None => c
    end in
  match ValidateRegister deps data with
  | Some err =>
      let '(c, e) :=
        JSON_ (Status c StatusBadRequest)
          (JMap (validation.FormatValidationErrors err)) in
      (users, c, e)
  | None =>
      let password :=
        match GenerateFromPassword deps
                (dtos.RegisterRequest.Password data) 12 with
        | Some hash => hash
        | None => EmptyString
        end in
      let user :=
        models_user.mkUser uuid.Nil
          (dtos.RegisterRequest.FirstName data)
          (dtos.RegisterRequest.LastName data)
          (dtos.RegisterRequest.Email data)
          password time.zero time.zero in
      match gorm_users.Create (UFault deps) (Rand env gorm.StCreate)
              (Now env 0) users user with
      | (_, _, Some _) =>
          let '(c, e) :=
            JSON_ (Status c StatusBadRequest)
              (JMap [("error", "Could not create user")]%string) in
          (users, c, e)
      | (users, user, None) =>
          let responseUser := dtos.CreateResponseUser user in
          let '(c, e) := JSON_ (Status c StatusOK) (JUser responseUser) in
          (users, c, e)
      end
  end.

Definition Login (deps : Deps) (env : Env) (users : gorm_users.Table)
    (db : gorm.Table) (c : Ctx) : gorm.Table * Ctx * option error :=
  match DecodeLogin deps (request_body c) with
  | (_, Some _) =>
      let '(c, e) :=
        JSON_ (Status c StatusBadRequest)
          (JMap [("error", "invalid data")]%string) in
      (db, c, e)
  | (data, None) =>
      match ValidateLogin deps data with
      | Some err =>
          let '(c, e) :=
            JSON_ (Status c StatusBadRequest)
              (JMap (validation.FormatValidationErrors err)) in
          (db, c, e)
      | None =>
          let user :=
            match gorm_users.First (UFault deps) users
                    (dtos.LoginRequest.Email data) with
            | inl u => u
            | inr _ => models_user.zero
            end in
          if models_user.ID user =? uuid.Nil then
            let '(c, e) :=
              JSON_ (Status c StatusNotFound)
                (JMap [("error", "User not found")]%string) in
            (db, c, e)
          else if negb (CompareHashAndPassword deps
                          (models_user.Password user)
                          (dtos.LoginRequest.Password data)) then
            let '(c, e) :=
              JSON_ (Status c StatusBadRequest)
                (JMap [("error", "invalid credentials")]%string) in
            (db, c, e)
          else
            let token :=
              helpers_jwt.token_or_empty
                (helpers.GenerateToken env
                   (uuid.String (models_user.ID user))
                   (time.Add (Now env 0) (time.Minute * 15))) in
            let refreshToken :=
              helpers_jwt.token_or_empty
                (helpers.GenerateToken env
                   (uuid.String (models_user.ID user))
                   (time.Add (Now env 1) (time.Hour * 24 * 7))) in
            match repositories.StoreRefreshToken (later 3 env) db
                    (models_user.ID user) refreshToken
                    (time.Add (Now env 2) (7 * 24 * time.Hour)) with
            | (_, Some err) =>
                let '(c, e) :=
                  JSON_ (Status c StatusInternalServerError)
                    (JMap [("error", Error_ deps err)]%string) in
                (db, c, e)
            | (db, None) =>
                let cookie :=
                  mkCookie "refresh_token" refreshToken
                    (time.Add (Now env 4) (time.Hour * 24 * 7))
                    true "Lax" false in
                let c := Cookie_ c cookie in
                let '(c, e) :=
                  JSON_ c (JMap [("message", "Login successfully");
                                 ("token", token)]%string) in
                (db, c, e)
            end
      end
  end.

Definition Refresh (deps : Deps) (env : Env) (db : gorm.Table) (c : Ctx)
  : gorm.Table * Ctx * option error :=
  let cookie := Cookies c "refresh_token" in
  let rejected :=
    match helpers_jwt.ParseToken deps cookie with
    | inr _ => true
    | inl token => negb (jwtv5.Valid token)
    end in
  if rejected then
    let '(c, e) :=
      JSON_ (Status c StatusUnauthorized)
        (JMap [("message", "unauthenticated")]%string) in
    (db, c, e)
  else
    match repositories.RotateRefreshToken env db cookie with
    | (db, (_, _, Some _)) =>
        let c := ClearCookie c "refresh_token" in
        let '(c, e) :=
          JSON_ (Status c StatusForbidden)
            (JMap [("error", "Invalid token")]%string) in
        (db, c, e)
    | (db, (newAccessToken, newRefreshToken, None)) =>
        let c :=
          Cookie_ c
            (mkCookie "refresh_token" newRefreshToken
               (time.Add (Now env 5) (7 * 24 * time.Hour))
               true "Lax" false) in
        let '(c, e) := JSON_ c (JMap [("token", newAccessToken)]%string) in
        (db, c, e)
    end.

End handlers_auth.

(** ** Predicates on the users table *)

(** Ids and emails are pairwise distinct, and no id is [uuid.Nil]. *)
Definition users_ok (users : gorm_users.Table) : Prop :=
  NoDup (map gorm_users.key users) /\
  NoDup (map models_user.Email users) /\
  Forall (fun u => models_user.ID u <> uuid.Nil) users.

(** The calls that write the users table. *)
Inductive user_op : Type :=
| OpRegister (c : fiberctx.Ctx)
| OpUpdateUser (c : fiberctx.Ctx)
| OpDeleteUser (c : fiberctx.Ctx).

Definition user_exec (deps : Deps) (env : Env) (o : user_op)
    (users : gorm_users.Table) : gorm_users.Table :=
  match o with
  | OpRegister c => fst (fst (handlers_auth.Register deps env users c))
  | OpUpdateUser c => fst (fst (handlers_user.UpdateUser deps env users c))
  | OpDeleteUser c => fst (fst (handlers_user.DeleteUser deps users c))
  end.

Fixpoint user_run (calls : list (Deps * Env * user_op))
    (users : gorm_users.Table) : gorm_users.Table :=
  match calls with
  | [] => users
  | (deps, env, o) :: rest => user_run rest (user_exec deps env o users)
  end.

(** ** A concrete setting for the handlers *)

Module scenario_app.

Definition ann_request : dtos.RegisterRequest.t :=
  dtos.RegisterRequest.mk "Ann" "Lee" "ann@example.com" "hunter22".

Definition ann_login : dtos.LoginRequest.t :=
  dtos.LoginRequest.mk "ann@example.com" "hunter22".

Definition rename_request : dtos.UpdateUser.t :=
  dtos.UpdateUser.mk (Some "Anna"%string) None (Some "other@example.com"%string).

(** Libraries that decode every body to the requests above, accept every
    struct and every token, and hash a password by prefixing it. *)
Definition deps : Deps :=
  mkDeps
    (fun _ _ => inl (jwtv5.mkToken true (jwt.mkClaims EmptyString 0)))
    (fun _ => (ann_request, None))
    (fun _ => (ann_login, None))
    (fun _ => (rename_request, None))
    (fun _ => None) (fun _ => None) (fun _ => None)
    (fun password _ => Some ("bcrypt:" ++ password)%string)
    (fun hash password => String.eqb hash ("bcrypt:" ++ password))
    (fun _ => None)
    (fun _ => "database error"%string).

(** The same with a decoder that reports an error, and with a parser that
    refuses every token. *)
Definition deps_decode_error : Deps :=
  mkDeps (ParseWithClaims deps)
    (fun _ => (ann_request, Some "json: cannot unmarshal"%string))
    (DecodeLogin deps) (DecodeUpdate deps)
    (ValidateRegister deps) (ValidateLogin deps) (ValidateUpdate deps)
    (GenerateFromPassword deps) (CompareHashAndPassword deps)
    (UFault deps) (DriverText deps).

Definition deps_no_token : Deps :=
  mkDeps (fun _ _ => inr (ErrSigning "token is malformed"))
    (DecodeRegister deps) (DecodeLogin deps) (DecodeUpdate deps)
    (ValidateRegister deps) (ValidateLogin deps) (ValidateUpdate deps)
    (GenerateFromPassword deps) (CompareHashAndPassword deps)
    (UFault deps) (DriverText deps).

(** The database rejects the UPDATE of a Save. *)
Definition deps_save_busy : Deps :=
  mkDeps (ParseWithClaims deps)
    (DecodeRegister deps) (DecodeLogin deps) (DecodeUpdate deps)
    (ValidateRegister deps) (ValidateLogin deps) (ValidateUpdate deps)
    (GenerateFromPassword deps) (CompareHashAndPassword deps)
    (fun st => match st with gorm_users.StSave => Some 5 | _ => None end)
    (DriverText deps).

Definition register_request : fiberctx.Ctx :=
  fiberctx.acquire [] [] [] "{}".

(** The users table after Ann registered. *)
Definition users_ann : gorm_users.Table :=
  fst (fst (handlers_auth.Register deps scenario.env_login [] register_request)).

Definition ann : models_user.User :=
  nth 0 users_ann models_user.zero.

(** A request on the route of Ann's id. *)
Definition ann_route : fiberctx.Ctx :=
  fiberctx.acquire [] [] [("id"%string, gorm_users.key ann)] "{}".

End scenario_app.

(** ** A small setting for the session store

    The signer writes the issuer and the expiry side by side; the presented
    token is a plain word.  Times are a few nanoseconds after the epoch. *)

Module lite.

Definition signer : jwt.signer :=
  fun _ claims =>
    inl (jwt.iss claims ++ "/" ++ hs256.decimal (jwt.exp claims))%string.

Definition env_at (now : time.Time) (seed : Z) (f : gorm.faults) : Env :=
  mkEnv (fun _ => now) (fun _ => seed) signer f.

Definition user : uuid.UUID := 7.
Definition stranger : uuid.UUID := 8.

Definition token : string := "first".

(** The digest of [token], and of the word "second". *)
Definition hash : string :=
  "a7937b64b8caa58f03721bb6bacf5c78cb235febe0e70b1b84cd99541461a08e".
Definition hash_second : string :=
  "16367aacb67a4a017c8da8ab95682ccb390863780f7114dda0a0e0c55644c7c4".

Definition session : models.RefreshToken :=
  models.mkRefreshToken 11 user hash false 5000 1000.
Definition second : models.RefreshToken :=
  models.mkRefreshToken 12 user hash_second false 5000 1000.
Definition foreign : models.RefreshToken :=
  models.mkRefreshToken 13 stranger hash_second false 5000 1000.

Definition db : gorm.Table := [session].
Definition db_two : gorm.Table := [session; second].
Definition db_mixed : gorm.Table := [session; foreign].

Definition env1 : Env := env_at 1500 2 scenario.no_fault.
Definition env2 : Env := env_at 2000000000 3 scenario.no_fault.

(** The tokens the signer returns in [env1] and [env2] for [user]. *)
Definition access1 : string := "00000000-0000-0000-0000-000000000007/900".
Definition refresh1 : string := "00000000-0000-0000-0000-000000000007/604800".
Definition access2 : string := "00000000-0000-0000-0000-000000000007/902".
Definition refresh2 : string := "00000000-0000-0000-0000-000000000007/604802".

Definition logout_request : fiber.Ctx :=
  fiber.acquire [("refresh_token"%string, token)].

Definition refresh_request : fiberctx.Ctx :=
  fiberctx.acquire [] [("refresh_token"%string, token)] [] EmptyString.

End lite.

(** * Properties *)

Import models.
Import repositories.

(** ** The library models against reference values *)

Example Sum256_abc :
  hex.EncodeToString (sha256.Sum256 (bytes_of_string "abc"))
  = "ba7816bf8f01cfea414140de5dae2223b00361a396177a9cb410ff61f20015ad"%string.
Proof. vm_compute. reflexivity. Qed.

Example Sum256_two_blocks :
  hex.EncodeToString
    (sha256.Sum256
       (bytes_of_string
          "abcdbcdecdefdefgefghfghighijhijkijkljklmklmnlmnomnopnopq"))
  = "248d6a61d20638b8e5c026930c3e6039a33ce45964ff2167f6ecedd419db06c1"%string.
Proof. vm_compute. reflexivity. Qed.

Example uuid_String_example :
  uuid.String scenario.user = "123e4567-e89b-42d3-a456-426614174000"%string.
Proof. vm_compute. reflexivity. Qed.

Example uuid_New_sets_version_and_variant :
  uuid.String (uuid.New 0) = "00000000-0000-4000-8000-000000000000"%string /\
  uuid.String (uuid.New (2 ^ 128 - 1))
  = "ffffffff-ffff-4fff-bfff-ffffffffffff"%string.
Proof. split; vm_compute; reflexivity. Qed.

Example login_token :
  scenario.token
  = ("eyJhbGciOiJIUzI1NiIsInR5cCI6IkpXVCJ9."
     ++ "eyJleHAiOjE3MDA2MDQ4MDAsImlzcyI6IjEyM2U0NTY3LWU4OWItNDJkMy1hNDU2LTQyNjYxNDE3NDAwMCJ9."
     ++ "9-Hj6bsgBabT2_7InpNFju_Ty4chXDGtJ5dxRKSiOiM")%string.
Proof. vm_compute. reflexivity. Qed.

(** ** The token hasher *)













(** ** The statements of gorm *)

Lemma least_In (rows : list RefreshToken) (r : RefreshToken) :
  gorm.least rows = Some r -> In r rows.
Proof.
  revert r. induction rows as [|x rest IH]; simpl; intros r H; [discriminate|].
  destruct (gorm.least rest) as [m|] eqn:Hm.
  - destruct (ID x <=? ID m); injection H as <-; auto.
  - injection H as <-. auto.
Qed.

Lemma least_nonempty (rows : list RefreshToken) :
  rows <> [] -> exists r, gorm.least rows = Some r.
Proof.
  destruct rows as [|x rest]; [congruence|]. intros _. simpl.
  destruct (gorm.least rest) as [m|]; [destruct (ID x <=? ID m)|]; eauto.
Qed.

Lemma First_found (f : gorm.faults) (t : gorm.Table) (hash : string)
    (s : RefreshToken) :
  gorm.First f t hash = inl s ->
  In s t /\ TokenHash s = hash /\ f gorm.StFirst = None.
Proof.
  unfold gorm.First. destruct (f gorm.StFirst); [discriminate|].
  destruct (gorm.least _) as [r|] eqn:Hl; [|discriminate].
  intros H. injection H as <-.
  apply least_In, filter_In in Hl. destruct Hl as [Hin Heq].
  apply String.eqb_eq in Heq. auto.
Qed.

Lemma First_missing (f : gorm.faults) (t : gorm.Table) (hash : string) :
  (forall r, In r t -> TokenHash r <> hash) ->
  gorm.First f t hash
  = inr (match f gorm.StFirst with
         | Some c => ErrDatabase c
         | None => ErrRecordNotFound
         end).
Proof.
  intros Hno. unfold gorm.First. destruct (f gorm.StFirst); [reflexivity|].
  destruct (gorm.least _) as [r|] eqn:Hl; [|reflexivity].
  apply least_In, filter_In in Hl. destruct Hl as [Hin Heq].
  apply String.eqb_eq in Heq. elim (Hno r Hin Heq).
Qed.

(** When the token hash identifies one session, as the data model intends,
    that session is the one [First] returns. *)
Lemma First_unique (f : gorm.faults) (t : gorm.Table) (s : RefreshToken) :
  f gorm.StFirst = None ->
  In s t ->
  (forall r, In r t -> TokenHash r = TokenHash s -> r = s) ->
  gorm.First f t (TokenHash s) = inl s.
Proof.
  intros Hf Hin Huniq. unfold gorm.First. rewrite Hf.
  destruct (least_nonempty
              (filter (fun r => String.eqb (TokenHash r) (TokenHash s)) t))
    as [r Hr].
  { intros Hnil.
    assert (Hs : In s (filter (fun r => String.eqb (TokenHash r) (TokenHash s)) t)).
    { apply filter_In. split; [assumption | apply String.eqb_refl]. }
    rewrite Hnil in Hs. contradiction. }
  rewrite Hr. apply least_In, filter_In in Hr. destruct Hr as [Hrin Heq].
  apply String.eqb_eq in Heq. rewrite (Huniq r Hrin Heq). reflexivity.
Qed.

Lemma existsb_ID (x : uuid.UUID) (t : gorm.Table) :
  existsb (fun r => ID r =? x) t = true <-> In x (map ID t).
Proof.
  rewrite existsb_exists, in_map_iff. split.
  - intros [r [Hin Heq]]. apply Z.eqb_eq in Heq. eauto.
  - intros [r [Heq Hin]]. exists r. split; [assumption|].
    apply Z.eqb_eq. assumption.
Qed.

Lemma existsb_ID_false (x : uuid.UUID) (t : gorm.Table) :
  ~ In x (map ID t) -> existsb (fun r => ID r =? x) t = false.
Proof.
  intros Hn. destruct (existsb _ t) eqn:He; [|reflexivity].
  apply existsb_ID in He. contradiction.
Qed.

Lemma replace_keeps_IDs (v : RefreshToken) (t : gorm.Table) :
  map ID (map (fun r => if ID r =? ID v then v else r) t) = map ID t.
Proof.
  rewrite map_map. apply map_ext. intros r.
  destruct (ID r =? ID v) eqn:He; [|reflexivity].
  apply Z.eqb_eq in He. congruence.
Qed.

Lemma stamp_ID (now : time.Time) (v : RefreshToken) :
  ID (gorm.stamp now v) = ID v.
Proof. unfold gorm.stamp. destruct (CreatedAt v =? time.zero); reflexivity. Qed.

Lemma uuid_New_not_Nil (r : Z) : uuid.New r <> uuid.Nil.
Proof.
  unfold uuid.New, uuid.Nil. intros H.
  apply (f_equal (fun z => Z.testbit z 63)) in H.
  rewrite Z.lor_spec, Z.bits_0 in H.
  apply orb_false_iff in H. destruct H as [_ H]. discriminate H.
Qed.

(** *** Tables only grow, and revocation flags are only raised *)

Lemma keeps_refl (r : RefreshToken) : keeps r r.
Proof. split; auto. Qed.

Lemma grows_refl (db : gorm.Table) : grows db db.
Proof. intros i r H. exists r. split; [assumption | apply keeps_refl]. Qed.

Lemma grows_trans (a b c : gorm.Table) : grows a b -> grows b c -> grows a c.
Proof.
  intros Hab Hbc i r H.
  destruct (Hab i r H) as [r1 [H1 [Hid1 Hrev1]]].
  destruct (Hbc i r1 H1) as [r2 [H2 [Hid2 Hrev2]]].
  exists r2. split; [assumption|]. split; [congruence | auto].
Qed.

Lemma grows_app (db extra : gorm.Table) : grows db (db ++ extra).
Proof.
  intros i r H. exists r. split; [|apply keeps_refl].
  rewrite nth_error_app1; [assumption|].
  apply nth_error_Some. congruence.
Qed.

Lemma grows_map (g : RefreshToken -> RefreshToken) (db : gorm.Table) :
  (forall r, keeps r (g r)) -> grows db (map g db).
Proof.
  intros Hg i r H. exists (g r). split; [|apply Hg].
  rewrite nth_error_map, H. reflexivity.
Qed.

Lemma UpdateIsRevoked_grows (f : gorm.faults) (t : gorm.Table)
    (cond : RefreshToken -> bool) :
  grows t (fst (gorm.UpdateIsRevoked f t cond)).
Proof.
  unfold gorm.UpdateIsRevoked. destruct (f gorm.StUpdate); simpl.
  - apply grows_refl.
  - apply grows_map. intros r. destruct (cond r); [|apply keeps_refl].
    split; reflexivity.
Qed.

Lemma insert_grows (rand : Z) (now : time.Time) (t : gorm.Table)
    (v : RefreshToken) :
  grows t (fst (gorm.insert rand now t v)).
Proof.
  unfold gorm.insert. destruct (existsb _ t); simpl.
  - apply grows_refl.
  - apply grows_app.
Qed.

Lemma Create_grows (f : gorm.faults) (rand : Z) (now : time.Time)
    (t : gorm.Table) (v : RefreshToken) :
  grows t (fst (gorm.Create f rand now t v)).
Proof.
  unfold gorm.Create. destruct (f gorm.StCreate); simpl.
  - apply grows_refl.
  - apply insert_grows.
Qed.

Lemma Save_grows (f : gorm.faults) (rand : Z) (now : time.Time)
    (t : gorm.Table) (v : RefreshToken) :
  IsRevoked v = true ->
  grows t (fst (gorm.Save f rand now t v)).
Proof.
  intros Hv. unfold gorm.Save. destruct (f gorm.StSave); simpl.
  - apply grows_refl.
  - destruct (ID v =? uuid.Nil); [apply insert_grows|].
    destruct (existsb _ t); simpl.
    + apply grows_map. intros r. destruct (ID r =? ID v) eqn:He.
      * apply Z.eqb_eq in He. split; auto.
      * apply keeps_refl.
    + apply grows_app.
Qed.

Lemma Commit_grows (f : gorm.faults) (db tx : gorm.Table) :
  grows db tx -> grows db (fst (gorm.Commit f db tx)).
Proof.
  intros H. unfold gorm.Commit. destruct (f gorm.StCommit); simpl.
  - apply grows_refl.
  - assumption.
Qed.


Lemma Save_grows_IDs (f : gorm.faults) (rand : Z) (now : time.Time)
    (t : gorm.Table) (v : RefreshToken) (x : uuid.UUID) :
  In x (map ID t) -> In x (map ID (fst (gorm.Save f rand now t v))).
Proof.
  intros Hx. unfold gorm.Save. destruct (f gorm.StSave); simpl; [assumption|].
  destruct (ID v =? uuid.Nil).
  - unfold gorm.insert. destruct (existsb _ t); simpl; [assumption|].
    rewrite map_app. apply in_or_app. auto.
  - destruct (existsb _ t); simpl.
    + rewrite replace_keeps_IDs. assumption.
    + rewrite map_app. apply in_or_app. auto.
Qed.

Lemma Save_existing (f : gorm.faults) (rand : Z) (now : time.Time)
    (t : gorm.Table) (s : RefreshToken) :
  f gorm.StSave = None -> ID s <> uuid.Nil -> In s t ->
  gorm.Save f rand now t (with_IsRevoked s true) = (revoke_one s t, None).
Proof.
  intros Hf Hnil Hin. unfold gorm.Save. rewrite Hf. simpl.
  destruct (ID s =? uuid.Nil) eqn:He; [apply Z.eqb_eq in He; contradiction|].
  assert (Hex : existsb (fun r => ID r =? ID s) t = true).
  { apply existsb_ID, in_map, Hin. }
  rewrite Hex. reflexivity.
Qed.

Lemma Create_fresh (f : gorm.faults) (rand : Z) (now : time.Time)
    (t : gorm.Table) (userID : uuid.UUID) (hash : string) (expiresAt : time.Time) :
  f gorm.StCreate = None -> ~ In (uuid.New rand) (map ID t) ->
  gorm.Create f rand now t (literal userID hash expiresAt)
  = (t ++ [mkRefreshToken (uuid.New rand) userID hash false expiresAt now], None).
Proof.
  intros Hf Hfresh. unfold gorm.Create. rewrite Hf.
  unfold gorm.insert, gorm.stamp, literal, BeforeCreate, with_ID.
  cbn [CreatedAt ID UserID TokenHash IsRevoked ExpiresAt].
  rewrite Z.eqb_refl.
  unfold with_CreatedAt. cbn [CreatedAt ID UserID TokenHash IsRevoked ExpiresAt].
  rewrite existsb_ID_false by assumption. reflexivity.
Qed.

Lemma Create_key_taken (f : gorm.faults) (rand : Z) (now : time.Time)
    (t : gorm.Table) (v : RefreshToken) :
  In (uuid.New rand) (map ID t) ->
  exists err, gorm.Create f rand now t v = (t, Some err).
Proof.
  intros Hin. unfold gorm.Create. destruct (f gorm.StCreate); [eauto|].
  unfold gorm.insert.
  rewrite stamp_ID. cbn [BeforeCreate with_ID ID].
  apply existsb_ID in Hin. rewrite Hin. eauto.
Qed.

(** *** Records other than the saved one keep their place and content *)

Lemma others_untouched_refl (id : uuid.UUID) (db : gorm.Table) :
  others_untouched id db db.
Proof. intros i r H _. assumption. Qed.

Lemma others_untouched_app (id : uuid.UUID) (db db' extra : gorm.Table) :
  others_untouched id db db' -> others_untouched id db (db' ++ extra).
Proof.
  intros H i r Hi Hid. specialize (H i r Hi Hid).
  rewrite nth_error_app1; [assumption|].
  apply nth_error_Some. congruence.
Qed.

Lemma others_untouched_replace (v : RefreshToken) (db : gorm.Table) :
  others_untouched (ID v) db
    (map (fun r => if ID r =? ID v then v else r) db).
Proof.
  intros i r Hi Hid. rewrite nth_error_map, Hi. simpl.
  destruct (ID r =? ID v) eqn:He; [|reflexivity].
  apply Z.eqb_eq in He. contradiction.
Qed.

Lemma insert_others (id : uuid.UUID) (rand : Z) (now : time.Time)
    (t : gorm.Table) (v : RefreshToken) :
  others_untouched id t (fst (gorm.insert rand now t v)).
Proof.
  unfold gorm.insert. destruct (existsb _ t); simpl.
  - apply others_untouched_refl.
  - apply others_untouched_app, others_untouched_refl.
Qed.

Lemma Save_others (f : gorm.faults) (rand : Z) (now : time.Time)
    (t : gorm.Table) (v : RefreshToken) :
  others_untouched (ID v) t (fst (gorm.Save f rand now t v)).
Proof.
  unfold gorm.Save. destruct (f gorm.StSave); simpl.
  - apply others_untouched_refl.
  - destruct (ID v =? uuid.Nil); [apply insert_others|].
    destruct (existsb _ t); simpl.
    + apply others_untouched_replace.
    + apply others_untouched_app, others_untouched_refl.
Qed.

Lemma Create_others (id : uuid.UUID) (f : gorm.faults) (rand : Z)
    (now : time.Time) (t t' : gorm.Table) (v : RefreshToken) :
  others_untouched id t t' ->
  others_untouched id t (fst (gorm.Create f rand now t' v)).
Proof.
  intros H. unfold gorm.Create. destruct (f gorm.StCreate); simpl; [assumption|].
  unfold gorm.insert. destruct (existsb _ t'); simpl; [assumption|].
  apply others_untouched_app, H.
Qed.

Lemma Commit_others (id : uuid.UUID) (f : gorm.faults) (db tx : gorm.Table) :
  others_untouched id db tx ->
  others_untouched id db (fst (gorm.Commit f db tx)).
Proof.
  intros H. unfold gorm.Commit. destruct (f gorm.StCommit); simpl.
  - apply others_untouched_refl.
  - assumption.
Qed.

(** ** RotateRefreshToken, branch by branch *)

Lemma rotate_lookup_error (env : Env) (db : gorm.Table) (tok : string)
    (err : error) :
  gorm.First (Fault env) db (HashToken tok) = inr err ->
  RotateRefreshToken env db tok = (db, (EmptyString, EmptyString, Some err)).
Proof.
  intros HF. unfold RotateRefreshToken, gorm.Begin, gorm.Rollback.
  rewrite HF. reflexivity.
Qed.

Lemma rotate_revoked (env : Env) (db : gorm.Table) (tok : string)
    (s : RefreshToken) :
  gorm.First (Fault env) db (HashToken tok) = inl s ->
  IsRevoked s = true ->
  RotateRefreshToken env db tok
  = (fst (gorm.Commit (Fault env) db
            (fst (gorm.UpdateIsRevoked (Fault env) db
                    (fun r => UserID r =? UserID s)))),
     (EmptyString, EmptyString, Some ErrTokenReuse)).
Proof.
  intros HF Hrev. unfold RotateRefreshToken, gorm.Begin.
  rewrite HF, Hrev.
  destruct (gorm.UpdateIsRevoked _ _ _) as [tx e].
  destruct (gorm.Commit _ _ _) as [db' e']. reflexivity.
Qed.

(** The shape of every outcome for a session that is not revoked. *)
Lemma rotate_not_revoked (env : Env) (db : gorm.Table) (tok : string)
    (s : RefreshToken) :
  gorm.First (Fault env) db (HashToken tok) = inl s ->
  IsRevoked s = false ->
  let tx := fst (gorm.Save (Fault env) (Rand env gorm.StSave) (Now env 4) db
                   (with_IsRevoked s true)) in
  RotateRefreshToken env db tok
  = match helpers.GenerateToken env (uuid.String (UserID s))
            (time.Add (Now env 0) (15 * time.Minute)) with
    | inr err => (db, (EmptyString, EmptyString, Some err))
    | inl newAccessToken =>
        match helpers.GenerateToken env (uuid.String (UserID s))
                (time.Add (Now env 1) (7 * 24 * time.Hour)) with
        | inr err => (db, (EmptyString, EmptyString, Some err))
        | inl newRefreshToken =>
            match gorm.Create (Fault env) (Rand env gorm.StCreate) (Now env 3) tx
                    (literal (UserID s) (HashToken newRefreshToken)
                       (time.Add (Now env 2) (7 * 24 * time.Hour))) with
            | (_, Some err) => (db, (EmptyString, EmptyString, Some err))
            | (tx', None) =>
                (fst (gorm.Commit (Fault env) db tx'),
                 (newAccessToken, newRefreshToken, None))
            end
        end
    end.
Proof.
  intros HF Hrev tx. subst tx.
  unfold RotateRefreshToken, gorm.Begin, gorm.Rollback.
  rewrite HF, Hrev.
  destruct (gorm.Save _ _ _ _ _) as [tx e].
  cbn [fst UserID with_IsRevoked].
  destruct (helpers.GenerateToken _ _ _) as [a|ea]; [|reflexivity].
  destruct (helpers.GenerateToken _ _ _) as [r|er]; [|reflexivity].
  destruct (gorm.Create _ _ _ _ _) as [tx' [ec|]]; [reflexivity|].
  destruct (gorm.Commit _ _ _) as [db' e']. reflexivity.
Qed.

Lemma rotate_success_eq (env : Env) (db : gorm.Table) (tok : string)
    (s : RefreshToken) (access refresh : string) :
  gorm.First (Fault env) db (HashToken tok) = inl s ->
  IsRevoked s = false ->
  ID s <> uuid.Nil ->
  helpers.GenerateToken env (uuid.String (UserID s))
    (time.Add (Now env 0) (15 * time.Minute)) = inl access ->
  helpers.GenerateToken env (uuid.String (UserID s))
    (time.Add (Now env 1) (7 * 24 * time.Hour)) = inl refresh ->
  Fault env gorm.StSave = None ->
  Fault env gorm.StCreate = None ->
  Fault env gorm.StCommit = None ->
  ~ In (uuid.New (Rand env gorm.StCreate)) (map ID db) ->
  RotateRefreshToken env db tok
  = (revoke_one s db ++ [successor env s refresh], (access, refresh, None)).
Proof.
  intros HF Hrev Hnil Ha Hr HfS HfC HfK Hfresh.
  rewrite (rotate_not_revoked env db tok s HF Hrev). cbv zeta.
  destruct (First_found _ _ _ _ HF) as [Hin _].
  rewrite Ha, Hr, (Save_existing _ _ _ _ _ HfS Hnil Hin). cbn [fst].
  rewrite Create_fresh; [| assumption |].
  - unfold gorm.Commit. rewrite HfK. reflexivity.
  - unfold revoke_one.
    change (fun r => if ID r =? ID s then with_IsRevoked s true else r)
      with (fun r => if ID r =? ID (with_IsRevoked s true)
                     then with_IsRevoked s true else r).
    rewrite replace_keeps_IDs. assumption.
Qed.

Lemma rotate_others (env : Env) (db : gorm.Table) (tok : string)
    (s : RefreshToken) :
  gorm.First (Fault env) db (HashToken tok) = inl s ->
  IsRevoked s = false ->
  others_untouched (ID s) db (fst (RotateRefreshToken env db tok)).
Proof.
  intros HF Hrev.
  rewrite (rotate_not_revoked env db tok s HF Hrev). cbv zeta.
  destruct (helpers.GenerateToken _ _ _) as [a|ea];
    [|apply others_untouched_refl].
  destruct (helpers.GenerateToken _ _ _) as [r|er];
    [|apply others_untouched_refl].
  pose proof (Create_others (ID s) (Fault env) (Rand env gorm.StCreate)
                (Now env 3) db _
                (literal (UserID s) (HashToken r)
                   (time.Add (Now env 2) (7 * 24 * time.Hour)))
                (Save_others (Fault env) (Rand env gorm.StSave) (Now env 4) db
                   (with_IsRevoked s true))) as HC.
  destruct (gorm.Create _ _ _ _ _) as [tx' [ec|]];
    [apply others_untouched_refl|].
  cbn [fst] in *. apply Commit_others, HC.
Qed.

Lemma revoke_one_In (s : RefreshToken) (db : gorm.Table) :
  In s db -> In (with_IsRevoked s true) (revoke_one s db).
Proof.
  intros Hin. unfold revoke_one. apply in_map_iff. exists s.
  rewrite Z.eqb_refl. auto.
Qed.

Lemma RotateRefreshToken_grows (env : Env) (db : gorm.Table) (tok : string) :
  grows db (fst (RotateRefreshToken env db tok)).
Proof.
  destruct (gorm.First (Fault env) db (HashToken tok)) as [s|err] eqn:HF.
  - destruct (IsRevoked s) eqn:Hrev.
    + rewrite (rotate_revoked env db tok s HF Hrev). cbn [fst].
      apply Commit_grows, UpdateIsRevoked_grows.
    + rewrite (rotate_not_revoked env db tok s HF Hrev). cbv zeta.
      destruct (helpers.GenerateToken _ _ _) as [a|ea]; [|apply grows_refl].
      destruct (helpers.GenerateToken _ _ _) as [r|er]; [|apply grows_refl].
      pose proof (Create_grows (Fault env) (Rand env gorm.StCreate) (Now env 3)
                    (fst (gorm.Save (Fault env) (Rand env gorm.StSave)
                            (Now env 4) db (with_IsRevoked s true)))
                    (literal (UserID s) (HashToken r)
                       (time.Add (Now env 2) (7 * 24 * time.Hour)))) as HC.
      destruct (gorm.Create _ _ _ _ _) as [tx' [ec|]]; [apply grows_refl|].
      cbn [fst] in *. apply Commit_grows.
      eapply grows_trans; [|exact HC].
      apply Save_grows. reflexivity.
  - rewrite (rotate_lookup_error env db tok err HF). apply grows_refl.
Qed.

(** A token is a function of the user and of the second of its expiry: a
    rotation that signs for the second the presented token was signed for
    returns the presented token again. *)
Lemma GenerateToken_same_second (env : Env) (issuer : string)
    (t0 t1 : time.Time) :
  time.Unix t0 = time.Unix t1 ->
  helpers.GenerateToken env issuer t0 = helpers.GenerateToken env issuer t1.
Proof. intros H. unfold helpers.GenerateToken. rewrite H. reflexivity. Qed.

(** *** Primary keys are never [uuid.Nil] *)

Lemma insert_keyed (rand : Z) (now : time.Time) (t : gorm.Table)
    (v : RefreshToken) :
  Forall (fun r => ID r <> uuid.Nil) t ->
  Forall (fun r => ID r <> uuid.Nil) (fst (gorm.insert rand now t v)).
Proof.
  intros H. unfold gorm.insert. destruct (existsb _ t); simpl; [assumption|].
  apply Forall_app. split; [assumption|]. constructor; [|constructor].
  rewrite stamp_ID. exact (uuid_New_not_Nil rand).
Qed.

Lemma Create_keyed (f : gorm.faults) (rand : Z) (now : time.Time)
    (t : gorm.Table) (v : RefreshToken) :
  Forall (fun r => ID r <> uuid.Nil) t ->
  Forall (fun r => ID r <> uuid.Nil) (fst (gorm.Create f rand now t v)).
Proof.
  intros H. unfold gorm.Create. destruct (f gorm.StCreate); simpl;
    [assumption | apply insert_keyed, H].
Qed.

Lemma Save_keyed (f : gorm.faults) (rand : Z) (now : time.Time)
    (t : gorm.Table) (v : RefreshToken) :
  Forall (fun r => ID r <> uuid.Nil) t ->
  Forall (fun r => ID r <> uuid.Nil) (fst (gorm.Save f rand now t v)).
Proof.
  intros H. unfold gorm.Save. destruct (f gorm.StSave); simpl; [assumption|].
  destruct (ID v =? uuid.Nil) eqn:Hv; [apply insert_keyed, H|].
  apply Z.eqb_neq in Hv.
  destruct (existsb _ t); simpl.
  - apply Forall_map. apply Forall_impl with (2 := H).
    intros r Hr. destruct (ID r =? ID v); assumption.
  - apply Forall_app. split; [assumption|]. constructor; [|constructor].
    rewrite stamp_ID. assumption.
Qed.

Lemma UpdateIsRevoked_keyed (f : gorm.faults) (t : gorm.Table)
    (cond : RefreshToken -> bool) :
  Forall (fun r => ID r <> uuid.Nil) t ->
  Forall (fun r => ID r <> uuid.Nil) (fst (gorm.UpdateIsRevoked f t cond)).
Proof.
  intros H. unfold gorm.UpdateIsRevoked. destruct (f gorm.StUpdate); simpl;
    [assumption|].
  apply Forall_map. apply Forall_impl with (2 := H).
  intros r Hr. destruct (cond r); assumption.
Qed.

Lemma Commit_keyed (f : gorm.faults) (db tx : gorm.Table) :
  Forall (fun r => ID r <> uuid.Nil) db ->
  Forall (fun r => ID r <> uuid.Nil) tx ->
  Forall (fun r => ID r <> uuid.Nil) (fst (gorm.Commit f db tx)).
Proof.
  intros Hdb Htx. unfold gorm.Commit. destruct (f gorm.StCommit); assumption.
Qed.

Lemma RotateRefreshToken_keyed (env : Env) (db : gorm.Table) (tok : string) :
  Forall (fun r => ID r <> uuid.Nil) db ->
  Forall (fun r => ID r <> uuid.Nil) (fst (RotateRefreshToken env db tok)).
Proof.
  intros H.
  destruct (gorm.First (Fault env) db (HashToken tok)) as [s|err] eqn:HF.
  - destruct (IsRevoked s) eqn:Hrev.
    + rewrite (rotate_revoked env db tok s HF Hrev). cbn [fst].
      apply Commit_keyed; [assumption | apply UpdateIsRevoked_keyed, H].
    + rewrite (rotate_not_revoked env db tok s HF Hrev). cbv zeta.
      destruct (helpers.GenerateToken _ _ _) as [a|ea]; [|assumption].
      destruct (helpers.GenerateToken _ _ _) as [r|er]; [|assumption].
      pose proof (Create_keyed (Fault env) (Rand env gorm.StCreate) (Now env 3)
                    _ (literal (UserID s) (HashToken r)
                         (time.Add (Now env 2) (7 * 24 * time.Hour)))
                    (Save_keyed (Fault env) (Rand env gorm.StSave) (Now env 4)
                       db (with_IsRevoked s true) H)) as HC.
      destruct (gorm.Create _ _ _ _ _) as [tx' [ec|]]; [assumption|].
      cbn [fst] in *. apply Commit_keyed; assumption.
  - rewrite (rotate_lookup_error env db tok err HF). assumption.
Qed.

(** Every table reached from the empty one has proper primary keys, so the
    assumption [ID s <> uuid.Nil] below holds of every session found. *)
Lemma run_keyed (calls : list (Env * op)) (db : gorm.Table) :
  Forall (fun r => ID r <> uuid.Nil) db ->
  Forall (fun r => ID r <> uuid.Nil) (run calls db).
Proof.
  revert db. induction calls as [|[env o] rest IH]; intros db H; simpl;
    [assumption|].
  apply IH. destruct o as [userID token expiresAt | tok | c]; simpl.
  - unfold StoreRefreshToken. apply Create_keyed, H.
  - apply RotateRefreshToken_keyed, H.
  - unfold handlers.Logout.
    pose proof (UpdateIsRevoked_keyed (Fault env) db
                  (fun r => String.eqb (TokenHash r)
                              (HashToken (fiber.Cookies c "refresh_token"))) H)
      as HU.
    destruct (gorm.UpdateIsRevoked _ _ _) as [db' e]. exact HU.
Qed.

(** ** The claims about rotation *)

(** C6.  A refresh token whose hash matches no stored session is rejected:
    [RotateRefreshToken] returns two empty strings and an error, which is
    [gorm.ErrRecordNotFound] unless the lookup itself failed, and the table is
    left as it was: nothing is revoked and nothing is created. *)
Theorem rotate_unknown_token (env : Env) (db : gorm.Table) (tok : string) :
  (forall r, In r db -> TokenHash r <> HashToken tok) ->
  exists err,
    RotateRefreshToken env db tok
    = (db, (EmptyString, EmptyString, Some err)) /\
    (Fault env gorm.StFirst = None -> err = ErrRecordNotFound).
Proof.
  intros Hno.
  exists (match Fault env gorm.StFirst with
          | Some c => ErrDatabase c
          | None => ErrRecordNotFound
          end).
  split.
  - apply rotate_lookup_error, First_missing, Hno.
  - intros ->. reflexivity.
Qed.

Lemma rotate_unknown_token_witness :
  exists err,
    RotateRefreshToken scenario.env_hour scenario.db_login "no such token"
    = (scenario.db_login, (EmptyString, EmptyString, Some err)) /\
    (Fault scenario.env_hour gorm.StFirst = None -> err = ErrRecordNotFound).
Proof.
  apply (rotate_unknown_token scenario.env_hour scenario.db_login
           "no such token"%string).
  intros r Hin. vm_compute in Hin. destruct Hin as [<- | []].
  vm_compute. discriminate.
Defined.



(** C3 (what the code does).  When the presented token's session is already
    revoked and the database rejects the bulk UPDATE, [RotateRefreshToken]
    drops the statement's error, commits, and still answers "token reuse
    detected"; the table is as before, so the owner's other sessions stay
    usable. *)
Theorem rotate_reuse_update_rejected (env : Env) (db : gorm.Table)
    (tok : string) (s : RefreshToken) (code : Z) :
  gorm.First (Fault env) db (HashToken tok) = inl s ->
  IsRevoked s = true ->
  Fault env gorm.StUpdate = Some code ->
  RotateRefreshToken env db tok
  = (db, (EmptyString, EmptyString, Some ErrTokenReuse)).
Proof.
  intros HF Hrev HfU.
  rewrite (rotate_revoked env db tok s HF Hrev).
  unfold gorm.UpdateIsRevoked, gorm.Commit. rewrite HfU. cbn [fst].
  destruct (Fault env gorm.StCommit); reflexivity.
Qed.

Lemma rotate_reuse_update_rejected_witness :
  RotateRefreshToken scenario.env_replay_busy scenario.db_two scenario.token
  = (scenario.db_two, (EmptyString, EmptyString, Some ErrTokenReuse)) /\
  exists r, In r scenario.db_two /\
            UserID r = UserID scenario.session_rotated /\
            IsRevoked r = false.
Proof.
  split.
  - apply (rotate_reuse_update_rejected scenario.env_replay_busy
             scenario.db_two scenario.token scenario.session_rotated 5).
    + vm_compute. reflexivity.
    + vm_compute. reflexivity.
    + reflexivity.
  - exists (nth 1 scenario.db_two scenario.session).
    vm_compute. auto.
Defined.

(** C4.  For a session that is found and not revoked, if signing the access
    token fails, or signing the refresh token fails, or the INSERT of the new
    session fails, [RotateRefreshToken] returns an error and the table is
    exactly the one before the call: the presented session is still not
    revoked and no session was added. *)
Theorem rotate_failure_rolls_back (env : Env) (db : gorm.Table) (tok : string)
    (s : RefreshToken) :
  gorm.First (Fault env) db (HashToken tok) = inl s ->
  IsRevoked s = false ->
  issuance_fails env db s ->
  exists err,
    RotateRefreshToken env db tok
    = (db, (EmptyString, EmptyString, Some err)).
Proof.
  intros HF Hrev Hfail.
  rewrite (rotate_not_revoked env db tok s HF Hrev). cbv zeta.
  destruct Hfail as [e He | e He | code Hc | Htaken].
  - rewrite He. eauto.
  - destruct (helpers.GenerateToken env _ (time.Add (Now env 0) _)); [|eauto].
    rewrite He. eauto.
  - destruct (helpers.GenerateToken env _ (time.Add (Now env 0) _)); [|eauto].
    destruct (helpers.GenerateToken env _ (time.Add (Now env 1) _)); [|eauto].
    unfold gorm.Create. rewrite Hc. eauto.
  - destruct (helpers.GenerateToken env _ (time.Add (Now env 0) _)); [|eauto].
    destruct (helpers.GenerateToken env _ (time.Add (Now env 1) _)) as [r|];
      [|eauto].
    destruct (Create_key_taken (Fault env) (Rand env gorm.StCreate) (Now env 3)
                (fst (gorm.Save (Fault env) (Rand env gorm.StSave) (Now env 4)
                        db (with_IsRevoked s true)))
                (literal (UserID s) (HashToken r)
                   (time.Add (Now env 2) (7 * 24 * time.Hour)))
                (Save_grows_IDs _ _ _ _ _ _ Htaken)) as [err Herr].
    rewrite Herr. eauto.
Qed.

Lemma rotate_failure_rolls_back_witness :
  exists err,
    RotateRefreshToken scenario.env_insert_busy scenario.db_login scenario.token
    = (scenario.db_login, (EmptyString, EmptyString, Some err)).
Proof.
  apply (rotate_failure_rolls_back scenario.env_insert_busy scenario.db_login
           scenario.token scenario.session).
  - vm_compute. reflexivity.
  - vm_compute. reflexivity.
  - apply (CreateRejected _ _ _ 5). reflexivity.
Defined.







(** ** Revocation flags over sequences of calls *)

Lemma Logout_table (env : Env) (db : gorm.Table) (c : fiber.Ctx) :
  fst (fst (handlers.Logout env db c))
  = fst (gorm.UpdateIsRevoked (Fault env) db
           (fun r => String.eqb (TokenHash r)
                       (HashToken (fiber.Cookies c "refresh_token")))).
Proof.
  unfold handlers.Logout.
  destruct (gorm.UpdateIsRevoked _ _ _) as [db' e]. reflexivity.
Qed.

Lemma exec_grows (env : Env) (o : op) (db : gorm.Table) :
  grows db (exec env o db).
Proof.
  destruct o as [userID token expiresAt | tok | c]; simpl.
  - unfold StoreRefreshToken. apply Create_grows.
  - apply RotateRefreshToken_grows.
  - rewrite Logout_table. apply UpdateIsRevoked_grows.
Qed.

Lemma run_grows (calls : list (Env * op)) (db : gorm.Table) :
  grows db (run calls db).
Proof.
  revert db. induction calls as [|[env o] rest IH]; intros db; simpl.
  - apply grows_refl.
  - eapply grows_trans; [apply exec_grows | apply IH].
Qed.

(** C7.  Whatever sequence of calls of [StoreRefreshToken],
    [RotateRefreshToken] (with its bulk revocation) and [Logout] is run, in
    whatever environments, a record of the table is still there afterwards,
    at its place and under its primary key, and if it was revoked before it
    is revoked after: [IsRevoked] only ever goes from false to true. *)
Theorem revocation_is_monotone (calls : list (Env * op)) (db : gorm.Table)
    (i : nat) (r : RefreshToken) :
  nth_error db i = Some r ->
  exists r',
    nth_error (run calls db) i = Some r' /\
    ID r' = ID r /\
    (IsRevoked r = true -> IsRevoked r' = true).
Proof.
  intros Hi. destruct (run_grows calls db i r Hi) as [r' [Hr' [Hid Hrev]]].
  exists r'. auto.
Qed.

Lemma revocation_is_monotone_witness :
  exists r',
    nth_error
      (run [(scenario.env_replay, OpRotate scenario.token);
            (scenario.env_hour, OpLogout scenario.logout_request);
            (scenario.env_late, OpRotate scenario.token2)]
           scenario.db_two) 0 = Some r' /\
    ID r' = ID scenario.session_rotated /\
    (IsRevoked scenario.session_rotated = true -> IsRevoked r' = true).
Proof.
  apply (revocation_is_monotone
           [(scenario.env_replay, OpRotate scenario.token);
            (scenario.env_hour, OpLogout scenario.logout_request);
            (scenario.env_late, OpRotate scenario.token2)]
           scenario.db_two 0 scenario.session_rotated).
  vm_compute. reflexivity.
Defined.

(** ** Logout *)

Lemma Logout_eq (env : Env) (db : gorm.Table) (c : fiber.Ctx) :
  handlers.Logout env db c
  = (fst (gorm.UpdateIsRevoked (Fault env) db
            (fun r => String.eqb (TokenHash r)
                        (HashToken (fiber.Cookies c "refresh_token")))),
     fiber.mkCtx (fiber.request_cookies c) (fiber.status c)
       (filter (fun k => negb (String.eqb (fiber.Name k) "refresh_token"))
               (fiber.response_cookies c)
          ++ [fiber.mkCookie "refresh_token" EmptyString
                fiber.CookieExpireDelete])
       [("message", "Logged out successfully")]%string,
     None).
Proof.
  unfold handlers.Logout.
  destruct (gorm.UpdateIsRevoked _ _ _) as [db' e]. reflexivity.
Qed.

Lemma revoke_matching_id (cond : RefreshToken -> bool) (t : gorm.Table) :
  (forall r, In r t -> cond r = true -> IsRevoked r = true) ->
  map (fun r => if cond r then with_IsRevoked r true else r) t = t.
Proof.
  intros H. rewrite <- (map_id t) at 2. apply map_ext_in.
  intros r Hin. destruct (cond r) eqn:Hc; [|reflexivity].
  specialize (H r Hin Hc). destruct r as [id u h b e cr]. simpl in *.
  subst b. reflexivity.
Qed.

Lemma UpdateIsRevoked_noop (f : gorm.faults) (t : gorm.Table)
    (cond : RefreshToken -> bool) :
  (forall r, In r t -> cond r = true -> IsRevoked r = true) ->
  fst (gorm.UpdateIsRevoked f t cond) = t.
Proof.
  intros H. unfold gorm.UpdateIsRevoked. destruct (f gorm.StUpdate); simpl.
  - reflexivity.
  - apply revoke_matching_id, H.
Qed.




(** C9.  [Logout] reports success for every request and whatever the
    database does: it returns no error, leaves the response status as fiber
    set it (200 in the context of a new request), answers the message
    "Logged out successfully", and sets an expired, empty refresh_token
    cookie; when no record carries the hash of the cookie's value (the empty
    string when the cookie is absent) the table is unchanged. *)
Theorem Logout_always_succeeds (env : Env) (db : gorm.Table) (c : fiber.Ctx) :
  let result := handlers.Logout env db c in
  let c' := snd (fst result) in
  snd result = None /\
  fiber.status c' = fiber.status c /\
  fiber.status (fiber.acquire (fiber.request_cookies c)) = 200 /\
  fiber.body c' = [("message", "Logged out successfully")]%string /\
  (forall k, In k (fiber.response_cookies c') ->
             fiber.Name k = "refresh_token"%string ->
             k = fiber.mkCookie "refresh_token" EmptyString
                   fiber.CookieExpireDelete) /\
  In (fiber.mkCookie "refresh_token" EmptyString fiber.CookieExpireDelete)
     (fiber.response_cookies c') /\
  ((forall kv, In kv (fiber.request_cookies c) ->
                fst kv <> "refresh_token"%string) ->
   fiber.Cookies c "refresh_token" = EmptyString) /\
  ((forall r, In r db ->
              TokenHash r <> HashToken (fiber.Cookies c "refresh_token")) ->
   fst (fst result) = db).
Proof.
  intros result c'. subst c' result. rewrite Logout_eq. cbn [fst snd].
  split; [reflexivity|]. split; [reflexivity|]. split; [reflexivity|].
  split; [reflexivity|]. split; [|split; [|split]].
  - cbn [fiber.response_cookies]. intros k Hin Hname.
    apply in_app_or in Hin. destruct Hin as [Hin | [<- | []]].
    + apply filter_In in Hin. destruct Hin as [_ Hneq].
      apply negb_true_iff, String.eqb_neq in Hneq. contradiction.
    + reflexivity.
  - cbn [fiber.response_cookies]. apply in_or_app. right. left. reflexivity.
  - intros Hnone. unfold fiber.Cookies.
    destruct (find _ (fiber.request_cookies c)) as [kv|] eqn:Hfind;
      [|reflexivity].
    apply find_some in Hfind. destruct Hfind as [Hin Heq].
    apply String.eqb_eq in Heq. elim (Hnone kv Hin Heq).
  - intros Hno. apply UpdateIsRevoked_noop. intros r Hin Hc.
    apply String.eqb_eq in Hc. elim (Hno r Hin Hc).
Qed.

Lemma Logout_always_succeeds_witness :
  fst (fst (handlers.Logout scenario.env_replay_busy scenario.db_login
              (fiber.acquire [])))
  = scenario.db_login.
Proof.
  apply (proj2 (proj2 (proj2 (proj2 (proj2 (proj2 (proj2
           (Logout_always_succeeds scenario.env_replay_busy scenario.db_login
              (fiber.acquire []))))))))).
  intros r Hin. vm_compute in Hin. destruct Hin as [<- | []].
  vm_compute. discriminate.
Defined.

(** * Further properties of the session store *)

(** ** StoreRefreshToken *)

(** [StoreRefreshToken] has two outcomes only: an error with the table
    as it was, or no error and exactly one row more, at the end of the table:
    the session of the given user for the hash of the given token, not
    revoked, expiring when asked.  No existing row is changed either way. *)
Lemma StoreRefreshToken_outcomes (env : Env) (db : gorm.Table)
    (userID : uuid.UUID) (token : string) (expiresAt : time.Time) :
  let row :=
    mkRefreshToken (uuid.New (Rand env gorm.StCreate)) userID (HashToken token)
      false expiresAt (Now env 0) in
  (exists err,
      StoreRefreshToken env db userID token expiresAt = (db, Some err)) \/
  StoreRefreshToken env db userID token expiresAt = (db ++ [row], None).
Proof.
  intros row. unfold StoreRefreshToken, gorm.Create.
  destruct (Fault env gorm.StCreate) as [c|] eqn:Hf; [left; eauto|].
  unfold gorm.insert, gorm.stamp, literal, BeforeCreate, with_ID.
  cbn [CreatedAt ID UserID TokenHash IsRevoked ExpiresAt].
  rewrite Z.eqb_refl.
  unfold with_CreatedAt. cbn [CreatedAt ID UserID TokenHash IsRevoked ExpiresAt].
  destruct (existsb _ db); [left; eauto | right; reflexivity].
Qed.

(** X1.  A stored token can be looked up: when the INSERT goes through, the
    drawn uuid is free and no earlier session has the hash of the token,
    [StoreRefreshToken] returns no error and a [First] on the hash of the
    token then returns the session just stored, owned by the user, live and
    with the expiry asked for. *)
Theorem StoreRefreshToken_then_First (env : Env) (db : gorm.Table)
    (userID : uuid.UUID) (token : string) (expiresAt : time.Time)
    (f : gorm.faults) :
  Fault env gorm.StCreate = None ->
  ~ In (uuid.New (Rand env gorm.StCreate)) (map ID db) ->
  (forall r, In r db -> TokenHash r <> HashToken token) ->
  f gorm.StFirst = None ->
  exists row,
    StoreRefreshToken env db userID token expiresAt = (db ++ [row], None) /\
    gorm.First f (db ++ [row]) (HashToken token) = inl row /\
    UserID row = userID /\ IsRevoked row = false /\ ExpiresAt row = expiresAt.
Proof.
  intros Hf Hfresh Hnew HfF.
  exists (mkRefreshToken (uuid.New (Rand env gorm.StCreate)) userID
            (HashToken token) false expiresAt (Now env 0)).
  split; [|split; [|repeat split]].
  - unfold StoreRefreshToken. apply Create_fresh; assumption.
  - apply (First_unique f _
             (mkRefreshToken (uuid.New (Rand env gorm.StCreate)) userID
                (HashToken token) false expiresAt (Now env 0)) HfF).
    + apply in_or_app. right. left. reflexivity.
    + intros r Hin Hh. apply in_app_or in Hin. destruct Hin as [Hin | [<- | []]].
      * elim (Hnew r Hin Hh).
      * reflexivity.
Qed.

Lemma StoreRefreshToken_then_First_witness :
  exists row,
    StoreRefreshToken scenario.env_login [] scenario.user scenario.token
      (time.Add scenario.t_login scenario.week) = ([] ++ [row], None) /\
    gorm.First scenario.no_fault ([] ++ [row]) (HashToken scenario.token)
    = inl row /\
    UserID row = scenario.user /\ IsRevoked row = false /\
    ExpiresAt row = time.Add scenario.t_login scenario.week.
Proof.
  apply (StoreRefreshToken_then_First scenario.env_login [] scenario.user
           scenario.token (time.Add scenario.t_login scenario.week)
           scenario.no_fault).
  - reflexivity.
  - simpl. tauto.
  - intros r [].
  - reflexivity.
Defined.

(** ** Rotations in sequence *)

Lemma rotate_reuse_eq (env : Env) (db : gorm.Table) (tok : string)
    (s : RefreshToken) :
  gorm.First (Fault env) db (HashToken tok) = inl s ->
  IsRevoked s = true ->
  Fault env gorm.StUpdate = None ->
  Fault env gorm.StCommit = None ->
  RotateRefreshToken env db tok
  = (revoke_owner s db, (EmptyString, EmptyString, Some ErrTokenReuse)).
Proof.
  intros HF Hrev HfU HfK. rewrite (rotate_revoked env db tok s HF Hrev).
  unfold gorm.UpdateIsRevoked, gorm.Commit. rewrite HfU, HfK. reflexivity.
Qed.

Lemma revoke_owner_all (s : RefreshToken) (db : gorm.Table) (r : RefreshToken) :
  In r (revoke_owner s db) -> UserID r = UserID s -> IsRevoked r = true.
Proof.
  intros Hin Hu. unfold revoke_owner in Hin.
  apply in_map_iff in Hin. destruct Hin as [r0 [Hr0 _]].
  destruct (UserID r0 =? UserID s) eqn:He.
  - subst r. reflexivity.
  - subst r. apply Z.eqb_neq in He. contradiction.
Qed.

Lemma revoke_one_length (s : RefreshToken) (db : gorm.Table) :
  List.length (revoke_one s db) = List.length db.
Proof. unfold revoke_one. apply length_map. Qed.

Lemma revoke_one_IDs (s : RefreshToken) (db : gorm.Table) :
  map ID (revoke_one s db) = map ID db.
Proof.
  unfold revoke_one.
  change (fun r => if ID r =? ID s then with_IsRevoked s true else r)
    with (fun r => if ID r =? ID (with_IsRevoked s true)
                   then with_IsRevoked s true else r).
  apply replace_keeps_IDs.
Qed.

(** The rows of [revoke_one s db] are the saved row or rows of [db] with
    another primary key. *)
Lemma revoke_one_rows (s : RefreshToken) (db : gorm.Table) (r : RefreshToken) :
  In r (revoke_one s db) ->
  r = with_IsRevoked s true \/ (In r db /\ ID r <> ID s).
Proof.
  intros Hin. unfold revoke_one in Hin. apply in_map_iff in Hin.
  destruct Hin as [r0 [Hr0 Hin0]].
  destruct (ID r0 =? ID s) eqn:He.
  - left. auto.
  - right. subst r. apply Z.eqb_neq in He. auto.
Qed.

Lemma First_after_rotation_old (env : Env) (f : gorm.faults) (db : gorm.Table)
    (s : RefreshToken) (refresh : string) :
  f gorm.StFirst = None ->
  In s db ->
  (forall r, In r db -> TokenHash r = TokenHash s -> r = s) ->
  HashToken refresh <> TokenHash s ->
  gorm.First f (revoke_one s db ++ [successor env s refresh]) (TokenHash s)
  = inl (with_IsRevoked s true).
Proof.
  intros Hf Hin Huniq Hdiff.
  apply (First_unique f _ (with_IsRevoked s true) Hf).
  - apply in_or_app. left. apply revoke_one_In, Hin.
  - intros r Hr Hh. cbn [TokenHash with_IsRevoked] in Hh.
    apply in_app_or in Hr. destruct Hr as [Hr | [<- | []]].
    + destruct (revoke_one_rows s db r Hr) as [-> | [Hr0 Hid]];
        [reflexivity|].
      elim Hid. rewrite (Huniq r Hr0 Hh). reflexivity.
    + elim Hdiff. exact Hh.
Qed.

Lemma First_after_rotation_new (env : Env) (f : gorm.faults) (db : gorm.Table)
    (s : RefreshToken) (refresh : string) :
  f gorm.StFirst = None ->
  In s db ->
  (forall r, In r db -> TokenHash r <> HashToken refresh) ->
  gorm.First f (revoke_one s db ++ [successor env s refresh])
    (HashToken refresh)
  = inl (successor env s refresh).
Proof.
  intros Hf Hin Hnew.
  apply (First_unique f _ (successor env s refresh) Hf).
  - apply in_or_app. right. left. reflexivity.
  - intros r Hr Hh. cbn [TokenHash successor] in Hh.
    apply in_app_or in Hr. destruct Hr as [Hr | [<- | []]]; [|reflexivity].
    destruct (revoke_one_rows s db r Hr) as [-> | [Hr0 _]].
    + elim (Hnew s Hin Hh).
    + elim (Hnew r Hr0 Hh).
Qed.

(** X2.  A token that has been rotated is dead, and replaying it costs the
    user every session.  After a successful rotation of [tok], whose hash
    identified one session and differs from the hash of the refresh token
    returned, presenting [tok] again is answered "token reuse detected" and
    (the UPDATE and the commit going through) revokes every session of the
    user, the successor issued by the first rotation included. *)
Theorem rotate_then_replay (env env2 : Env) (db : gorm.Table) (tok : string)
    (s : RefreshToken) (access refresh : string) :
  gorm.First (Fault env) db (HashToken tok) = inl s ->
  IsRevoked s = false ->
  ID s <> uuid.Nil ->
  helpers.GenerateToken env (uuid.String (UserID s))
    (time.Add (Now env 0) (15 * time.Minute)) = inl access ->
  helpers.GenerateToken env (uuid.String (UserID s))
    (time.Add (Now env 1) (7 * 24 * time.Hour)) = inl refresh ->
  Fault env gorm.StSave = None ->
  Fault env gorm.StCreate = None ->
  Fault env gorm.StCommit = None ->
  ~ In (uuid.New (Rand env gorm.StCreate)) (map ID db) ->
  (forall r, In r db -> TokenHash r = TokenHash s -> r = s) ->
  HashToken refresh <> HashToken tok ->
  Fault env2 gorm.StFirst = None ->
  Fault env2 gorm.StUpdate = None ->
  Fault env2 gorm.StCommit = None ->
  let db1 := revoke_one s db ++ [successor env s refresh] in
  RotateRefreshToken env db tok = (db1, (access, refresh, None)) /\
  RotateRefreshToken env2 db1 tok
  = (revoke_owner s db1, (EmptyString, EmptyString, Some ErrTokenReuse)) /\
  (forall r, In r (revoke_owner s db1) -> UserID r = UserID s ->
             IsRevoked r = true) /\
  In (with_IsRevoked (successor env s refresh) true) (revoke_owner s db1).
Proof.
  intros HF Hrev Hnil Ha Hr HfS HfC HfK Hfresh Huniq Hdiff HfF2 HfU2 HfK2 db1.
  destruct (First_found _ _ _ _ HF) as [Hin [Hhash _]].
  split; [apply rotate_success_eq; assumption|].
  split.
  - apply (rotate_reuse_eq env2 db1 tok (with_IsRevoked s true)).
    + rewrite <- Hhash. apply First_after_rotation_old; try assumption.
      rewrite Hhash. exact Hdiff.
    + reflexivity.
    + assumption.
    + assumption.
  - split; [intros r; apply revoke_owner_all|].
    unfold revoke_owner. apply in_map_iff.
    exists (successor env s refresh). split.
    + cbn [UserID successor]. rewrite Z.eqb_refl. reflexivity.
    + apply in_or_app. right. left. reflexivity.
Qed.

Lemma rotate_then_replay_witness :
  RotateRefreshToken lite.env2
    (revoke_one lite.session lite.db
       ++ [successor lite.env1 lite.session lite.refresh1])
    lite.token
  = (revoke_owner lite.session
       (revoke_one lite.session lite.db
          ++ [successor lite.env1 lite.session lite.refresh1]),
     (EmptyString, EmptyString, Some ErrTokenReuse)).
Proof.
  apply (rotate_then_replay lite.env1 lite.env2 lite.db lite.token
           lite.session lite.access1 lite.refresh1).
  - vm_compute. reflexivity.
  - reflexivity.
  - vm_compute. discriminate.
  - vm_compute. reflexivity.
  - vm_compute. reflexivity.
  - reflexivity.
  - reflexivity.
  - reflexivity.
  - vm_compute. intros [H | []]. discriminate H.
  - intros r [<- | []] _. reflexivity.
  - vm_compute. discriminate.
  - reflexivity.
  - reflexivity.
  - reflexivity.
Defined.

(** X3.  The token a rotation returns can be rotated in turn.  After a
    successful rotation whose new token has a hash no earlier session
    carries, a second rotation, of the returned token, finds the successor
    session and (both tokens signed, the store writes going through, a free
    uuid drawn) succeeds: the successor is revoked and a third session of the
    same user is added. *)
Theorem rotate_then_rotate (env env2 : Env) (db : gorm.Table) (tok : string)
    (s : RefreshToken) (access refresh access2 refresh2 : string) :
  gorm.First (Fault env) db (HashToken tok) = inl s ->
  IsRevoked s = false ->
  ID s <> uuid.Nil ->
  helpers.GenerateToken env (uuid.String (UserID s))
    (time.Add (Now env 0) (15 * time.Minute)) = inl access ->
  helpers.GenerateToken env (uuid.String (UserID s))
    (time.Add (Now env 1) (7 * 24 * time.Hour)) = inl refresh ->
  Fault env gorm.StSave = None ->
  Fault env gorm.StCreate = None ->
  Fault env gorm.StCommit = None ->
  ~ In (uuid.New (Rand env gorm.StCreate)) (map ID db) ->
  (forall r, In r db -> TokenHash r <> HashToken refresh) ->
  helpers.GenerateToken env2 (uuid.String (UserID s))
    (time.Add (Now env2 0) (15 * time.Minute)) = inl access2 ->
  helpers.GenerateToken env2 (uuid.String (UserID s))
    (time.Add (Now env2 1) (7 * 24 * time.Hour)) = inl refresh2 ->
  Fault env2 gorm.StFirst = None ->
  Fault env2 gorm.StSave = None ->
  Fault env2 gorm.StCreate = None ->
  Fault env2 gorm.StCommit = None ->
  ~ In (uuid.New (Rand env2 gorm.StCreate))
       (map ID db ++ [uuid.New (Rand env gorm.StCreate)]) ->
  let new := successor env s refresh in
  let db1 := revoke_one s db ++ [new] in
  RotateRefreshToken env db tok = (db1, (access, refresh, None)) /\
  gorm.First (Fault env2) db1 (HashToken refresh) = inl new /\
  RotateRefreshToken env2 db1 refresh
  = (revoke_one new db1 ++ [successor env2 new refresh2],
     (access2, refresh2, None)) /\
  UserID (successor env2 new refresh2) = UserID s.
Proof.
  intros HF Hrev Hnil Ha Hr HfS HfC HfK Hfresh Hnew
         Ha2 Hr2 HfF2 HfS2 HfC2 HfK2 Hfresh2 new db1.
  destruct (First_found _ _ _ _ HF) as [Hin _].
  assert (HF2 : gorm.First (Fault env2) db1 (HashToken refresh) = inl new).
  { apply First_after_rotation_new; assumption. }
  split; [apply rotate_success_eq; assumption|].
  split; [exact HF2|].
  split; [|reflexivity].
  apply rotate_success_eq; try assumption.
  - reflexivity.
  - apply uuid_New_not_Nil.
  - subst db1. rewrite map_app, revoke_one_IDs. exact Hfresh2.
Qed.

Lemma rotate_then_rotate_witness :
  gorm.First (Fault lite.env2)
    (revoke_one lite.session lite.db
       ++ [successor lite.env1 lite.session lite.refresh1])
    (HashToken lite.refresh1)
  = inl (successor lite.env1 lite.session lite.refresh1).
Proof.
  refine (proj1 (proj2
    (rotate_then_rotate lite.env1 lite.env2 lite.db lite.token lite.session
       lite.access1 lite.refresh1 lite.access2 lite.refresh2
       _ _ _ _ _ _ _ _ _ _ _ _ _ _ _ _ _))).
  - vm_compute. reflexivity.
  - reflexivity.
  - vm_compute. discriminate.
  - vm_compute. reflexivity.
  - vm_compute. reflexivity.
  - reflexivity.
  - reflexivity.
  - reflexivity.
  - vm_compute. intros [H | []]. discriminate H.
  - intros r [<- | []]. vm_compute. discriminate.
  - vm_compute. reflexivity.
  - vm_compute. reflexivity.
  - reflexivity.
  - reflexivity.
  - reflexivity.
  - reflexivity.
  - vm_compute. intros [H | [H | []]]; discriminate H.
Defined.

(** ** Logout followed by a refresh *)

Lemma least_map (g : RefreshToken -> RefreshToken) (rows : list RefreshToken) :
  (forall r, ID (g r) = ID r) ->
  gorm.least (map g rows) = option_map g (gorm.least rows).
Proof.
  intros Hg. induction rows as [|x rest IH]; simpl; [reflexivity|].
  rewrite IH. destruct (gorm.least rest) as [m|]; simpl; [|reflexivity].
  rewrite !Hg. destruct (ID x <=? ID m); reflexivity.
Qed.

Lemma filter_revoked_by_hash (hash : string) (t : gorm.Table) :
  filter (fun r => String.eqb (TokenHash r) hash)
    (map (fun r => if String.eqb (TokenHash r) hash
                   then with_IsRevoked r true else r) t)
  = map (fun r => with_IsRevoked r true)
      (filter (fun r => String.eqb (TokenHash r) hash) t).
Proof.
  induction t as [|x rest IH]; simpl; [reflexivity|].
  destruct (String.eqb (TokenHash x) hash) eqn:He; simpl; rewrite ?He, IH;
    reflexivity.
Qed.

Lemma First_after_Logout (f f' : gorm.faults) (t : gorm.Table) (hash : string)
    (s : RefreshToken) :
  f gorm.StUpdate = None ->
  gorm.First f' t hash = inl s ->
  gorm.First f'
    (fst (gorm.UpdateIsRevoked f t (fun r => String.eqb (TokenHash r) hash)))
    hash
  = inl (with_IsRevoked s true).
Proof.
  intros Hf. unfold gorm.UpdateIsRevoked, gorm.First. rewrite Hf. cbn [fst].
  destruct (f' gorm.StFirst); [discriminate|].
  rewrite filter_revoked_by_hash, least_map by reflexivity.
  destruct (gorm.least _) as [r|]; [|discriminate].
  intros H. injection H as <-. reflexivity.
Qed.

(** X4.  Logging out and then presenting the same token to a refresh counts
    as reuse.  Once [Logout] has revoked the session of the cookie's token, a
    [RotateRefreshToken] of that token is answered "token reuse detected" and
    (the UPDATE and the commit going through) revokes every session of the
    user, also those that were never logged out; no session is added. *)
Theorem Logout_then_rotate (env1 env2 : Env) (db : gorm.Table) (c : fiber.Ctx)
    (s : RefreshToken) :
  let tok := fiber.Cookies c "refresh_token" in
  let db1 := fst (fst (handlers.Logout env1 db c)) in
  Fault env1 gorm.StUpdate = None ->
  gorm.First (Fault env2) db (HashToken tok) = inl s ->
  Fault env2 gorm.StUpdate = None ->
  Fault env2 gorm.StCommit = None ->
  RotateRefreshToken env2 db1 tok
  = (revoke_owner s db1, (EmptyString, EmptyString, Some ErrTokenReuse)) /\
  (forall r, In r (revoke_owner s db1) -> UserID r = UserID s ->
             IsRevoked r = true) /\
  map ID (revoke_owner s db1) = map ID db.
Proof.
  intros tok db1 Hf1 HF HfU HfK. subst db1. rewrite Logout_table.
  fold tok. split; [|split].
  - apply (rotate_reuse_eq env2 _ tok (with_IsRevoked s true)).
    + apply First_after_Logout; assumption.
    + reflexivity.
    + assumption.
    + assumption.
  - intros r. apply revoke_owner_all.
  - unfold revoke_owner, gorm.UpdateIsRevoked. rewrite Hf1. cbn [fst].
    rewrite !map_map. apply map_ext. intros r.
    destruct (String.eqb (TokenHash r) (HashToken tok));
      cbn [UserID with_IsRevoked];
      destruct (UserID r =? UserID s); reflexivity.
Qed.

Lemma Logout_then_rotate_witness :
  map ID
    (revoke_owner lite.session
       (fst (fst (handlers.Logout lite.env1 lite.db_two lite.logout_request))))
  = map ID lite.db_two.
Proof.
  refine (proj2 (proj2
    (Logout_then_rotate lite.env1 lite.env2 lite.db_two lite.logout_request
       lite.session _ _ _ _))).
  - reflexivity.
  - vm_compute. reflexivity.
  - reflexivity.
  - reflexivity.
Defined.

(** X5.  [Logout] only touches the sessions of its token.  A session whose
    token hash is not the hash of the cookie's value is left exactly as it
    was, at its place; a session with that hash keeps all its fields except
    that [IsRevoked] may have become true; the table has as many rows as
    before. *)
Theorem Logout_touches_only_its_sessions (env : Env) (db : gorm.Table)
    (c : fiber.Ctx) :
  let hash := HashToken (fiber.Cookies c "refresh_token") in
  let db' := fst (fst (handlers.Logout env db c)) in
  List.length db' = List.length db /\
  (forall i r, nth_error db i = Some r -> TokenHash r <> hash ->
               nth_error db' i = Some r) /\
  (forall i r, nth_error db i = Some r ->
               nth_error db' i = Some r \/
               nth_error db' i = Some (with_IsRevoked r true)).
Proof.
  intros hash db'. subst db'. rewrite Logout_table. fold hash.
  unfold gorm.UpdateIsRevoked. destruct (Fault env gorm.StUpdate); cbn [fst].
  - split; [reflexivity|]. split; auto.
  - split; [apply length_map|]. split.
    + intros i r Hi Hh. rewrite nth_error_map, Hi. simpl.
      destruct (String.eqb (TokenHash r) hash) eqn:He; [|reflexivity].
      apply String.eqb_eq in He. contradiction.
    + intros i r Hi. rewrite nth_error_map, Hi. simpl.
      destruct (String.eqb (TokenHash r) hash); auto.
Qed.

Lemma Logout_touches_only_its_sessions_witness :
  nth_error
    (fst (fst (handlers.Logout lite.env1 lite.db_two lite.logout_request))) 1
  = Some lite.second.
Proof.
  refine (proj1 (proj2
    (Logout_touches_only_its_sessions lite.env1 lite.db_two
       lite.logout_request)) 1%nat lite.second _ _).
  - reflexivity.
  - vm_compute. discriminate.
Defined.

(** ** Rotation and the sessions of other users *)

Lemma same_key_same_row (t : gorm.Table) (r s : RefreshToken) :
  NoDup (map ID t) -> In r t -> In s t -> ID r = ID s -> r = s.
Proof.
  induction t as [|x rest IH]; simpl; intros Hnd Hr Hs Hid; [contradiction|].
  inversion Hnd as [|? ? Hnotin Hnd']; subst.
  destruct Hr as [<- | Hr]; destruct Hs as [<- | Hs].
  - reflexivity.
  - elim Hnotin. rewrite Hid. apply in_map, Hs.
  - elim Hnotin. rewrite <- Hid. apply in_map, Hr.
  - apply IH; assumption.
Qed.

Lemma insert_rows (rand : Z) (now : time.Time) (t : gorm.Table)
    (v r : RefreshToken) :
  In r (fst (gorm.insert rand now t v)) -> In r t \/ UserID r = UserID v.
Proof.
  unfold gorm.insert. destruct (existsb _ t); cbn [fst]; [auto|].
  intros Hin. apply in_app_or in Hin. destruct Hin as [Hin | [<- | []]];
    [auto|].
  right. unfold gorm.stamp.
  destruct (CreatedAt (BeforeCreate rand v) =? time.zero); reflexivity.
Qed.

Lemma Create_rows (f : gorm.faults) (rand : Z) (now : time.Time)
    (t : gorm.Table) (v r : RefreshToken) :
  In r (fst (gorm.Create f rand now t v)) -> In r t \/ UserID r = UserID v.
Proof.
  unfold gorm.Create. destruct (f gorm.StCreate); cbn [fst]; [auto|].
  apply insert_rows.
Qed.

Lemma Save_rows (f : gorm.faults) (rand : Z) (now : time.Time)
    (t : gorm.Table) (v r : RefreshToken) :
  In r (fst (gorm.Save f rand now t v)) -> In r t \/ UserID r = UserID v.
Proof.
  unfold gorm.Save. destruct (f gorm.StSave); cbn [fst]; [auto|].
  destruct (ID v =? uuid.Nil); [apply insert_rows|].
  destruct (existsb _ t); cbn [fst]; intros Hin.
  - apply in_map_iff in Hin. destruct Hin as [r0 [Hr0 Hin0]].
    destruct (ID r0 =? ID v); subst r; auto.
  - apply in_app_or in Hin. destruct Hin as [Hin | [<- | []]]; [auto|].
    right. unfold gorm.stamp. destruct (CreatedAt v =? time.zero); reflexivity.
Qed.

(** X6.  A rotation stays within one user.  Whatever the outcome of
    [RotateRefreshToken] for a token whose session [s] is found, in a table
    with distinct primary keys, every session of another user is afterwards
    exactly as before, at its place, and every row of the table is either a
    row it had before or a session of the user of [s]. *)
Theorem rotate_isolates_users (env : Env) (db : gorm.Table) (tok : string)
    (s : RefreshToken) :
  NoDup (map ID db) ->
  gorm.First (Fault env) db (HashToken tok) = inl s ->
  let db' := fst (RotateRefreshToken env db tok) in
  (forall i r, nth_error db i = Some r -> UserID r <> UserID s ->
               nth_error db' i = Some r) /\
  (forall r, In r db' -> In r db \/ UserID r = UserID s).
Proof.
  intros Hnd HF db'. subst db'.
  destruct (First_found _ _ _ _ HF) as [Hin _].
  destruct (IsRevoked s) eqn:Hrev.
  - rewrite (rotate_revoked env db tok s HF Hrev). cbn [fst].
    unfold gorm.Commit, gorm.UpdateIsRevoked.
    destruct (Fault env gorm.StCommit); cbn [fst]; [auto|].
    destruct (Fault env gorm.StUpdate); cbn [fst]; [auto|].
    split.
    + intros i r Hi Hu. rewrite nth_error_map, Hi. simpl.
      destruct (UserID r =? UserID s) eqn:He; [|reflexivity].
      apply Z.eqb_eq in He. contradiction.
    + intros r Hr. apply in_map_iff in Hr. destruct Hr as [r0 [Hr0 Hin0]].
      destruct (UserID r0 =? UserID s) eqn:He.
      * right. subst r. apply Z.eqb_eq in He. exact He.
      * left. subst r. exact Hin0.
  - split.
    + intros i r Hi Hu.
      apply (rotate_others env db tok s HF Hrev i r Hi).
      intros Hid. apply Hu.
      rewrite (same_key_same_row db r s Hnd (nth_error_In _ _ Hi) Hin Hid).
      reflexivity.
    + rewrite (rotate_not_revoked env db tok s HF Hrev). cbv zeta.
      destruct (helpers.GenerateToken _ _ _) as [a|ea]; [|auto].
      destruct (helpers.GenerateToken _ _ _) as [rt|er]; [|auto].
      pose proof (Create_rows (Fault env) (Rand env gorm.StCreate) (Now env 3)
                    (fst (gorm.Save (Fault env) (Rand env gorm.StSave)
                            (Now env 4) db (with_IsRevoked s true)))
                    (literal (UserID s) (HashToken rt)
                       (time.Add (Now env 2) (7 * 24 * time.Hour)))) as HC.
      destruct (gorm.Create _ _ _ _ _) as [tx' [ec|]]; [auto|].
      cbn [fst] in *. unfold gorm.Commit.
      destruct (Fault env gorm.StCommit); cbn [fst]; [auto|].
      intros r Hr. destruct (HC r Hr) as [Htx | Hu]; [|auto].
      apply Save_rows in Htx. exact Htx.
Qed.

Lemma rotate_isolates_users_witness :
  nth_error (fst (RotateRefreshToken lite.env1 lite.db_mixed lite.token)) 1
  = Some lite.foreign.
Proof.
  refine (proj1
    (rotate_isolates_users lite.env1 lite.db_mixed lite.token lite.session
       _ _) 1%nat lite.foreign _ _).
  - vm_compute. repeat constructor; simpl; intuition discriminate.
  - vm_compute. reflexivity.
  - reflexivity.
  - vm_compute. discriminate.
Defined.

(** ** Primary keys stay distinct *)

Lemma NoDup_snoc (l : list Z) (x : Z) :
  NoDup l -> ~ In x l -> NoDup (l ++ [x]).
Proof.
  induction l as [|a l IH]; simpl; intros Hnd Hx.
  - constructor; [intros []|constructor].
  - inversion Hnd as [|? ? Ha Hnd']; subst. constructor.
    + intros Hin. apply in_app_or in Hin. destruct Hin as [Hin | [-> | []]].
      * contradiction.
      * apply Hx. left. reflexivity.
    + apply IH; [assumption|]. intros Hin. apply Hx. right. exact Hin.
Qed.

Lemma existsb_ID_not_In (x : uuid.UUID) (t : gorm.Table) :
  existsb (fun r => ID r =? x) t = false -> ~ In x (map ID t).
Proof.
  intros He Hin. apply existsb_ID in Hin. congruence.
Qed.

Lemma insert_distinct (rand : Z) (now : time.Time) (t : gorm.Table)
    (v : RefreshToken) :
  NoDup (map ID t) -> NoDup (map ID (fst (gorm.insert rand now t v))).
Proof.
  intros H. unfold gorm.insert.
  destruct (existsb _ t) eqn:He; cbn [fst]; [assumption|].
  rewrite map_app. apply NoDup_snoc; [assumption|].
  apply existsb_ID_not_In, He.
Qed.

Lemma Create_distinct (f : gorm.faults) (rand : Z) (now : time.Time)
    (t : gorm.Table) (v : RefreshToken) :
  NoDup (map ID t) -> NoDup (map ID (fst (gorm.Create f rand now t v))).
Proof.
  intros H. unfold gorm.Create. destruct (f gorm.StCreate); cbn [fst];
    [assumption | apply insert_distinct, H].
Qed.

Lemma Save_distinct (f : gorm.faults) (rand : Z) (now : time.Time)
    (t : gorm.Table) (v : RefreshToken) :
  NoDup (map ID t) -> NoDup (map ID (fst (gorm.Save f rand now t v))).
Proof.
  intros H. unfold gorm.Save. destruct (f gorm.StSave); cbn [fst];
    [assumption|].
  destruct (ID v =? uuid.Nil); [apply insert_distinct, H|].
  destruct (existsb _ t) eqn:He; cbn [fst].
  - rewrite replace_keeps_IDs. assumption.
  - rewrite map_app. cbn [map]. rewrite stamp_ID.
    apply NoDup_snoc; [assumption|]. apply existsb_ID_not_In, He.
Qed.

Lemma UpdateIsRevoked_IDs (f : gorm.faults) (t : gorm.Table)
    (cond : RefreshToken -> bool) :
  map ID (fst (gorm.UpdateIsRevoked f t cond)) = map ID t.
Proof.
  unfold gorm.UpdateIsRevoked. destruct (f gorm.StUpdate); cbn [fst];
    [reflexivity|].
  rewrite map_map. apply map_ext. intros r. destruct (cond r); reflexivity.
Qed.

Lemma RotateRefreshToken_distinct (env : Env) (db : gorm.Table) (tok : string) :
  NoDup (map ID db) ->
  NoDup (map ID (fst (RotateRefreshToken env db tok))).
Proof.
  intros H.
  destruct (gorm.First (Fault env) db (HashToken tok)) as [s|err] eqn:HF.
  - destruct (IsRevoked s) eqn:Hrev.
    + rewrite (rotate_revoked env db tok s HF Hrev). cbn [fst].
      unfold gorm.Commit. destruct (Fault env gorm.StCommit); cbn [fst];
        [assumption|].
      rewrite UpdateIsRevoked_IDs. assumption.
    + rewrite (rotate_not_revoked env db tok s HF Hrev). cbv zeta.
      destruct (helpers.GenerateToken _ _ _) as [a|ea]; [|assumption].
      destruct (helpers.GenerateToken _ _ _) as [r|er]; [|assumption].
      pose proof (Create_distinct (Fault env) (Rand env gorm.StCreate)
                    (Now env 3) _
                    (literal (UserID s) (HashToken r)
                       (time.Add (Now env 2) (7 * 24 * time.Hour)))
                    (Save_distinct (Fault env) (Rand env gorm.StSave)
                       (Now env 4) db (with_IsRevoked s true) H)) as HC.
      destruct (gorm.Create _ _ _ _ _) as [tx' [ec|]]; [assumption|].
      cbn [fst] in *. unfold gorm.Commit.
      destruct (Fault env gorm.StCommit); assumption.
  - rewrite (rotate_lookup_error env db tok err HF). assumption.
Qed.

Lemma exec_distinct (env : Env) (o : op) (db : gorm.Table) :
  NoDup (map ID db) -> NoDup (map ID (exec env o db)).
Proof.
  intros H. destruct o as [userID token expiresAt | tok | c]; simpl.
  - unfold StoreRefreshToken. apply Create_distinct, H.
  - apply RotateRefreshToken_distinct, H.
  - rewrite Logout_table, UpdateIsRevoked_IDs. assumption.
Qed.

(** X7.  The primary keys of the sessions stay proper.  Over any sequence of
    [StoreRefreshToken], [RotateRefreshToken] and [Logout] calls, in any
    environments (whatever uuids are drawn and whatever fails), a table
    whose keys are pairwise distinct and different from [uuid.Nil] remains
    so; in particular every table built from the empty one is. *)
Theorem session_keys_stay_proper (calls : list (Env * op)) (db : gorm.Table) :
  NoDup (map ID db) ->
  Forall (fun r => ID r <> uuid.Nil) db ->
  NoDup (map ID (run calls db)) /\
  Forall (fun r => ID r <> uuid.Nil) (run calls db).
Proof.
  intros Hnd Hk. split; [|apply run_keyed, Hk].
  clear Hk. revert db Hnd.
  induction calls as [|[env o] rest IH]; intros db Hnd; simpl; [assumption|].
  apply IH, exec_distinct, Hnd.
Qed.

Lemma session_keys_stay_proper_witness :
  NoDup (map ID
           (run [(scenario.env_login,
                  OpStore scenario.user scenario.token
                    (time.Add scenario.t_login scenario.week));
                 (scenario.env_login,
                  OpStore scenario.user scenario.token
                    (time.Add scenario.t_login scenario.week));
                 (scenario.env_hour, OpRotate scenario.token)] [])) /\
  Forall (fun r => ID r <> uuid.Nil)
    (run [(scenario.env_login,
           OpStore scenario.user scenario.token
             (time.Add scenario.t_login scenario.week));
          (scenario.env_login,
           OpStore scenario.user scenario.token
             (time.Add scenario.t_login scenario.week));
          (scenario.env_hour, OpRotate scenario.token)] []).
Proof.
  apply (session_keys_stay_proper
           [(scenario.env_login,
             OpStore scenario.user scenario.token
               (time.Add scenario.t_login scenario.week));
            (scenario.env_login,
             OpStore scenario.user scenario.token
               (time.Add scenario.t_login scenario.week));
            (scenario.env_hour, OpRotate scenario.token)] []).
  - constructor.
  - constructor.
Defined.


(** * Properties of the rest of the application *)

(** ** FormatValidationErrors *)

Lemma gomap_get_set (m : gomap.t) (k v k' : string) :
  gomap.get (gomap.set m k v) k'
  = if String.eqb k k' then Some v else gomap.get m k'.
Proof.
  induction m as [|[k0 v0] rest IH]; simpl.
  - reflexivity.
  - destruct (String.eqb k0 k) eqn:H0; simpl.
    + apply String.eqb_eq in H0. subst k0.
      destruct (String.eqb k k'); reflexivity.
    + rewrite IH. destruct (String.eqb k0 k') eqn:H1; [|reflexivity].
      apply String.eqb_eq in H1. subst k0.
      destruct (String.eqb k k') eqn:H2; [|reflexivity].
      apply String.eqb_eq in H2. subst k'.
      rewrite String.eqb_refl in H0. discriminate H0.
Qed.

Lemma find_snoc (A : Type) (p : A -> bool) (l : list A) (a : A) :
  find p (l ++ [a])
  = match find p l with
    | Some x => Some x
    | None => if p a then Some a else None
    end.
Proof.
  induction l as [|x l IH]; simpl; [reflexivity|].
  destruct (p x); [reflexivity | exact IH].
Qed.

Lemma format_fold (errs : list validator.FieldError) (m : gomap.t)
    (k : string) :
  gomap.get
    (fold_left (fun errors fe =>
                  gomap.set errors (validator.Field fe) (validation.message fe))
       errs m) k
  = match find (fun fe => String.eqb (validator.Field fe) k) (rev errs) with
    | Some fe => Some (validation.message fe)
    | None => gomap.get m k
    end.
Proof.
  revert m. induction errs as [|a l IH]; intros m; simpl; [reflexivity|].
  rewrite IH, find_snoc.
  destruct (find _ (rev l)); [reflexivity|].
  rewrite gomap_get_set.
  destruct (String.eqb (validator.Field a) k); reflexivity.
Qed.

(** X8.  What [FormatValidationErrors] returns.  For validation errors the
    map has an entry for exactly the fields that have an error, and the
    message of a field is the message of the last error on that field; the
    message starts with the name of the field.  For any other error the map
    is the single entry "error": "Invalid input". *)
Theorem FormatValidationErrors_lookup :
  (forall errs k,
      gomap.get (validation.FormatValidationErrors
                   (validator.ValidationErrors errs)) k
      = option_map validation.message
          (find (fun fe => String.eqb (validator.Field fe) k) (rev errs))) /\
  (forall fe, exists rest,
      validation.message fe = (validator.Field fe ++ rest)%string) /\
  (forall msg k,
      gomap.get (validation.FormatValidationErrors
                   (validator.InvalidValidationError msg)) k
      = if String.eqb "error" k then Some "Invalid input"%string else None).
Proof.
  split; [|split].
  - intros errs k. unfold validation.FormatValidationErrors.
    rewrite format_fold. destruct (find _ (rev errs)); reflexivity.
  - intros fe. unfold validation.message.
    destruct (String.eqb (validator.Tag fe) "required"); [eauto|].
    destruct (String.eqb (validator.Tag fe) "min"); [eauto|].
    destruct (String.eqb (validator.Tag fe) "max"); [eauto|].
    destruct (String.eqb (validator.Tag fe) "email"); eauto.
  - intros msg k. reflexivity.
Qed.

(** ** IsAuthenticated *)

Lemma substring_all (s : string) : substring 0 (String.length s) s = s.
Proof. induction s as [|c s IH]; simpl; [reflexivity | rewrite IH; reflexivity]. Qed.

Lemma substring_append (a b : string) :
  substring (String.length a) (String.length b) (a ++ b) = b.
Proof.
  induction a as [|c a IH]; simpl; [apply substring_all | exact IH].
Qed.

Lemma length_append (a b : string) :
  String.length (a ++ b) = (String.length a + String.length b)%nat.
Proof. induction a as [|c a IH]; simpl; [reflexivity | rewrite IH; reflexivity]. Qed.

Lemma slice_from_append (a b : string) :
  middleware.slice_from (a ++ b) (String.length a) = Some b.
Proof.
  unfold middleware.slice_from. rewrite length_append.
  replace (String.length a + String.length b <? String.length a)%nat
    with false by (symmetry; apply Nat.ltb_ge; lia).
  replace (String.length a + String.length b - String.length a)%nat
    with (String.length b) by lia.
  rewrite substring_append. reflexivity.
Qed.

(** X9.  How [IsAuthenticated] reads the Authorization header.  Without
    the header the answer is 401 and neither the token parser nor the next
    handler runs.  A header of one to six bytes makes the handler panic on
    [authHeader[7:]].  For a longer header the first seven bytes are dropped
    whatever they are, and the request goes on to the next handler exactly
    when the rest parses as a valid token; otherwise the answer is 401. *)
Theorem IsAuthenticated_header (deps : Deps)
    (next : fiberctx.Ctx -> fiberctx.outcome) (c : fiberctx.Ctx) :
  let h := fiberctx.Get c "Authorization" in
  (h = EmptyString ->
   middleware.IsAuthenticated deps next c = middleware.unauthenticated c) /\
  ((0 < String.length h < 7)%nat ->
   middleware.IsAuthenticated deps next c = fiberctx.Panicked) /\
  (forall scheme tok,
      String.length scheme = 7%nat -> h = (scheme ++ tok)%string ->
      middleware.IsAuthenticated deps next c
      = match helpers_jwt.ParseToken deps tok with
        | inl t => if jwtv5.Valid t then next c
                   else middleware.unauthenticated c
        | inr _ => middleware.unauthenticated c
        end) /\
  fiberctx.status
    (match middleware.unauthenticated c with
     | fiberctx.Returned c' _ => c'
     | fiberctx.Panicked => c
     end) = 401.
Proof.
  intros h. unfold middleware.IsAuthenticated. fold h.
  split; [|split; [|split]].
  - intros ->. reflexivity.
  - intros [Hpos Hlt].
    destruct h as [|a h']; [simpl in Hpos; lia|].
    cbn [String.eqb]. unfold middleware.slice_from.
    apply Nat.ltb_lt in Hlt. rewrite Hlt. reflexivity.
  - intros scheme tok Hlen Hh. rewrite Hh.
    destruct scheme as [|a scheme']; [discriminate Hlen|].
    cbn [append String.eqb].
    change (String a (scheme' ++ tok)) with (String a scheme' ++ tok)%string.
    rewrite <- Hlen, slice_from_append.
    destruct (helpers_jwt.ParseToken deps tok) as [t|e]; [|reflexivity].
    destruct (jwtv5.Valid t); reflexivity.
  - reflexivity.
Qed.

Lemma IsAuthenticated_header_witness :
  middleware.IsAuthenticated scenario_app.deps
    (fun c => fiberctx.Returned c None)
    (fiberctx.acquire [("Authorization", "Bear")]%string [] [] EmptyString)
  = fiberctx.Panicked.
Proof.
  apply (proj1 (proj2
    (IsAuthenticated_header scenario_app.deps
       (fun c => fiberctx.Returned c None)
       (fiberctx.acquire [("Authorization", "Bear")]%string [] [] EmptyString)))).
  simpl. lia.
Defined.

(** ** Refresh *)

Lemma Refresh_unparsed (deps : Deps) (env : Env) (db : gorm.Table)
    (c : fiberctx.Ctx) :
  (forall t, helpers_jwt.ParseToken deps (fiberctx.Cookies c "refresh_token")
             = inl t -> jwtv5.Valid t = false) ->
  handlers_auth.Refresh deps env db c
  = (db,
     fiberctx.mkCtx (fiberctx.headers c) (fiberctx.cookies c)
       (fiberctx.params c) (fiberctx.request_body c) 401
       (fiberctx.response_cookies c)
       (Some (fiberctx.JMap [("message", "unauthenticated")]%string)),
     None).
Proof.
  intros H. unfold handlers_auth.Refresh.
  destruct (helpers_jwt.ParseToken deps _) as [t|e]; [|reflexivity].
  rewrite (H t eq_refl). reflexivity.
Qed.

Lemma Refresh_parsed (deps : Deps) (env : Env) (db : gorm.Table)
    (c : fiberctx.Ctx) (t : jwtv5.Token) :
  helpers_jwt.ParseToken deps (fiberctx.Cookies c "refresh_token") = inl t ->
  jwtv5.Valid t = true ->
  handlers_auth.Refresh deps env db c
  = match RotateRefreshToken env db (fiberctx.Cookies c "refresh_token") with
    | (db', (_, _, Some _)) =>
        (db',
         fiberctx.mkCtx (fiberctx.headers c) (fiberctx.cookies c)
           (fiberctx.params c) (fiberctx.request_body c) 403
           (filter (fun k => negb (String.eqb (fiberctx.Name k) "refresh_token"))
                   (fiberctx.response_cookies c)
              ++ [fiberctx.mkCookie "refresh_token" EmptyString
                    fiber.CookieExpireDelete false EmptyString false])
           (Some (fiberctx.JMap [("error", "Invalid token")]%string)),
         None)
    | (db', (newAccessToken, newRefreshToken, None)) =>
        (db',
         fiberctx.mkCtx (fiberctx.headers c) (fiberctx.cookies c)
           (fiberctx.params c) (fiberctx.request_body c) (fiberctx.status c)
           (fiberctx.set_cookie (fiberctx.response_cookies c)
              (fiberctx.mkCookie "refresh_token" newRefreshToken
                 (time.Add (Now env 5) (7 * 24 * time.Hour))
                 true "Lax" false))
           (Some (fiberctx.JMap [("token", newAccessToken)]%string)),
         None)
    end.
Proof.
  intros HP HV. unfold handlers_auth.Refresh. rewrite HP, HV. cbn [negb].
  destruct (RotateRefreshToken env db _) as [db' [[a r] [e|]]]; reflexivity.
Qed.

Lemma set_cookie_In (l : list fiberctx.Cookie) (k : fiberctx.Cookie) :
  In k (fiberctx.set_cookie l k).
Proof.
  induction l as [|x l IH]; simpl; [auto|].
  destruct (String.eqb (fiberctx.Name x) (fiberctx.Name k)); simpl; auto.
Qed.

(** X10.  Every refusal of [Refresh] looks the same from outside.  When the
    cookie does not parse as a valid token the answer is 401
    "unauthenticated" and nothing else happens: the table is untouched
    (the token is not even looked up) and no cookie is set or cleared.
    When the token is valid but the rotation returns an error, whichever it
    is (unknown token, reuse, signing or database failure), the answer is 403
    "Invalid token" with the refresh_token cookie cleared, and the table is
    the one the rotation left. *)
Theorem Refresh_refusals (deps : Deps) (env : Env) (db : gorm.Table)
    (c : fiberctx.Ctx) :
  let tok := fiberctx.Cookies c "refresh_token" in
  ((forall t, helpers_jwt.ParseToken deps tok = inl t ->
              jwtv5.Valid t = false) ->
   handlers_auth.Refresh deps env db c
   = (db,
      fiberctx.mkCtx (fiberctx.headers c) (fiberctx.cookies c)
        (fiberctx.params c) (fiberctx.request_body c) 401
        (fiberctx.response_cookies c)
        (Some (fiberctx.JMap [("message", "unauthenticated")]%string)),
      None)) /\
  (forall t err,
      helpers_jwt.ParseToken deps tok = inl t ->
      jwtv5.Valid t = true ->
      snd (snd (RotateRefreshToken env db tok)) = Some err ->
      handlers_auth.Refresh deps env db c
      = (fst (RotateRefreshToken env db tok),
         fiberctx.mkCtx (fiberctx.headers c) (fiberctx.cookies c)
           (fiberctx.params c) (fiberctx.request_body c) 403
           (filter (fun k => negb (String.eqb (fiberctx.Name k) "refresh_token"))
                   (fiberctx.response_cookies c)
              ++ [fiberctx.mkCookie "refresh_token" EmptyString
                    fiber.CookieExpireDelete false EmptyString false])
           (Some (fiberctx.JMap [("error", "Invalid token")]%string)),
         None)).
Proof.
  intros tok. split.
  - apply Refresh_unparsed.
  - intros t err HP HV Herr. rewrite (Refresh_parsed deps env db c t HP HV).
    fold tok. destruct (RotateRefreshToken env db tok) as [db' [[a r] e]].
    cbn [fst snd] in *. subst e. reflexivity.
Qed.

Lemma Refresh_refusals_witness :
  handlers_auth.Refresh scenario_app.deps_no_token lite.env1 lite.db
    lite.refresh_request
  = (lite.db,
     fiberctx.mkCtx [] [("refresh_token"%string, lite.token)] []
       EmptyString 401 []
       (Some (fiberctx.JMap [("message", "unauthenticated")]%string)),
     None).
Proof.
  apply (proj1 (Refresh_refusals scenario_app.deps_no_token lite.env1
                  lite.db lite.refresh_request)).
  intros t H. discriminate H.
Defined.



(** ** Login *)

(** The refresh token [Login] puts in the cookie. *)
Lemma Login_checked (deps : Deps) (env : Env) (users : gorm_users.Table)
    (db : gorm.Table) (c : fiberctx.Ctx) (data : dtos.LoginRequest.t)
    (u : models_user.User) :
  DecodeLogin deps (fiberctx.request_body c) = (data, None) ->
  ValidateLogin deps data = None ->
  gorm_users.First (UFault deps) users (dtos.LoginRequest.Email data) = inl u ->
  models_user.ID u <> uuid.Nil ->
  CompareHashAndPassword deps (models_user.Password u)
    (dtos.LoginRequest.Password data) = true ->
  let token :=
    helpers_jwt.token_or_empty
      (helpers.GenerateToken env (uuid.String (models_user.ID u))
         (time.Add (Now env 0) (time.Minute * 15))) in
  let refreshToken :=
    helpers_jwt.token_or_empty
      (helpers.GenerateToken env (uuid.String (models_user.ID u))
         (time.Add (Now env 1) (time.Hour * 24 * 7))) in
  handlers_auth.Login deps env users db c
  = match StoreRefreshToken (later 3 env) db (models_user.ID u) refreshToken
            (time.Add (Now env 2) (7 * 24 * time.Hour)) with
    | (_, Some err) =>
        (db,
         fiberctx.mkCtx (fiberctx.headers c) (fiberctx.cookies c)
           (fiberctx.params c) (fiberctx.request_body c) 500
           (fiberctx.response_cookies c)
           (Some (fiberctx.JMap [("error"%string, Error_ deps err)])),
         None)
    | (db', None) =>
        (db',
         fiberctx.mkCtx (fiberctx.headers c) (fiberctx.cookies c)
           (fiberctx.params c) (fiberctx.request_body c) (fiberctx.status c)
           (fiberctx.set_cookie (fiberctx.response_cookies c)
              (fiberctx.mkCookie "refresh_token" refreshToken
                 (time.Add (Now env 4) (time.Hour * 24 * 7))
                 true "Lax" false))
           (Some (fiberctx.JMap
                    [("message", "Login successfully"); ("token", token)]%string)),
         None)
    end.
Proof.
  intros HD HV HF Hid HC token refreshToken.
  unfold handlers_auth.Login. rewrite HD, HV, HF.
  destruct (models_user.ID u =? uuid.Nil) eqn:He;
    [apply Z.eqb_eq in He; contradiction|].
  rewrite HC. cbn [negb]. fold token. fold refreshToken.
  destruct (StoreRefreshToken _ _ _ _ _) as [db' [err|]]; reflexivity.
Qed.



(** X13.  The cookie of a login is the key of the session it stored.  When
    the request is decoded and valid, the user is found and the password
    matches, and the INSERT goes through with a free uuid, [Login] adds one
    session, of that user, not revoked, expiring seven days after the clock
    reading, keyed by the hash of the value of the HttpOnly refresh_token
    cookie it sets; the status stays as it was (200) and the body carries
    the access token.  If no earlier session had that hash, a lookup of the
    cookie's value finds the new session.  The tokens are whatever
    [GenerateToken] returned: the empty string when signing failed, since
    its error is dropped. *)
Theorem Login_success (deps : Deps) (env : Env) (users : gorm_users.Table)
    (db : gorm.Table) (c : fiberctx.Ctx) (data : dtos.LoginRequest.t)
    (u : models_user.User) (f : gorm.faults) :
  DecodeLogin deps (fiberctx.request_body c) = (data, None) ->
  ValidateLogin deps data = None ->
  gorm_users.First (UFault deps) users (dtos.LoginRequest.Email data) = inl u ->
  models_user.ID u <> uuid.Nil ->
  CompareHashAndPassword deps (models_user.Password u)
    (dtos.LoginRequest.Password data) = true ->
  Fault env gorm.StCreate = None ->
  ~ In (uuid.New (Rand env gorm.StCreate)) (map ID db) ->
  let token :=
    helpers_jwt.token_or_empty
      (helpers.GenerateToken env (uuid.String (models_user.ID u))
         (time.Add (Now env 0) (time.Minute * 15))) in
  let refreshToken :=
    helpers_jwt.token_or_empty
      (helpers.GenerateToken env (uuid.String (models_user.ID u))
         (time.Add (Now env 1) (time.Hour * 24 * 7))) in
  let row :=
    mkRefreshToken (uuid.New (Rand env gorm.StCreate)) (models_user.ID u)
      (HashToken refreshToken) false
      (time.Add (Now env 2) (7 * 24 * time.Hour)) (Now env 3) in
  let cookie :=
    fiberctx.mkCookie "refresh_token" refreshToken
      (time.Add (Now env 4) (time.Hour * 24 * 7)) true "Lax" false in
  exists c',
    handlers_auth.Login deps env users db c = (db ++ [row], c', None) /\
    fiberctx.status c' = fiberctx.status c /\
    fiberctx.body c'
    = Some (fiberctx.JMap
              [("message", "Login successfully"); ("token", token)]%string) /\
    In cookie (fiberctx.response_cookies c') /\
    TokenHash row = HashToken (fiberctx.Value cookie) /\
    (f gorm.StFirst = None ->
     (forall r, In r db -> TokenHash r <> HashToken refreshToken) ->
     gorm.First f (db ++ [row]) (HashToken (fiberctx.Value cookie)) = inl row).
Proof.
  intros HD HV HF Hid HC Hf Hfresh token refreshToken row cookie.
  assert (HS : StoreRefreshToken (later 3 env) db (models_user.ID u)
                 refreshToken (time.Add (Now env 2) (7 * 24 * time.Hour))
               = (db ++ [row], None)).
  { unfold StoreRefreshToken. apply Create_fresh; assumption. }
  eexists. split.
  - rewrite (Login_checked deps env users db c data u HD HV HF Hid HC).
    cbv zeta. fold refreshToken. rewrite HS. reflexivity.
  - cbn [fiberctx.status fiberctx.body fiberctx.response_cookies].
    split; [reflexivity|]. split; [reflexivity|].
    split; [apply set_cookie_In|]. split; [reflexivity|].
    intros HfF Hnew.
    apply (First_unique f _ row HfF).
    + apply in_or_app. right. left. reflexivity.
    + intros r Hin Hh. apply in_app_or in Hin.
      destruct Hin as [Hin | [<- | []]]; [|reflexivity].
      elim (Hnew r Hin Hh).
Qed.

Lemma Login_success_witness :
  exists c',
    handlers_auth.Login scenario_app.deps scenario.env_login
      scenario_app.users_ann [] scenario_app.register_request
    = ([] ++ [mkRefreshToken (uuid.New 1) (models_user.ID scenario_app.ann)
                (HashToken
                   (helpers_jwt.token_or_empty
                      (helpers.GenerateToken scenario.env_login
                         (uuid.String (models_user.ID scenario_app.ann))
                         (time.Add scenario.t_login (time.Hour * 24 * 7)))))
                false (time.Add scenario.t_login (7 * 24 * time.Hour))
                scenario.t_login], c', None).
Proof.
  destruct (Login_success scenario_app.deps scenario.env_login
              scenario_app.users_ann [] scenario_app.register_request
              scenario_app.ann_login scenario_app.ann scenario.no_fault)
    as [c' [H _]].
  - reflexivity.
  - reflexivity.
  - vm_compute. reflexivity.
  - vm_compute. discriminate.
  - vm_compute. reflexivity.
  - reflexivity.
  - simpl. tauto.
  - exists c'. exact H.
Defined.

(** X14.  A login whose session cannot be stored fails closed.  When
    everything up to the INSERT went well but the database rejects the
    INSERT, or the uuid drawn is already a primary key, [Login] answers 500
    with the text of the error, sets no cookie and leaves the table as it
    was. *)
Theorem Login_store_failure (deps : Deps) (env : Env)
    (users : gorm_users.Table) (db : gorm.Table) (c : fiberctx.Ctx)
    (data : dtos.LoginRequest.t) (u : models_user.User) :
  DecodeLogin deps (fiberctx.request_body c) = (data, None) ->
  ValidateLogin deps data = None ->
  gorm_users.First (UFault deps) users (dtos.LoginRequest.Email data) = inl u ->
  models_user.ID u <> uuid.Nil ->
  CompareHashAndPassword deps (models_user.Password u)
    (dtos.LoginRequest.Password data) = true ->
  Fault env gorm.StCreate <> None \/
  In (uuid.New (Rand env gorm.StCreate)) (map ID db) ->
  exists err,
    handlers_auth.Login deps env users db c
    = (db,
       fiberctx.mkCtx (fiberctx.headers c) (fiberctx.cookies c)
         (fiberctx.params c) (fiberctx.request_body c) 500
         (fiberctx.response_cookies c)
         (Some (fiberctx.JMap [("error"%string, Error_ deps err)])),
       None).
Proof.
  intros HD HV HF Hid HC Hfail.
  rewrite (Login_checked deps env users db c data u HD HV HF Hid HC).
  cbv zeta.
  assert (HS : exists err,
             StoreRefreshToken (later 3 env) db (models_user.ID u)
               (helpers_jwt.token_or_empty
                  (helpers.GenerateToken env
                     (uuid.String (models_user.ID u))
                     (time.Add (Now env 1) (time.Hour * 24 * 7))))
               (time.Add (Now env 2) (7 * 24 * time.Hour))
             = (db, Some err)).
  { unfold StoreRefreshToken. destruct Hfail as [Hf | Htaken].
    - unfold gorm.Create. cbn [Fault later].
      destruct (Fault env gorm.StCreate) as [code|]; [eauto | congruence].
    - apply Create_key_taken. exact Htaken. }
  destruct HS as [err HS]. rewrite HS. exists err. reflexivity.
Qed.

Lemma Login_store_failure_witness :
  exists err,
    handlers_auth.Login scenario_app.deps scenario.env_insert_busy
      scenario_app.users_ann [] scenario_app.register_request
    = ([],
       fiberctx.mkCtx [] [] [] "{}" 500 []
         (Some (fiberctx.JMap
                  [("error"%string, Error_ scenario_app.deps err)])),
       None).
Proof.
  apply (Login_store_failure scenario_app.deps scenario.env_insert_busy
           scenario_app.users_ann [] scenario_app.register_request
           scenario_app.ann_login scenario_app.ann).
  - reflexivity.
  - reflexivity.
  - vm_compute. reflexivity.
  - vm_compute. discriminate.
  - vm_compute. reflexivity.
  - left. discriminate.
Defined.

(** ** The users table *)

Arguments uuid.String : simpl never.
Arguments gorm_users.key : simpl never.

Lemma existsb_none (A : Type) (p : A -> bool) (l : list A) :
  (forall x, In x l -> p x = false) -> existsb p l = false.
Proof.
  intros H. destruct (existsb p l) eqn:He; [|reflexivity].
  apply existsb_exists in He. destruct He as [x [Hin Hp]].
  rewrite (H x Hin) in Hp. discriminate Hp.
Qed.

Lemma find_none_all (A : Type) (p : A -> bool) (l : list A) :
  (forall x, In x l -> p x = false) -> find p l = None.
Proof.
  intros H. destruct (find p l) as [x|] eqn:Hf; [|reflexivity].
  apply find_some in Hf. destruct Hf as [Hin Hp].
  rewrite (H x Hin) in Hp. discriminate Hp.
Qed.

Lemma same_field_same_row (A B : Type) (g : A -> B) (l : list A) (r s : A) :
  NoDup (map g l) -> In r l -> In s l -> g r = g s -> r = s.
Proof.
  induction l as [|x rest IH]; simpl; intros Hnd Hr Hs Hg; [contradiction|].
  inversion Hnd as [|? ? Hnotin Hnd']; subst.
  destruct Hr as [<- | Hr]; destruct Hs as [<- | Hs].
  - reflexivity.
  - elim Hnotin. rewrite Hg. apply in_map, Hs.
  - elim Hnotin. rewrite <- Hg. apply in_map, Hr.
  - apply IH; assumption.
Qed.

Lemma ustamp_fields (now : time.Time) (u : models_user.User) :
  models_user.ID (gorm_users.stamp now u) = models_user.ID u /\
  models_user.Email (gorm_users.stamp now u) = models_user.Email u /\
  models_user.FirstName (gorm_users.stamp now u) = models_user.FirstName u /\
  models_user.LastName (gorm_users.stamp now u) = models_user.LastName u /\
  models_user.Password (gorm_users.stamp now u) = models_user.Password u.
Proof.
  unfold gorm_users.stamp.
  destruct (models_user.CreatedAt u =? time.zero);
    cbn [models_user.with_CreatedAt models_user.UpdatedAt];
    destruct (models_user.UpdatedAt u =? time.zero); repeat split.
Qed.

Lemma ustamp_key (now : time.Time) (u : models_user.User) :
  gorm_users.key (gorm_users.stamp now u) = gorm_users.key u.
Proof.
  unfold gorm_users.key. destruct (ustamp_fields now u) as [-> _].
  reflexivity.
Qed.

Lemma find_by_key (users : gorm_users.Table) (u : models_user.User) :
  NoDup (map gorm_users.key users) -> In u users ->
  find (fun r => String.eqb (gorm_users.key r) (gorm_users.key u)) users
  = Some u.
Proof.
  induction users as [|x rest IH]; cbn [find In map]; intros Hnd Hin;
    [contradiction|].
  inversion Hnd as [|? ? Hnotin Hnd']; subst.
  destruct (String.eqb (gorm_users.key x) (gorm_users.key u)) eqn:He.
  - apply String.eqb_eq in He. destruct Hin as [-> | Hin]; [reflexivity|].
    elim Hnotin. rewrite He. apply in_map, Hin.
  - destruct Hin as [-> | Hin].
    + rewrite String.eqb_refl in He. discriminate He.
    + apply IH; assumption.
Qed.

Lemma findUser_found (deps : Deps) (users : gorm_users.Table) (id : string)
    (u : models_user.User) :
  UFault deps gorm_users.StFind = None ->
  find (fun r => String.eqb (gorm_users.key r) id) users = Some u ->
  models_user.ID u <> uuid.Nil ->
  handlers_user.findUser deps users id models_user.zero = (u, None).
Proof.
  intros Hf Hfind Hid. unfold handlers_user.findUser, gorm_users.Find.
  rewrite Hf, Hfind.
  destruct (models_user.ID u =? uuid.Nil) eqn:He; [|reflexivity].
  apply Z.eqb_eq in He. contradiction.
Qed.

Lemma findUser_missing (deps : Deps) (users : gorm_users.Table) (id : string) :
  (forall r, In r users -> gorm_users.key r <> id) ->
  handlers_user.findUser deps users id models_user.zero
  = (models_user.zero, Some "user does not exist"%string).
Proof.
  intros Hno. unfold handlers_user.findUser, gorm_users.Find.
  destruct (UFault deps gorm_users.StFind); [reflexivity|].
  rewrite find_none_all; [reflexivity|].
  intros r Hin. apply String.eqb_neq, Hno, Hin.
Qed.

Lemma Register_valid (deps : Deps) (env : Env) (users : gorm_users.Table)
    (c : fiberctx.Ctx) :
  let data := fst (DecodeRegister deps (fiberctx.request_body c)) in
  ValidateRegister deps data = None ->
  let password :=
    match GenerateFromPassword deps (dtos.RegisterRequest.Password data) 12 with
    | Some hash => hash
    | None => EmptyString
    end in
  let user :=
    models_user.mkUser uuid.Nil (dtos.RegisterRequest.FirstName data)
      (dtos.RegisterRequest.LastName data) (dtos.RegisterRequest.Email data)
      password time.zero time.zero in
  handlers_auth.Register deps env users c
  = match gorm_users.Create (UFault deps) (Rand env gorm.StCreate) (Now env 0)
            users user with
    | (_, _, Some _) =>
        (users,
         fiberctx.mkCtx (fiberctx.headers c) (fiberctx.cookies c)
           (fiberctx.params c) (fiberctx.request_body c) 400
           (fiberctx.response_cookies c)
           (Some (fiberctx.JMap [("error", "Could not create user")]%string)),
         None)
    | (users', user', None) =>
        (users',
         fiberctx.mkCtx (fiberctx.headers c) (fiberctx.cookies c)
           (fiberctx.params c) (fiberctx.request_body c) 200
           (fiberctx.response_cookies c)
           (Some (fiberctx.JUser (dtos.CreateResponseUser user'))),
         None)
    end.
Proof.
  intros data HV password user. subst user password data.
  unfold handlers_auth.Register.
  destruct (DecodeRegister deps (fiberctx.request_body c)) as [data perr].
  cbn [fst] in *. rewrite HV.
  destruct (gorm_users.Create _ _ _ _ _) as [[users' user'] [e|]];
    destruct perr; reflexivity.
Qed.

(** X15.  A registered user can be read back, and a decoding error alone
    does not stop a registration.  Whenever the struct left by the decoder
    passes validation (whether or not the decoder reported an error), the
    INSERT goes through and the id drawn and the email are new to the table,
    [Register] adds one user and answers 200 with the user's id, names and
    email; a [GetUser] on that id then answers 200 with the same data. *)
Theorem Register_then_GetUser (deps deps2 : Deps) (env : Env)
    (users : gorm_users.Table) (c c2 : fiberctx.Ctx) :
  let data := fst (DecodeRegister deps (fiberctx.request_body c)) in
  let id := uuid.String (uuid.New (Rand env gorm.StCreate)) in
  let dto :=
    dtos.mkUser id (dtos.RegisterRequest.FirstName data)
      (dtos.RegisterRequest.LastName data) (dtos.RegisterRequest.Email data) in
  ValidateRegister deps data = None ->
  UFault deps gorm_users.StCreate = None ->
  (forall r, In r users -> gorm_users.key r <> id) ->
  (forall r, In r users ->
             models_user.Email r <> dtos.RegisterRequest.Email data) ->
  UFault deps2 gorm_users.StFind = None ->
  fiberctx.Params c2 "id" = id ->
  exists u,
    handlers_auth.Register deps env users c
    = (users ++ [u],
       fiberctx.mkCtx (fiberctx.headers c) (fiberctx.cookies c)
         (fiberctx.params c) (fiberctx.request_body c) 200
         (fiberctx.response_cookies c) (Some (fiberctx.JUser dto)),
       None) /\
    handlers_user.GetUser deps2 (users ++ [u]) c2
    = (fiberctx.mkCtx (fiberctx.headers c2) (fiberctx.cookies c2)
         (fiberctx.params c2) (fiberctx.request_body c2) 200
         (fiberctx.response_cookies c2) (Some (fiberctx.JUser dto)),
       None).
Proof.
  intros data id dto HV Hf Hkey Hemail Hf2 Hid.
  pose proof (Register_valid deps env users c HV) as HR. cbv zeta in HR.
  fold data in HR.
  set (user := models_user.mkUser uuid.Nil
                 (dtos.RegisterRequest.FirstName data)
                 (dtos.RegisterRequest.LastName data)
                 (dtos.RegisterRequest.Email data)
                 match GenerateFromPassword deps
                         (dtos.RegisterRequest.Password data) 12 with
                 | Some hash => hash
                 | None => EmptyString
                 end time.zero time.zero) in *.
  set (u := gorm_users.stamp (Now env 0)
              (models_user.BeforeCreate (Rand env gorm.StCreate) user)).
  assert (Hukey : gorm_users.key u = id).
  { subst u. rewrite ustamp_key. reflexivity. }
  assert (Hufields : models_user.ID u = uuid.New (Rand env gorm.StCreate) /\
                     models_user.Email u = dtos.RegisterRequest.Email data /\
                     models_user.FirstName u
                     = dtos.RegisterRequest.FirstName data /\
                     models_user.LastName u
                     = dtos.RegisterRequest.LastName data).
  { subst u. destruct (ustamp_fields (Now env 0)
                         (models_user.BeforeCreate (Rand env gorm.StCreate) user))
      as [H1 [H2 [H3 [H4 _]]]].
    rewrite H1, H2, H3, H4. repeat split. }
  destruct Hufields as [HuID [HuE [HuF HuL]]].
  assert (Hdto : dtos.CreateResponseUser u = dto).
  { unfold dtos.CreateResponseUser. rewrite HuID, HuE, HuF, HuL. reflexivity. }
  assert (HC : gorm_users.Create (UFault deps) (Rand env gorm.StCreate)
                 (Now env 0) users user = (users ++ [u], u, None)).
  { unfold gorm_users.Create. rewrite Hf. unfold gorm_users.insert. fold u.
    rewrite existsb_none.
    2:{ intros r Hin. apply String.eqb_neq. rewrite Hukey. apply Hkey, Hin. }
    rewrite existsb_none.
    2:{ intros r Hin. apply String.eqb_neq. rewrite HuE. apply Hemail, Hin. }
    reflexivity. }
  exists u. split.
  - rewrite HR, HC, Hdto. reflexivity.
  - unfold handlers_user.GetUser. rewrite Hid.
    rewrite (findUser_found deps2 (users ++ [u]) id u Hf2).
    + rewrite Hdto. reflexivity.
    + rewrite find_snoc, find_none_all.
      * rewrite Hukey, String.eqb_refl. reflexivity.
      * intros r Hin. apply String.eqb_neq, Hkey, Hin.
    + rewrite HuID. apply uuid_New_not_Nil.
Qed.

Lemma Register_then_GetUser_witness :
  exists u,
    handlers_auth.Register scenario_app.deps_decode_error scenario.env_login []
      scenario_app.register_request
    = ([] ++ [u],
       fiberctx.mkCtx [] [] [] "{}" 200 []
         (Some (fiberctx.JUser
                  (dtos.mkUser "00000000-0000-4000-8000-000000000001"
                     "Ann" "Lee" "ann@example.com"))),
       None) /\
    handlers_user.GetUser scenario_app.deps ([] ++ [u]) scenario_app.ann_route
    = (fiberctx.mkCtx []  []
         [("id"%string, "00000000-0000-4000-8000-000000000001"%string)]
         "{}" 200 []
         (Some (fiberctx.JUser
                  (dtos.mkUser "00000000-0000-4000-8000-000000000001"
                     "Ann" "Lee" "ann@example.com"))),
       None).
Proof.
  apply (Register_then_GetUser scenario_app.deps_decode_error scenario_app.deps
           scenario.env_login [] scenario_app.register_request
           scenario_app.ann_route).
  - reflexivity.
  - reflexivity.
  - intros r [].
  - intros r [].
  - reflexivity.
  - vm_compute. reflexivity.
Defined.

(** X16.  What makes [Register] refuse.  A struct that fails validation is
    answered 400 with the formatted validation errors; a valid one whose
    INSERT fails (a database fault, or an email or id that some user
    already has) is answered 400 "Could not create user".  The users table
    is unchanged in both cases. *)
Theorem Register_refusals (deps : Deps) (env : Env) (users : gorm_users.Table)
    (c : fiberctx.Ctx) :
  let data := fst (DecodeRegister deps (fiberctx.request_body c)) in
  (forall err,
      ValidateRegister deps data = Some err ->
      handlers_auth.Register deps env users c
      = (users,
         fiberctx.mkCtx (fiberctx.headers c) (fiberctx.cookies c)
           (fiberctx.params c) (fiberctx.request_body c) 400
           (fiberctx.response_cookies c)
           (Some (fiberctx.JMap (validation.FormatValidationErrors err))),
         None)) /\
  (ValidateRegister deps data = None ->
   UFault deps gorm_users.StCreate <> None \/
   In (dtos.RegisterRequest.Email data) (map models_user.Email users) \/
   In (uuid.String (uuid.New (Rand env gorm.StCreate)))
      (map gorm_users.key users) ->
   handlers_auth.Register deps env users c
   = (users,
      fiberctx.mkCtx (fiberctx.headers c) (fiberctx.cookies c)
        (fiberctx.params c) (fiberctx.request_body c) 400
        (fiberctx.response_cookies c)
        (Some (fiberctx.JMap [("error", "Could not create user")]%string)),
      None)).
Proof.
  intros data. split.
  - intros err HV. subst data. unfold handlers_auth.Register.
    destruct (DecodeRegister deps (fiberctx.request_body c)) as [d perr].
    cbn [fst] in HV. rewrite HV. destruct perr; reflexivity.
  - intros HV Hfail.
    pose proof (Register_valid deps env users c HV) as HR. cbv zeta in HR.
    fold data in HR. rewrite HR. clear HR.
    unfold gorm_users.Create.
    destruct (UFault deps gorm_users.StCreate) as [code|] eqn:Hf;
      [reflexivity|].
    destruct Hfail as [H | Hfail]; [congruence|].
    unfold gorm_users.insert.
    match goal with
    | |- context [gorm_users.stamp ?n ?v] => set (u := gorm_users.stamp n v)
    end.
    destruct (existsb (fun r => String.eqb (gorm_users.key r) (gorm_users.key u))
                users) eqn:Hk; [reflexivity|].
    destruct (existsb (fun r => String.eqb (models_user.Email r)
                                  (models_user.Email u)) users) eqn:He;
      [reflexivity|].
    exfalso. destruct Hfail as [Hemail | Hkey].
    + apply in_map_iff in Hemail. destruct Hemail as [r [Hr Hin]].
      assert (Ht : existsb (fun r => String.eqb (models_user.Email r)
                                       (models_user.Email u)) users = true).
      { apply existsb_exists. exists r. split; [assumption|].
        apply String.eqb_eq. rewrite Hr. subst u.
        destruct (ustamp_fields (Now env 0)
                    (models_user.BeforeCreate (Rand env gorm.StCreate)
                       (models_user.mkUser uuid.Nil
                          (dtos.RegisterRequest.FirstName data)
                          (dtos.RegisterRequest.LastName data)
                          (dtos.RegisterRequest.Email data)
                          match GenerateFromPassword deps
                                  (dtos.RegisterRequest.Password data) 12 with
                          | Some hash => hash
                          | None => EmptyString
                          end time.zero time.zero)))
          as [_ [H2 _]].
        rewrite H2. reflexivity. }
      congruence.
    + apply in_map_iff in Hkey. destruct Hkey as [r [Hr Hin]].
      assert (Ht : existsb (fun r => String.eqb (gorm_users.key r)
                                       (gorm_users.key u)) users = true).
      { apply existsb_exists. exists r. split; [assumption|].
        apply String.eqb_eq. rewrite Hr. subst u. rewrite ustamp_key.
        reflexivity. }
      congruence.
Qed.

Lemma Register_refusals_witness :
  handlers_auth.Register scenario_app.deps scenario.env_hour
    scenario_app.users_ann scenario_app.register_request
  = (scenario_app.users_ann,
     fiberctx.mkCtx [] [] [] "{}" 400 []
       (Some (fiberctx.JMap [("error", "Could not create user")]%string)),
     None).
Proof.
  apply (proj2 (Register_refusals scenario_app.deps scenario.env_hour
                  scenario_app.users_ann scenario_app.register_request)).
  - reflexivity.
  - right. left. vm_compute. left. reflexivity.
Defined.

(** ** UpdateUser and DeleteUser *)

Lemma users_ok_ID (users : gorm_users.Table) (u : models_user.User) :
  users_ok users -> In u users -> models_user.ID u <> uuid.Nil.
Proof.
  intros [_ [_ Hk]] Hin. rewrite Forall_forall in Hk. apply Hk, Hin.
Qed.

(** The user [UpdateUser] passes to [Save]. *)
Lemma UpdateUser_found (deps : Deps) (env : Env) (users : gorm_users.Table)
    (c : fiberctx.Ctx) (upd : dtos.UpdateUser.t) (u : models_user.User) :
  users_ok users ->
  DecodeUpdate deps (fiberctx.request_body c) = (upd, None) ->
  ValidateUpdate deps upd = None ->
  UFault deps gorm_users.StFind = None ->
  In u users ->
  fiberctx.Params c "id" = gorm_users.key u ->
  let v :=
    models_user.mkUser (models_user.ID u)
      (match dtos.UpdateUser.FirstName upd with
       | Some s => s | None => models_user.FirstName u end)
      (match dtos.UpdateUser.LastName upd with
       | Some s => s | None => models_user.LastName u end)
      (models_user.Email u) (models_user.Password u)
      (models_user.CreatedAt u) (models_user.UpdatedAt u) in
  handlers_user.UpdateUser deps env users c
  = match gorm_users.Save (UFault deps) (Rand env gorm.StSave) (Now env 0)
            users v with
    | (users', v', _) =>
        (users',
         fiberctx.mkCtx (fiberctx.headers c) (fiberctx.cookies c)
           (fiberctx.params c) (fiberctx.request_body c) 200
           (fiberctx.response_cookies c)
           (Some (fiberctx.JUser (dtos.CreateResponseUser v'))),
         None)
    end.
Proof.
  intros Hok HD HV Hf Hin Hid v.
  unfold handlers_user.UpdateUser. rewrite HD, HV, Hid.
  rewrite (findUser_found deps users (gorm_users.key u) u Hf).
  - assert (Hv : match dtos.UpdateUser.LastName upd with
                 | Some s =>
                     models_user.with_LastName
                       match dtos.UpdateUser.FirstName upd with
                       | Some s0 => models_user.with_FirstName u s0
                       | None => u
                       end s
                 | None =>
                     match dtos.UpdateUser.FirstName upd with
                     | Some s0 => models_user.with_FirstName u s0
                     | None => u
                     end
                 end = v).
    { subst v. destruct u as [id fn ln em pw cr up].
      destruct (dtos.UpdateUser.LastName upd);
        destruct (dtos.UpdateUser.FirstName upd); reflexivity. }
    rewrite Hv.
    destruct (gorm_users.Save _ _ _ _ _) as [[users' v'] e]. reflexivity.
  - destruct Hok as [Hk _]. apply find_by_key; assumption.
  - apply (users_ok_ID users u Hok Hin).
Qed.

Lemma key_of_ID (u v : models_user.User) :
  models_user.ID u = models_user.ID v -> gorm_users.key u = gorm_users.key v.
Proof. unfold gorm_users.key. intros ->. reflexivity. Qed.

(** X17.  [UpdateUser] changes the two names and nothing else.  For a
    stored user reached by its id, in a table with distinct ids and emails,
    a decoded and valid request whose UPDATE goes through replaces the
    first and last name by the ones given (an absent one is kept), sets
    [UpdatedAt] to the time of the call, and keeps the id, the email (an
    email in the request is ignored), the password and [CreatedAt]; every
    other user is left as it was; the answer is 200 with the new data. *)
Theorem UpdateUser_changes_names_only (deps : Deps) (env : Env)
    (users : gorm_users.Table) (c : fiberctx.Ctx) (upd : dtos.UpdateUser.t)
    (u : models_user.User) :
  users_ok users ->
  DecodeUpdate deps (fiberctx.request_body c) = (upd, None) ->
  ValidateUpdate deps upd = None ->
  UFault deps gorm_users.StFind = None ->
  UFault deps gorm_users.StSave = None ->
  In u users ->
  fiberctx.Params c "id" = gorm_users.key u ->
  let u' :=
    models_user.mkUser (models_user.ID u)
      (match dtos.UpdateUser.FirstName upd with
       | Some s => s | None => models_user.FirstName u end)
      (match dtos.UpdateUser.LastName upd with
       | Some s => s | None => models_user.LastName u end)
      (models_user.Email u) (models_user.Password u)
      (models_user.CreatedAt u) (Now env 0) in
  let users' :=
    map (fun r => if String.eqb (gorm_users.key r) (gorm_users.key u)
                  then u' else r) users in
  handlers_user.UpdateUser deps env users c
  = (users',
     fiberctx.mkCtx (fiberctx.headers c) (fiberctx.cookies c)
       (fiberctx.params c) (fiberctx.request_body c) 200
       (fiberctx.response_cookies c)
       (Some (fiberctx.JUser (dtos.CreateResponseUser u'))),
     None) /\
  In u' users' /\
  (forall i r, nth_error users i = Some r -> r <> u ->
               nth_error users' i = Some r).
Proof.
  intros Hok HD HV Hf HfS Hin Hid u' users'.
  pose proof (users_ok_ID users u Hok Hin) as Hnil.
  destruct Hok as [Hkeys [Hemails Hids]].
  split; [|split].
  - rewrite (UpdateUser_found deps env users c upd u
               (conj Hkeys (conj Hemails Hids)) HD HV Hf Hin Hid).
    cbv zeta. unfold gorm_users.Save. rewrite HfS.
    cbn [models_user.ID].
    destruct (models_user.ID u =? uuid.Nil) eqn:He;
      [apply Z.eqb_eq in He; contradiction|].
    match goal with
    | |- context [models_user.with_UpdatedAt ?v ?n] =>
        change (models_user.with_UpdatedAt v n) with u'
    end.
    assert (Hku : gorm_users.key u' = gorm_users.key u)
      by (apply key_of_ID; reflexivity).
    rewrite Hku.
    change (models_user.Email u') with (models_user.Email u).
    rewrite existsb_none.
    2:{ intros r Hr.
        destruct (String.eqb (models_user.Email r) (models_user.Email u))
          eqn:Hem; [|apply andb_false_r].
        apply String.eqb_eq in Hem.
        rewrite (same_field_same_row _ _ models_user.Email users r u
                   Hemails Hr Hin Hem).
        rewrite String.eqb_refl. reflexivity. }
    assert (Hex : existsb (fun r => String.eqb (gorm_users.key r)
                                      (gorm_users.key u)) users = true).
    { apply existsb_exists. exists u. split; [assumption|].
      apply String.eqb_refl. }
    rewrite Hex. reflexivity.
  - subst users'. apply in_map_iff. exists u. split; [|assumption].
    rewrite String.eqb_refl. reflexivity.
  - intros i r Hi Hne. subst users'. rewrite nth_error_map, Hi.
    cbn [option_map].
    destruct (String.eqb (gorm_users.key r) (gorm_users.key u)) eqn:He;
      [|reflexivity].
    apply String.eqb_eq in He. elim Hne.
    apply (same_field_same_row _ _ gorm_users.key users r u Hkeys
             (nth_error_In _ _ Hi) Hin He).
Qed.

Lemma scenario_users_ok : users_ok scenario_app.users_ann.
Proof.
  unfold users_ok. vm_compute.
  split; [|split]; repeat constructor; simpl; try tauto; discriminate.
Qed.

Lemma UpdateUser_changes_names_only_witness :
  In (models_user.mkUser (models_user.ID scenario_app.ann) "Anna" "Lee"
        "ann@example.com" "bcrypt:hunter22"
        (models_user.CreatedAt scenario_app.ann) (Now scenario.env_hour 0))
     (map (fun r =>
             if String.eqb (gorm_users.key r) (gorm_users.key scenario_app.ann)
             then models_user.mkUser (models_user.ID scenario_app.ann) "Anna"
                    "Lee" "ann@example.com" "bcrypt:hunter22"
                    (models_user.CreatedAt scenario_app.ann)
                    (Now scenario.env_hour 0)
             else r) scenario_app.users_ann).
Proof.
  refine (proj1 (proj2
    (UpdateUser_changes_names_only scenario_app.deps scenario.env_hour
       scenario_app.users_ann scenario_app.ann_route
       scenario_app.rename_request scenario_app.ann
       scenario_users_ok _ _ _ _ _ _))).
  - reflexivity.
  - reflexivity.
  - reflexivity.
  - reflexivity.
  - left. reflexivity.
  - reflexivity.
Defined.

(** X18.  [UpdateUser] reports names it did not store.  When the database
    rejects the UPDATE, the error of [Save] is dropped: the answer is still
    200 with the requested names, while the users table is unchanged. *)
Theorem UpdateUser_save_rejected (deps : Deps) (env : Env)
    (users : gorm_users.Table) (c : fiberctx.Ctx) (upd : dtos.UpdateUser.t)
    (u : models_user.User) (code : Z) :
  users_ok users ->
  DecodeUpdate deps (fiberctx.request_body c) = (upd, None) ->
  ValidateUpdate deps upd = None ->
  UFault deps gorm_users.StFind = None ->
  UFault deps gorm_users.StSave = Some code ->
  In u users ->
  fiberctx.Params c "id" = gorm_users.key u ->
  handlers_user.UpdateUser deps env users c
  = (users,
     fiberctx.mkCtx (fiberctx.headers c) (fiberctx.cookies c)
       (fiberctx.params c) (fiberctx.request_body c) 200
       (fiberctx.response_cookies c)
       (Some (fiberctx.JUser
                (dtos.mkUser (gorm_users.key u)
                   (match dtos.UpdateUser.FirstName upd with
                    | Some s => s | None => models_user.FirstName u end)
                   (match dtos.UpdateUser.LastName upd with
                    | Some s => s | None => models_user.LastName u end)
                   (models_user.Email u)))),
     None).
Proof.
  intros Hok HD HV Hf HfS Hin Hid.
  rewrite (UpdateUser_found deps env users c upd u Hok HD HV Hf Hin Hid).
  cbv zeta. unfold gorm_users.Save. rewrite HfS. reflexivity.
Qed.

Lemma UpdateUser_save_rejected_witness :
  handlers_user.UpdateUser scenario_app.deps_save_busy scenario.env_hour
    scenario_app.users_ann scenario_app.ann_route
  = (scenario_app.users_ann,
     fiberctx.mkCtx (fiberctx.headers scenario_app.ann_route)
       (fiberctx.cookies scenario_app.ann_route)
       (fiberctx.params scenario_app.ann_route)
       (fiberctx.request_body scenario_app.ann_route) 200
       (fiberctx.response_cookies scenario_app.ann_route)
       (Some (fiberctx.JUser
                (dtos.mkUser (gorm_users.key scenario_app.ann) "Anna"
                   (models_user.LastName scenario_app.ann)
                   (models_user.Email scenario_app.ann)))),
     None).
Proof.
  apply (UpdateUser_save_rejected scenario_app.deps_save_busy scenario.env_hour
           scenario_app.users_ann scenario_app.ann_route
           scenario_app.rename_request scenario_app.ann 5
           scenario_users_ok).
  - reflexivity.
  - reflexivity.
  - reflexivity.
  - reflexivity.
  - left. reflexivity.
  - reflexivity.
Defined.

(** X19.  A deleted user is gone.  For a stored user reached by its id,
    when the lookup and the DELETE go through, [DeleteUser] answers 200
    "User deleted successfully" and removes that user and no other; a
    [GetUser] on the same id afterwards is answered 400 "user does not
    exist", and so is a second [DeleteUser]. *)
Theorem DeleteUser_then_GetUser (deps deps2 : Deps)
    (users : gorm_users.Table) (c c2 : fiberctx.Ctx) (u : models_user.User) :
  users_ok users ->
  UFault deps gorm_users.StFind = None ->
  UFault deps gorm_users.StDelete = None ->
  In u users ->
  fiberctx.Params c "id" = gorm_users.key u ->
  fiberctx.Params c2 "id" = gorm_users.key u ->
  let users' :=
    filter (fun r => negb (String.eqb (gorm_users.key r) (gorm_users.key u)))
      users in
  let gone :=
    fiberctx.mkCtx (fiberctx.headers c2) (fiberctx.cookies c2)
      (fiberctx.params c2) (fiberctx.request_body c2) 400
      (fiberctx.response_cookies c2)
      (Some (fiberctx.JString "user does not exist")) in
  handlers_user.DeleteUser deps users c
  = (users',
     fiberctx.mkCtx (fiberctx.headers c) (fiberctx.cookies c)
       (fiberctx.params c) (fiberctx.request_body c) 200
       (fiberctx.response_cookies c)
       (Some (fiberctx.JMap [("message", "User deleted successfully")]%string)),
     None) /\
  ~ In u users' /\
  (forall r, In r users -> r <> u -> In r users') /\
  handlers_user.GetUser deps2 users' c2 = (gone, None) /\
  handlers_user.DeleteUser deps2 users' c2 = (users', gone, None).
Proof.
  intros Hok Hf HfD Hin Hid Hid2 users' gone.
  pose proof (users_ok_ID users u Hok Hin) as Hnil.
  destruct Hok as [Hkeys _].
  assert (Hgone : forall r, In r users' ->
                            gorm_users.key r <> gorm_users.key u).
  { intros r Hr. subst users'. apply filter_In in Hr. destruct Hr as [_ Hr].
    apply negb_true_iff, String.eqb_neq in Hr. exact Hr. }
  split; [|split; [|split; [|split]]].
  - unfold handlers_user.DeleteUser. rewrite Hid.
    rewrite (findUser_found deps users (gorm_users.key u) u Hf
               (find_by_key users u Hkeys Hin) Hnil).
    unfold gorm_users.Delete. rewrite HfD. reflexivity.
  - intros Hu. apply (Hgone u Hu). reflexivity.
  - intros r Hr Hne. subst users'. apply filter_In. split; [assumption|].
    apply negb_true_iff, String.eqb_neq. intros Hk. apply Hne.
    apply (same_field_same_row _ _ gorm_users.key users r u Hkeys Hr Hin Hk).
  - unfold handlers_user.GetUser. rewrite Hid2.
    rewrite (findUser_missing deps2 users' (gorm_users.key u) Hgone).
    reflexivity.
  - unfold handlers_user.DeleteUser. rewrite Hid2.
    rewrite (findUser_missing deps2 users' (gorm_users.key u) Hgone).
    reflexivity.
Qed.

Lemma DeleteUser_then_GetUser_witness :
  handlers_user.GetUser scenario_app.deps
    (filter (fun r => negb (String.eqb (gorm_users.key r)
                              (gorm_users.key scenario_app.ann)))
       scenario_app.users_ann) scenario_app.ann_route
  = (fiberctx.mkCtx (fiberctx.headers scenario_app.ann_route)
       (fiberctx.cookies scenario_app.ann_route)
       (fiberctx.params scenario_app.ann_route)
       (fiberctx.request_body scenario_app.ann_route) 400
       (fiberctx.response_cookies scenario_app.ann_route)
       (Some (fiberctx.JString "user does not exist")), None).
Proof.
  refine (proj1 (proj2 (proj2 (proj2
    (DeleteUser_then_GetUser scenario_app.deps scenario_app.deps
       scenario_app.users_ann scenario_app.ann_route scenario_app.ann_route
       scenario_app.ann scenario_users_ok _ _ _ _ _))))).
  - reflexivity.
  - reflexivity.
  - left. reflexivity.
  - reflexivity.
  - reflexivity.
Defined.

(** ** Ids and emails stay distinct *)

Lemma NoDup_snoc_any (A : Type) (l : list A) (x : A) :
  NoDup l -> ~ In x l -> NoDup (l ++ [x]).
Proof.
  induction l as [|a l IH]; cbn [app]; intros Hnd Hx.
  - constructor; [intros []|constructor].
  - inversion Hnd as [|? ? Ha Hnd']; subst. constructor.
    + intros Hin. apply in_app_or in Hin. destruct Hin as [Hin | [-> | []]].
      * contradiction.
      * apply Hx. left. reflexivity.
    + apply IH; [assumption|]. intros Hin. apply Hx. right. exact Hin.
Qed.

Lemma NoDup_map_filter (A B : Type) (g : A -> B) (p : A -> bool) (l : list A) :
  NoDup (map g l) -> NoDup (map g (filter p l)).
Proof.
  induction l as [|x l IH]; cbn [map filter]; intros Hnd; [constructor|].
  inversion Hnd as [|? ? Hx Hnd']; subst.
  destruct (p x); cbn [map]; [|apply IH, Hnd'].
  constructor; [|apply IH, Hnd'].
  intros Hin. apply Hx. apply in_map_iff in Hin.
  destruct Hin as [y [Hy Hin]]. apply filter_In in Hin.
  apply in_map_iff. exists y. tauto.
Qed.

Lemma existsb_false_not_In (A : Type) (g : A -> string) (l : list A)
    (x : string) :
  existsb (fun r => String.eqb (g r) x) l = false -> ~ In x (map g l).
Proof.
  intros He Hin. apply in_map_iff in Hin. destruct Hin as [r [Hr Hin]].
  assert (Ht : existsb (fun r => String.eqb (g r) x) l = true).
  { apply existsb_exists. exists r. split; [assumption|].
    apply String.eqb_eq, Hr. }
  congruence.
Qed.

Lemma users_insert_ok (rand : Z) (now : time.Time) (t : gorm_users.Table)
    (v : models_user.User) :
  users_ok t -> users_ok (fst (fst (gorm_users.insert rand now t v))).
Proof.
  intros [Hk [He Hi]]. unfold gorm_users.insert.
  set (u := gorm_users.stamp now (models_user.BeforeCreate rand v)).
  destruct (existsb (fun r => String.eqb (gorm_users.key r) (gorm_users.key u))
              t) eqn:Hek; cbn [fst]; [repeat split; assumption|].
  destruct (existsb (fun r => String.eqb (models_user.Email r)
                                (models_user.Email u)) t) eqn:Hee;
    cbn [fst]; [repeat split; assumption|].
  split; [|split].
  - rewrite map_app. apply NoDup_snoc_any; [assumption|].
    apply (existsb_false_not_In _ gorm_users.key), Hek.
  - rewrite map_app. apply NoDup_snoc_any; [assumption|].
    apply (existsb_false_not_In _ models_user.Email), Hee.
  - apply Forall_app. split; [assumption|]. constructor; [|constructor].
    subst u. destruct (ustamp_fields now (models_user.BeforeCreate rand v))
      as [-> _].
    apply uuid_New_not_Nil.
Qed.

Lemma users_Create_ok (f : gorm_users.faults) (rand : Z) (now : time.Time)
    (t : gorm_users.Table) (v : models_user.User) :
  users_ok t -> users_ok (fst (fst (gorm_users.Create f rand now t v))).
Proof.
  intros H. unfold gorm_users.Create.
  destruct (f gorm_users.StCreate); cbn [fst];
    [assumption | apply users_insert_ok, H].
Qed.

Lemma replace_keeps_keys (v : models_user.User) (t : gorm_users.Table) :
  map gorm_users.key
    (map (fun r => if String.eqb (gorm_users.key r) (gorm_users.key v)
                   then v else r) t)
  = map gorm_users.key t.
Proof.
  rewrite map_map. apply map_ext. intros r.
  destruct (String.eqb (gorm_users.key r) (gorm_users.key v)) eqn:He;
    [|reflexivity].
  apply String.eqb_eq in He. congruence.
Qed.

Lemma replace_keeps_emails_distinct (v : models_user.User)
    (t : gorm_users.Table) :
  NoDup (map gorm_users.key t) ->
  NoDup (map models_user.Email t) ->
  (forall r, In r t -> gorm_users.key r <> gorm_users.key v ->
             models_user.Email r <> models_user.Email v) ->
  NoDup (map models_user.Email
           (map (fun r => if String.eqb (gorm_users.key r) (gorm_users.key v)
                          then v else r) t)).
Proof.
  induction t as [|x rest IH]; cbn [map]; intros Hk He Hother; [constructor|].
  inversion Hk as [|? ? Hkx Hk']; subst.
  inversion He as [|? ? Hex He']; subst.
  assert (IH' := IH Hk' He' (fun r Hr => Hother r (or_intror Hr))).
  constructor; [|exact IH'].
  intros Hin. apply in_map_iff in Hin. destruct Hin as [y [Hy Hin]].
  apply in_map_iff in Hin. destruct Hin as [r [Hr Hrin]].
  destruct (String.eqb (gorm_users.key x) (gorm_users.key v)) eqn:Hxv.
  - apply String.eqb_eq in Hxv.
    destruct (String.eqb (gorm_users.key r) (gorm_users.key v)) eqn:Hrv.
    + apply String.eqb_eq in Hrv. apply Hkx. rewrite Hxv, <- Hrv.
      apply in_map, Hrin.
    + apply String.eqb_neq in Hrv. subst y.
      apply (Hother r (or_intror Hrin) Hrv). exact Hy.
  - apply String.eqb_neq in Hxv.
    destruct (String.eqb (gorm_users.key r) (gorm_users.key v)) eqn:Hrv.
    + subst y. apply (Hother x (or_introl eq_refl) Hxv). symmetry. exact Hy.
    + subst y. apply Hex. rewrite <- Hy. apply in_map, Hrin.
Qed.

Lemma users_Save_ok (f : gorm_users.faults) (rand : Z) (now : time.Time)
    (t : gorm_users.Table) (v : models_user.User) :
  users_ok t -> users_ok (fst (fst (gorm_users.Save f rand now t v))).
Proof.
  intros H. unfold gorm_users.Save.
  destruct (f gorm_users.StSave); cbn [fst]; [assumption|].
  destruct (models_user.ID v =? uuid.Nil) eqn:Hnil;
    [apply users_insert_ok, H|].
  apply Z.eqb_neq in Hnil.
  set (w := models_user.with_UpdatedAt v now).
  assert (Hwid : models_user.ID w = models_user.ID v) by reflexivity.
  destruct (existsb (fun r => negb (String.eqb (gorm_users.key r)
                                      (gorm_users.key w))
                              && String.eqb (models_user.Email r)
                                   (models_user.Email w)) t) eqn:Hcol;
    cbn [fst]; [assumption|].
  assert (Hother : forall r, In r t ->
                     gorm_users.key r <> gorm_users.key w ->
                     models_user.Email r <> models_user.Email w).
  { intros r Hr Hk Hem.
    assert (Ht : existsb (fun r => negb (String.eqb (gorm_users.key r)
                                           (gorm_users.key w))
                                   && String.eqb (models_user.Email r)
                                        (models_user.Email w)) t = true).
    { apply existsb_exists. exists r. split; [assumption|].
      apply andb_true_iff. split.
      - apply negb_true_iff, String.eqb_neq, Hk.
      - apply String.eqb_eq, Hem. }
    congruence. }
  destruct H as [Hk [He Hi]].
  destruct (existsb (fun r => String.eqb (gorm_users.key r) (gorm_users.key w))
              t) eqn:Hex; cbn [fst].
  - split; [|split].
    + rewrite replace_keeps_keys. assumption.
    + apply replace_keeps_emails_distinct; assumption.
    + apply Forall_map. apply Forall_impl with (2 := Hi).
      intros r Hr.
      destruct (String.eqb (gorm_users.key r) (gorm_users.key w));
        [rewrite Hwid|]; assumption.
  - pose proof (existsb_false_not_In _ gorm_users.key t _ Hex) as Hfresh.
    split; [|split].
    + rewrite map_app. cbn [map]. rewrite ustamp_key.
      apply NoDup_snoc_any; assumption.
    + rewrite map_app. cbn [map].
      destruct (ustamp_fields now w) as [_ [-> _]].
      apply NoDup_snoc_any; [assumption|].
      intros Hin. apply in_map_iff in Hin. destruct Hin as [r [Hr Hrin]].
      apply (Hother r Hrin); [|exact Hr].
      intros Hkey. apply Hfresh. rewrite <- Hkey. apply in_map, Hrin.
    + apply Forall_app. split; [assumption|]. constructor; [|constructor].
      destruct (ustamp_fields now w) as [-> _]. rewrite Hwid. assumption.
Qed.

Lemma users_Delete_ok (f : gorm_users.faults) (t : gorm_users.Table)
    (v : models_user.User) :
  users_ok t -> users_ok (fst (gorm_users.Delete f t v)).
Proof.
  intros H. unfold gorm_users.Delete.
  destruct (f gorm_users.StDelete); cbn [fst]; [assumption|].
  destruct H as [Hk [He Hi]]. split; [|split].
  - apply NoDup_map_filter, Hk.
  - apply NoDup_map_filter, He.
  - rewrite Forall_forall in *. intros r Hr. apply filter_In in Hr.
    apply Hi. tauto.
Qed.

Lemma Register_ok (deps : Deps) (env : Env) (users : gorm_users.Table)
    (c : fiberctx.Ctx) :
  users_ok users ->
  users_ok (fst (fst (handlers_auth.Register deps env users c))).
Proof.
  intros H. unfold handlers_auth.Register.
  destruct (DecodeRegister deps (fiberctx.request_body c)) as [data perr].
  destruct (ValidateRegister deps data); [exact H|].
  match goal with
  | |- context [gorm_users.Create ?f ?r ?n ?t ?v] =>
      pose proof (users_Create_ok f r n t v H) as HC;
      destruct (gorm_users.Create f r n t v) as [[users' user'] [e|]]
  end; [exact H | exact HC].
Qed.

Lemma UpdateUser_ok (deps : Deps) (env : Env) (users : gorm_users.Table)
    (c : fiberctx.Ctx) :
  users_ok users ->
  users_ok (fst (fst (handlers_user.UpdateUser deps env users c))).
Proof.
  intros H. unfold handlers_user.UpdateUser.
  destruct (DecodeUpdate deps (fiberctx.request_body c)) as [upd [perr|]];
    [exact H|].
  destruct (ValidateUpdate deps upd); [exact H|].
  destruct (handlers_user.findUser deps users _ _) as [user [err|]];
    [exact H|].
  match goal with
  | |- context [gorm_users.Save ?f ?r ?n ?t ?v] =>
      pose proof (users_Save_ok f r n t v H) as HS;
      destruct (gorm_users.Save f r n t v) as [[users' user'] e]
  end. exact HS.
Qed.

Lemma DeleteUser_ok (deps : Deps) (users : gorm_users.Table)
    (c : fiberctx.Ctx) :
  users_ok users ->
  users_ok (fst (fst (handlers_user.DeleteUser deps users c))).
Proof.
  intros H. unfold handlers_user.DeleteUser.
  destruct (handlers_user.findUser deps users _ _) as [user [err|]];
    [exact H|].
  pose proof (users_Delete_ok (UFault deps) users user H) as HD.
  destruct (gorm_users.Delete (UFault deps) users user) as [users' [e|]];
    [exact H | exact HD].
Qed.

(** X20.  Ids and emails of users stay distinct.  Over any sequence of
    [Register], [UpdateUser] and [DeleteUser] calls, with any libraries,
    clocks, uuids drawn and database faults, a users table whose ids are
    pairwise distinct and not [uuid.Nil] and whose emails are pairwise
    distinct remains so; in particular no two registered users ever share an
    email. *)
Theorem users_stay_distinct (calls : list (Deps * Env * user_op))
    (users : gorm_users.Table) :
  users_ok users -> users_ok (user_run calls users).
Proof.
  revert users.
  induction calls as [|[[deps env] o] rest IH]; intros users H;
    cbn [user_run]; [exact H|].
  apply IH. destruct o as [c | c | c]; cbn [user_exec].
  - apply Register_ok, H.
  - apply UpdateUser_ok, H.
  - apply DeleteUser_ok, H.
Qed.

Lemma users_stay_distinct_witness :
  users_ok
    (user_run
       [(scenario_app.deps, scenario.env_login,
         OpRegister scenario_app.register_request);
        (scenario_app.deps, scenario.env_hour,
         OpRegister scenario_app.register_request);
        (scenario_app.deps, scenario.env_hour,
         OpUpdateUser scenario_app.ann_route)] []).
Proof.
  apply (users_stay_distinct
           [(scenario_app.deps, scenario.env_login,
             OpRegister scenario_app.register_request);
            (scenario_app.deps, scenario.env_hour,
             OpRegister scenario_app.register_request);
            (scenario_app.deps, scenario.env_hour,
             OpUpdateUser scenario_app.ann_route)] []).
  unfold users_ok. cbn [map]. repeat split; constructor.
Defined.

